(** * btc-dashboard: channel, strategy and backtest engines

    A shallow embedding of [core/utils.py], [core/strategy.py],
    [core/backtest.py] and of the channel stages of [core/data_store.py],
    with the properties of the specification stated over it.

    Numeric model.  Python floats are embedded as exact rationals extended
    with the three non-finite values of IEEE arithmetic ([pyfloat]); finite
    arithmetic is exact (no rounding, no overflow), so equalities between
    finite results are stated with the setoid equality [==] of [Q].  A
    quantity that the code only ever uses after an [np.isfinite] guard, or
    that is a configuration value or an allocation fraction, is a plain [Q]. *)

From Stdlib Require Import QArith Qminmax ZArith String List Sorted Bool Lia Lqa.
Import ListNotations.
Open Scope Q_scope.

(** ** Floats and the Python built-ins used by the engines *)

Module Py.

(** A Python/NumPy float: a finite value or one of [inf], [-inf], [nan]. *)
Inductive pyfloat : Type :=
| Fin (q : Q)
| PInf
| NInf
| NaN.

(** [np.isfinite] *)
Definition isfinite (x : pyfloat) : bool :=
  match x with
  | Fin _ => true
  | _ => false
  end.

(** [a < b] on finite floats. *)
Definition Qltb (a b : Q) : bool := negb (Qle_bool b a).

(** Built-in [min(a, b)]: keeps the first argument unless the second is
    strictly smaller. *)
Definition py_min (a b : Q) : Q := if Qltb b a then b else a.

(** Built-in [max(a, b)]: keeps the first argument unless the second is
    strictly greater. *)
Definition py_max (a b : Q) : Q := if Qltb a b then b else a.

(** Built-in [abs]. *)
Definition py_abs (a : Q) : Q := if Qltb a 0 then - a else a.

(** [1e-9] and [1e-12] *)
Definition eps9 : Q := 1 # 1000000000.
Definition eps12 : Q := 1 # 1000000000000.

End Py.
Import Py.

(** ** [core/utils.py] *)

Module Utils.

(** [clamp(value, min_val, max_val)] *)
Definition clamp (value min_val max_val : Q) : Q :=
  py_max min_val (py_min max_val value).

(** One iteration of the loop of [max_drawdown]: the state is the running
    peak ([None] for the initial [-inf]) and the worst drawdown so far. *)
Definition drawdown_step (st : option Q * Q) (v : option pyfloat)
  : option Q * Q :=
  let '(peak, max_dd) := st in
  match v with
  | Some (Fin q) =>
      let peak' :=
        match peak with
        | None => q
        | Some p => if Qltb p q then q else p
        end in
      let dd := if Qltb 0 peak' then q / peak' - 1 else 0 in
      (Some peak', if Qltb dd max_dd then dd else max_dd)
  | _ => st
  end.

(** The worst drawdown after running the loop over [values] from the
    state [st]. *)
Definition max_drawdown_from (values : list (option pyfloat))
  (st : option Q * Q) : Q :=
  snd (fold_left drawdown_step values st).

(** [max_drawdown(values)] *)
Definition max_drawdown (values : list (option pyfloat)) : Q :=
  max_drawdown_from values (None, 0).

End Utils.
Import Utils.

(** ** Lists indexed and updated in place *)

Module PyList.

(** Fallible computations: [None] is a raised exception ([IndexError],
    [ValueError]). *)
Definition bind {A B : Type} (m : option A) (k : A -> option B) : option B :=
  match m with
  | Some a => k a
  | None => None
  end.

Notation "x <- m ;; k" := (bind m (fun x => k))
  (at level 61, m at next level, right associativity).

Notation "' p <- m ;; k" := (bind m (fun x => match x with p => k end))
  (at level 61, p pattern, m at next level, right associativity).

(** [l[i] = v] for [0 <= i]; raises when [i] is out of range. *)
Fixpoint list_set {A : Type} (l : list A) (i : nat) (v : A)
  : option (list A) :=
  match l, i with
  | [], _ => None
  | _ :: t, O => Some (v :: t)
  | h :: t, S j => t' <- list_set t j v ;; Some (h :: t')
  end.

(** [l[-1]]; raises on the empty list. *)
Definition last_item {A : Type} (l : list A) : option A :=
  nth_error l (length l - 1).

End PyList.
Import PyList.

(** ** [core/models.py]: the strategy value objects *)

Module Models.

Record StrategyParams : Type := {
  ladder : string;
  sell_start : Q;
  buy_threshold : Q;
  reentry_mode : string;
  start_weight : Q;
  start_date : string
}.

(** The field defaults of the dataclass. *)
Definition default_params : StrategyParams := {|
  ladder := "g1";
  sell_start := 46;
  buy_threshold := 14;
  reentry_mode := "instant";
  start_weight := 1;
  start_date := "2018-01-01"
|}.

Record StrategyStep : Type := {
  weight : Q;
  action : string;
  tag : string
}.

(** The [last_trade] dictionary of [compute_weight_series]. *)
Record Trade : Type := {
  trade_date : string;
  trade_action : string;
  trade_ratio : pyfloat;
  trade_weight : Q;
  trade_tag : string
}.

Record BacktestResult : Type := {
  dates : list string;
  weights : list (option Q);
  strategy_equity : list (option Q);
  hodl_equity : list (option Q);
  strategy_return : Q;
  hodl_return : Q;
  strategy_max_drawdown : Q;
  hodl_max_drawdown : Q;
  last_trade : option Trade
}.

End Models.
Import Models.

(** ** [core/strategy.py] *)

Module StrategyEngine.

(** [StrategyEngine.sell_weight(ratio, sell_start, ladder)] *)
Definition sell_weight (ratio : pyfloat) (sell_start : Q) (ladder : string)
  : Q :=
  match ratio with
  | Fin r =>
      if Qle_bool r sell_start then 1
      else if Qle_bool 100 r then 0
      else
        let width := 100 - sell_start in
        if Qle_bool width 0 then 0
        else
          let x := clamp ((r - sell_start) / width) 0 1 in
          if (ladder =? "g0")%string then clamp (1 - x * x) 0 1
          else if (ladder =? "g2")%string then
            let base := clamp (1 - x) 0 1 in base * base
          else clamp (1 - x) 0 1
  | _ => 1
  end.

(** [StrategyEngine.target_weight(prev_weight, ratio, params)] *)
Definition target_weight (prev_weight : Q) (ratio : pyfloat)
  (params : StrategyParams) : Q :=
  match ratio with
  | Fin r =>
      if Qle_bool params.(sell_start) r then
        let ladder_weight :=
          sell_weight ratio params.(sell_start) params.(ladder) in
        py_min prev_weight ladder_weight
      else if (params.(reentry_mode) =? "instant")%string then 1
      else if (params.(reentry_mode) =? "wait")%string then
        if Qle_bool r params.(buy_threshold) then 1 else prev_weight
      else
        let denom := py_max params.(sell_start) eps9 in
        let f := clamp ((params.(sell_start) - r) / denom) 0 1 in
        let eased := f * f in
        clamp (prev_weight + (1 - prev_weight) * eased) 0 1
  | _ => prev_weight
  end.

(** [StrategyEngine.step_weight(prev_weight, ratio, params)] *)
Definition step_weight (prev_weight : Q) (ratio : pyfloat)
  (params : StrategyParams) : StrategyStep :=
  let target := target_weight prev_weight ratio params in
  let delta := target - prev_weight in
  if Qle_bool (py_abs delta) eps12 then
    {| weight := prev_weight; action := "HOLD"; tag := "hold" |}
  else if Qltb 0 delta then
    {| weight := target; action := "BUY / REBALANCE UP"; tag := "buy" |}
  else
    {| weight := target; action := "SELL / REBALANCE DOWN"; tag := "sell" |}.

(** The variables of the loop of [compute_weight_series]. *)
Record series_state : Type := {
  st_weights : list (option Q);
  st_weight : Q;
  st_last_trade : option Trade
}.

(** The body of the loop, at index [i]. *)
Definition series_body (ratios : list pyfloat) (dates : list string)
  (params : StrategyParams) (i : nat) (st : series_state)
  : option series_state :=
  ratio <- nth_error ratios i ;;
  let step := step_weight st.(st_weight) ratio params in
  let changed := Qltb eps12 (py_abs (step.(weight) - st.(st_weight))) in
  lt <- (if changed then
           d <- nth_error dates i ;;
           Some (Some {| trade_date := d;
                         trade_action := step.(action);
                         trade_ratio := ratio;
                         trade_weight := step.(weight);
                         trade_tag := step.(tag) |})
         else Some st.(st_last_trade)) ;;
  ws <- list_set st.(st_weights) i (Some step.(weight)) ;;
  Some {| st_weights := ws;
          st_weight := step.(weight);
          st_last_trade := lt |}.

(** [for i in range(i, i + n)]: [n] iterations from index [i]. *)
Fixpoint series_loop (ratios : list pyfloat) (dates : list string)
  (params : StrategyParams) (n i : nat) (st : series_state)
  : option series_state :=
  match n with
  | O => Some st
  | S n' =>
      st' <- series_body ratios dates params i st ;;
      series_loop ratios dates params n' (S i) st'
  end.

(** [StrategyEngine.compute_weight_series(ratios, dates, params, start_idx)]
    for a start index [>= 0]. *)
Definition compute_weight_series (ratios : list pyfloat)
  (dates : list string) (params : StrategyParams) (start_idx : nat)
  : option (list (option Q) * option Trade) :=
  let init := {| st_weights := repeat None (length ratios);
                 st_weight := params.(start_weight);
                 st_last_trade := None |} in
  st <- series_loop ratios dates params
          (length ratios - start_idx) start_idx init ;;
  Some (st.(st_weights), st.(st_last_trade)).

End StrategyEngine.
Import StrategyEngine.

(** ** [core/backtest.py] *)

Module BacktestEngine.

(** [v or 1.0] for an entry of an equity list: [None] and [0.0] are both
    falsy. *)
Definition or_one (v : option Q) : Q :=
  match v with
  | Some q => if Qeq_bool q 0 then 1 else q
  | None => 1
  end.

(** The loop [for i in range(i, i + n)] over the day pairs, with its
    [break]. *)
Fixpoint equity_loop (prices_slice : list pyfloat)
  (weights_slice : list (option Q)) (n i : nat)
  (hodl_equity strategy_equity : list (option Q))
  : option (list (option Q) * list (option Q)) :=
  match n with
  | O => Some (hodl_equity, strategy_equity)
  | S n' =>
      p0 <- nth_error prices_slice i ;;
      p1 <- nth_error prices_slice (S i) ;;
      wi <- nth_error weights_slice i ;;
      match p0, p1, wi with
      | Fin p0, Fin p1, Some wi =>
          if Qle_bool p0 0 then Some (hodl_equity, strategy_equity)
          else
            let btc_return := p1 / p0 in
            h <- nth_error hodl_equity i ;;
            hodl_equity' <-
              list_set hodl_equity (S i) (Some (or_one h * btc_return)) ;;
            let portfolio_return := wi * btc_return + (1 - wi) * 1 in
            s <- nth_error strategy_equity i ;;
            strategy_equity' <-
              list_set strategy_equity (S i)
                (Some (or_one s * portfolio_return)) ;;
            equity_loop prices_slice weights_slice n' (S i)
              hodl_equity' strategy_equity'
      | _, _, _ => Some (hodl_equity, strategy_equity)
      end
  end.

(** [[v for v in equity if v is not None]] *)
Fixpoint valid_values (equity : list (option Q)) : list (option pyfloat) :=
  match equity with
  | [] => []
  | Some v :: t => Some (Fin v) :: valid_values t
  | None :: t => valid_values t
  end.

(** [equity[-1] if equity[-1] is not None else 1.0] *)
Definition last_or_one (equity : list (option Q)) : option Q :=
  v <- last_item equity ;;
  Some (match v with Some q => q | None => 1 end).

(** [BacktestEngine.run_backtest(dates, prices, ratios, params, start_idx)]
    for a start index [>= 0]. *)
Definition run_backtest (dates : list string) (prices : list pyfloat)
  (ratios : list pyfloat) (params : StrategyParams) (start_idx : nat)
  : option BacktestResult :=
  '(weights, last_trade) <-
    compute_weight_series ratios dates params start_idx ;;
  let dates_slice := skipn start_idx dates in
  let prices_slice := skipn start_idx prices in
  let weights_slice := skipn start_idx weights in
  let n := length dates_slice in
  hodl_equity <- list_set (repeat None n) 0 (Some 1) ;;
  strategy_equity <- list_set (repeat None n) 0 (Some 1) ;;
  '(hodl_equity, strategy_equity) <-
    equity_loop prices_slice weights_slice (n - 1) 0
      hodl_equity strategy_equity ;;
  last_hodl <- last_or_one hodl_equity ;;
  last_strat <- last_or_one strategy_equity ;;
  Some {| dates := dates_slice;
          weights := weights_slice;
          strategy_equity := strategy_equity;
          hodl_equity := hodl_equity;
          strategy_return := last_strat - 1;
          hodl_return := last_hodl - 1;
          strategy_max_drawdown :=
            max_drawdown (valid_values strategy_equity);
          hodl_max_drawdown := max_drawdown (valid_values hodl_equity);
          last_trade := last_trade |}.

End BacktestEngine.
Import BacktestEngine.

(** ** [core/data_store.py]: the stages of [compute_channel]

    A calendar day ([pd.Timestamp] at midnight) is its day number, so that
    [(a - b).days] is a subtraction.  The stages that need [log10] and real
    powers (the fair-value fit, lines 135-146, and the conversion of the
    lines to prices, lines 195-200) produce the columns that the stages below
    take as arguments. *)

Module ChannelCalculator.

(** Day number of the civil date [y-m-d] in the proleptic Gregorian
    calendar (day 0 is 1970-01-01). *)
Definition days_from_civil (y m d : Z) : Z :=
  let y' := if (m <=? 2)%Z then (y - 1)%Z else y in
  let era := (y' / 400)%Z in
  let yoe := (y' - era * 400)%Z in
  let mp := if (m >? 2)%Z then (m - 3)%Z else (m + 9)%Z in
  let doy := ((153 * mp + 2) / 5 + d - 1)%Z in
  let doe := (yoe * 365 + yoe / 4 - yoe / 100 + doy)%Z in
  (era * 146097 + doe - 719468)%Z.

(** The constructor arguments kept by [__init__]. *)
Record ChannelCalculator : Type := {
  b_exp : Q;
  genesis : Z;
  peak_prominence : Q;
  peak_distance : Z;
  peak_width : Z
}.

(** [ChannelCalculator()] with the default arguments. *)
Definition default_calculator : ChannelCalculator := {|
  b_exp := 593 # 100;
  genesis := days_from_civil 2009 1 3;
  peak_prominence := 28 # 100;
  peak_distance := 600;
  peak_width := 5
|}.

(** [pd.Timestamp("2030-12-31")] *)
Definition target_date : Z := days_from_civil 2030 12 31.

(** The column [days]: [(Date - genesis).days + 1]. *)
Definition age_days (self : ChannelCalculator) (date : Z) : Z :=
  (date - self.(genesis) + 1)%Z.

(** [np.arange(start, stop)] on integers. *)
Definition np_arange (start stop : Z) : list Z :=
  map (fun k => (start + Z.of_nat k)%Z) (seq 0 (Z.to_nat (stop - start))).

(** [Series.max()] of the date column. *)
Definition max_date (dates : list Z) : option Z :=
  match dates with
  | [] => None
  | d :: t => Some (fold_left Z.max t d)
  end.

(** Lines 174-184: [all_days_extended] from the date column of the sorted
    frame. *)
Definition all_days_extended (self : ChannelCalculator) (dates : list Z)
  : option (list Z) :=
  last_date <- max_date dates ;;
  let all_days_original := map (age_days self) dates in
  let num_additional_days := (target_date - last_date + 1)%Z in
  last_day <- last_item all_days_original ;;
  let additional_days :=
    np_arange (last_day + 1) (last_day + 1 + num_additional_days) in
  Some (all_days_original ++ additional_days).

(** Lines 187-190: the dates of the extended range. *)
Definition all_dates_extended (self : ChannelCalculator) (dates : list Z)
  : option (list Z) :=
  last_date <- max_date dates ;;
  let all_days_original := map (age_days self) dates in
  let num_additional_days := (target_date - last_date + 1)%Z in
  last_day <- last_item all_days_original ;;
  let additional_days :=
    np_arange (last_day + 1) (last_day + 1 + num_additional_days) in
  Some (dates ++ map (fun d => (self.(genesis) + (d - 1))%Z) additional_days).

(** A fitted [LinearRegression] on one feature. *)
Record LinearModel : Type := {
  coef : Q;
  intercept : Q
}.

Definition Qsum (l : list Q) : Q := fold_right Qplus 0 l.

Definition Qmean (l : list Q) : Q := Qsum l / inject_Z (Z.of_nat (length l)).

(** [sklearn.linear_model.LinearRegression().fit(X, y)] for a single
    feature column: the input validation of the library raises on an empty
    sample set or on columns of different lengths; otherwise ordinary least
    squares on the centred data, where the minimum-norm solution is slope
    0 when the feature does not vary (in particular for one sample). *)
Definition LinearRegression_fit (X y : list Q) : option LinearModel :=
  if (length X =? 0)%nat then None
  else if negb (length X =? length y)%nat then None
  else
    let x_mean := Qmean X in
    let y_mean := Qmean y in
    let xc := map (fun x => x - x_mean) X in
    let yc := map (fun v => v - y_mean) y in
    let sxx := Qsum (map (fun x => x * x) xc) in
    let sxy := Qsum (map (fun p => fst p * snd p) (combine xc yc)) in
    let slope := if Qeq_bool sxx 0 then 0 else sxy / sxx in
    Some {| coef := slope; intercept := y_mean - slope * x_mean |}.

(** [reg.predict(X)] *)
Definition predict (reg : LinearModel) (X : list Q) : list Q :=
  map (fun x => reg.(coef) * x + reg.(intercept)) X.

(** [column.iloc[indices].values]; an index out of range raises. *)
Fixpoint iloc {A : Type} (column : list A) (indices : list nat)
  : option (list A) :=
  match indices with
  | [] => Some []
  | i :: t =>
      v <- nth_error column i ;;
      vs <- iloc column t ;;
      Some (v :: vs)
  end.

(** Lines 164-172: the regression lines through the detected extrema.
    [peaks_indices] and [troughs_indices] are the index arrays returned by
    the two calls of [scipy.signal.find_peaks] (lines 151-162). *)
Definition fit_channel_lines (days : list Z) (log10_R : list Q)
  (peaks_indices troughs_indices : list nat)
  : option (LinearModel * LinearModel) :=
  peak_days <- iloc (map inject_Z days) peaks_indices ;;
  peak_vals <- iloc log10_R peaks_indices ;;
  trough_days <- iloc (map inject_Z days) troughs_indices ;;
  trough_vals <- iloc log10_R troughs_indices ;;
  peak_reg <- LinearRegression_fit peak_days peak_vals ;;
  trough_reg <- LinearRegression_fit trough_days trough_vals ;;
  Some (peak_reg, trough_reg).

(** [np.clip(x, lo, hi)] on one element. *)
Definition np_clip (x : pyfloat) (lo hi : Q) : pyfloat :=
  match x with
  | Fin q => Fin (if Qltb q lo then lo else if Qltb hi q then hi else q)
  | PInf => Fin hi
  | NInf => Fin lo
  | NaN => NaN
  end.

(** Lines 206-211 on one day: the zero-initialised entry is overwritten
    where [width > 0], then clipped. *)
Definition ratio_at (price current_peak current_trough : Q) : pyfloat :=
  let width := current_peak - current_trough in
  let ok := Qltb 0 width in
  let ratio :=
    if ok then (price - current_trough) / width * 100 else 0 in
  np_clip (Fin ratio) 0 100.

(** Element-wise evaluation over three arrays of one shape; arrays of
    different shapes raise. *)
Fixpoint ratio_rows (price current_peak current_trough : list Q)
  : option (list pyfloat) :=
  match price, current_peak, current_trough with
  | [], [], [] => Some []
  | p :: ps, k :: ks, t :: ts =>
      rest <- ratio_rows ps ks ts ;;
      Some (ratio_at p k t :: rest)
  | _, _, _ => None
  end.

(** Lines 202-211: the ratio indicator of the observed range. *)
Definition ratio_indicator (price peak_price_line trough_price_line : list Q)
  : option (list pyfloat) :=
  let current_peak := firstn (length price) peak_price_line in
  let current_trough := firstn (length price) trough_price_line in
  ratio_rows price current_peak current_trough.

End ChannelCalculator.
Import ChannelCalculator.

(** ** Reference definitions in the words of the specification *)

(** The ladder value [L(x)] in the words of the specification: "soft" is
    [g0], "linear" is [g1] (and any other name), "aggressive" is [g2]. *)
Definition spec_ladder (ladder : string) (x : Q) : Q :=
  if (ladder =? "g0")%string then 1 - x * x
  else if (ladder =? "g2")%string then (1 - x) * (1 - x)
  else 1 - x.

(** The entries of an equity sequence that are finite numbers, in order. *)
Fixpoint finite_values (values : list (option pyfloat)) : list Q :=
  match values with
  | [] => []
  | Some (Fin q) :: t => q :: finite_values t
  | _ :: t => finite_values t
  end.

(** The running peak of a curve: at each point, the largest value so far. *)
Fixpoint running_peaks_from (peak : Q) (qs : list Q) : list Q :=
  match qs with
  | [] => []
  | q :: t => Qmax peak q :: running_peaks_from (Qmax peak q) t
  end.

Definition running_peaks (qs : list Q) : list Q :=
  match qs with
  | [] => []
  | q :: t => q :: running_peaks_from q t
  end.

(** The drawdown at each point: [equity / peak - 1]. *)
Definition spec_drawdowns (qs : list Q) : list Q :=
  map (fun vp => fst vp / snd vp - 1) (combine qs (running_peaks qs)).

(** The drawdowns of the points that follow a running peak [peak]. *)
Definition drawdowns_from (peak : Q) (qs : list Q) : list Q :=
  map (fun vp => fst vp / snd vp - 1)
    (combine qs (running_peaks_from peak qs)).

(** A list of finite floats as an equity sequence. *)
Definition equity_of (qs : list Q) : list (option pyfloat) :=
  map (fun q => Some (Fin q)) qs.

(** Compounding over the day pair [(t, t+1)]: the hold curve is multiplied
    by [asset_return = price[t+1]/price[t]] and the strategy curve by
    [w*asset_return + (1-w)*1], for the allocation [w] held that day. *)
Definition compounds (prices : list pyfloat) (weights : list (option Q))
  (hodl strat : list (option Q)) (t : nat) : Prop :=
  exists p0 p1 w h s h1 s1,
    nth_error prices t = Some (Fin p0) /\
    nth_error prices (S t) = Some (Fin p1) /\
    0 < p0 /\
    nth_error weights t = Some (Some w) /\
    nth_error hodl t = Some (Some h) /\
    nth_error hodl (S t) = Some (Some h1) /\
    nth_error strat t = Some (Some s) /\
    nth_error strat (S t) = Some (Some s1) /\
    h1 == h * (p1 / p0) /\
    s1 == s * (w * (p1 / p0) + (1 - w) * 1).

(** Two curves with equal entries, day by day. *)
Definition same_curve (a b : list (option Q)) : Prop :=
  Forall2 (fun x y =>
             match x, y with
             | Some u, Some v => u == v
             | None, None => True
             | _, _ => False
             end) a b.

(** The state of the equity loop before the iteration of index [i]: both
    curves are set at [i], and positive when the price of day [i] is. *)
Definition equity_ready (prices : list pyfloat)
  (hodl strat : list (option Q)) (i : nat) : Prop :=
  exists h s,
    nth_error hodl i = Some (Some h) /\
    nth_error strat i = Some (Some s) /\
    (forall p, nth_error prices i = Some (Fin p) -> 0 < p -> 0 < h /\ 0 < s).

(** The day pair [(k, k+1)] can be compounded: two finite prices, the first
    positive, and a defined allocation. *)
Definition tradable (prices : list pyfloat) (weights : list (option Q))
  (k : nat) : Prop :=
  exists p0 p1 w,
    nth_error prices k = Some (Fin p0) /\ 0 < p0 /\
    nth_error prices (S k) = Some (Fin p1) /\
    nth_error weights k = Some (Some w).


(** ** Further functions of [core/utils.py] *)

(** [a - b] on floats, with the IEEE rules for the non-finite values. *)
Definition py_sub (a b : pyfloat) : pyfloat :=
  match a, b with
  | NaN, _ | _, NaN => NaN
  | Fin x, Fin y => Fin (x - y)
  | PInf, PInf | NInf, NInf => NaN
  | PInf, _ | _, NInf => PInf
  | NInf, _ | _, PInf => NInf
  end.

(** [a + b] on floats, with the IEEE rules for the non-finite values. *)
Definition py_add (a b : pyfloat) : pyfloat :=
  match a, b with
  | NaN, _ | _, NaN => NaN
  | Fin x, Fin y => Fin (x + y)
  | PInf, NInf | NInf, PInf => NaN
  | PInf, _ | _, PInf => PInf
  | NInf, _ | _, NInf => NInf
  end.

(** [price_for_ratio_pct(ratio_pct, trough_price, peak_price)]; [None] is the
    returned [None]. *)
Definition price_for_ratio_pct (ratio_pct : Q) (trough_price peak_price : pyfloat)
  : option pyfloat :=
  match py_sub peak_price trough_price with
  | Fin width =>
      if Qle_bool width 0 then None
      else Some (py_add trough_price (Fin (ratio_pct / 100 * width)))
  | _ => None
  end.

(** The variables [n], [mean], [M2] of the loop of [mean_std]. *)
Record welford : Type := {
  w_n : nat;
  w_mean : Q;
  w_M2 : Q
}.

(** An [int] used as a float. *)
Definition Qnat (n : nat) : Q := inject_Z (Z.of_nat n).

(** One iteration of the loop of [mean_std]. *)
Definition mean_std_step (st : welford) (v0 : pyfloat) : welford :=
  match v0 with
  | Fin v =>
      let n := S st.(w_n) in
      let delta := v - st.(w_mean) in
      let mean := st.(w_mean) + delta / Qnat n in
      let M2 := st.(w_M2) + delta * (v - mean) in
      {| w_n := n; w_mean := mean; w_M2 := M2 |}
  | _ => st
  end.

Definition mean_std_loop (values : list pyfloat) : welford :=
  fold_left mean_std_step values {| w_n := 0; w_mean := 0; w_M2 := 0 |}.

(** [mean_std(values)] up to the final square root: the count, the mean and
    [max(variance, 0)], of which the returned [std] is [np.sqrt]. *)
Definition mean_std_squared (values : list pyfloat) : nat * Q * Q :=
  let st := mean_std_loop values in
  let variance :=
    if (1 <? st.(w_n))%nat then st.(w_M2) / (Qnat st.(w_n) - 1) else 0 in
  (st.(w_n), st.(w_mean), py_max variance 0).

(** The finite entries of a list of floats, in order. *)
Fixpoint finite_floats (values : list pyfloat) : list Q :=
  match values with
  | [] => []
  | Fin q :: t => q :: finite_floats t
  | _ :: t => finite_floats t
  end.

(** ** Further functions of [core/strategy.py] *)

(** The dictionary returned by [get_ladder_hints]. *)
Record LadderHints : Type := {
  w50 : Q;
  w70 : Q;
  w90 : Q
}.

(** [StrategyEngine.get_ladder_hints(sell_start, ladder)] *)
Definition get_ladder_hints (sell_start : Q) (ladder : string) : LadderHints :=
  let w50 := sell_weight (Fin 50) sell_start ladder in
  let w70 := sell_weight (Fin 70) sell_start ladder in
  let w90 := sell_weight (Fin 90) sell_start ladder in
  {| w50 := w50 * 100; w70 := w70 * 100; w90 := w90 * 100 |}.

(** ** [core/models.py]: the channel data and its accessors *)

(** [ChannelData], with the series and the extended lines that the
    accessors read; the numbers are finite floats. *)
Record ChannelData : Type := {
  series_date : list string;
  series_price : list Q;
  series_ratio : list Q;
  extended_trough_line_price : list Q;
  extended_peak_line_price : list Q
}.

(** [l[i]] for a Python index: a negative [i] counts from the end, and an
    index outside the list raises. *)
Definition py_index {A : Type} (l : list A) (i : Z) : option A :=
  if (0 <=? i)%Z then nth_error l (Z.to_nat i)
  else if (- Z.of_nat (length l) <=? i)%Z
       then nth_error l (Z.to_nat (Z.of_nat (length l) + i))
       else None.

(** [ChannelData.last_close] *)
Definition last_close (cd : ChannelData) : option Q :=
  match cd.(series_price) with
  | [] => Some 0
  | _ => py_index cd.(series_price) (-1)
  end.

(** [ChannelData.last_ratio] *)
Definition last_ratio (cd : ChannelData) : option Q :=
  match cd.(series_ratio) with
  | [] => Some 0
  | _ => py_index cd.(series_ratio) (-1)
  end.

(** [ChannelData.last_trough] *)
Definition last_trough (cd : ChannelData) : option Q :=
  let idx := (Z.of_nat (length cd.(series_price)) - 1)%Z in
  if (idx <? Z.of_nat (length cd.(extended_trough_line_price)))%Z
  then py_index cd.(extended_trough_line_price) idx
  else Some 0.

(** [ChannelData.last_peak] *)
Definition last_peak (cd : ChannelData) : option Q :=
  let idx := (Z.of_nat (length cd.(series_price)) - 1)%Z in
  if (idx <? Z.of_nat (length cd.(extended_peak_line_price)))%Z
  then py_index cd.(extended_peak_line_price) idx
  else Some 0.

(** ** The backtest page: [app/pages/03_Backtest.py] *)

(** [(i for i, d in enumerate(dates) if d >= start_date)], first element,
    counting from [i]. *)
Fixpoint first_index_from (dates : list string) (start_date : string)
  (i : nat) : option nat :=
  match dates with
  | [] => None
  | d :: t =>
      if (start_date <=? d)%string then Some i
      else first_index_from t start_date (S i)
  end.

(** [next((i for i, d in enumerate(dates) if d >= start_date), 0)] *)
Definition start_index (dates : list string) (start_date : string) : nat :=
  match first_index_from dates start_date 0 with
  | Some i => i
  | None => 0
  end.

(** What the page's [run_backtest] gives: the [None] it returns when there
    is too little data, or the engine's result. *)
Inductive page_backtest : Type :=
| NoBacktest
| Backtest (result : BacktestResult).

(** The page's [run_backtest(params_dict)] over the loaded channel data; the
    outer [None] is an exception raised by the engine. *)
Definition page_run_backtest (channel_data : ChannelData)
  (params : StrategyParams) : option page_backtest :=
  let dates := channel_data.(series_date) in
  let prices := map Fin channel_data.(series_price) in
  let ratios := map Fin channel_data.(series_ratio) in
  let start_idx := start_index dates params.(start_date) in
  if (length dates - 1 <=? start_idx)%nat then Some NoBacktest
  else
    result <- run_backtest dates prices ratios params start_idx ;;
    Some (Backtest result).

(** ** [core/data_store.py]: the request windows of the price loader *)

(** [date.min] and [date.max] as day numbers. *)
Definition date_min : Z := days_from_civil 1 1 1.

Definition date_max : Z := days_from_civil 9999 12 31.

(** [timedelta(days=n)]: [None] is the [OverflowError] outside the range of
    [timedelta]. *)
Definition timedelta_days (n : Z) : option Z :=
  if (Z.abs n <=? 999999999)%Z then Some n else None.

(** [d + timedelta(days=n)] on a [date]: [None] is the [OverflowError] of a
    result outside [date.min .. date.max]. *)
Definition date_add (d n : Z) : option Z :=
  let r := (d + n)%Z in
  if ((date_min <=? r) && (r <=? date_max))%Z then Some r else None.

(** One request of [load_btc_daily_from_coincodex]: the two dates and the
    sample count of its URL. *)
Record request_window : Type := {
  window_start : Z;
  window_end : Z;
  window_samples : Z
}.

(** How the [while] loop of the loader goes: it ends after sending the
    requests, its date arithmetic raises, or it is still running when the
    iteration bound is used up. *)
Inductive loader_loop : Type :=
| LoopEnds (requests : list request_window)
| LoopRaises
| LoopRuns.

(** The [while cur <= end_date] loop of [load_btc_daily_from_coincodex],
    as the list of the requests it sends; every request is taken to
    succeed, and the frames built from the answers are not modelled.
    [fuel] bounds the number of iterations. *)
Fixpoint request_windows (fuel : nat) (cur end_date chunk_days : Z)
  : loader_loop :=
  if (cur <=? end_date)%Z then
    match fuel with
    | O => LoopRuns
    | S fuel' =>
        match timedelta_days (chunk_days - 1) with
        | None => LoopRaises
        | Some delta =>
            match date_add cur delta with
            | None => LoopRaises
            | Some shifted =>
                let chunk_end := Z.min shifted end_date in
                let days := (chunk_end - cur + 1)%Z in
                let samples := Z.min 2000 (Z.max 250 (days * 8)) in
                match date_add chunk_end 1 with
                | None => LoopRaises
                | Some next =>
                    match request_windows fuel' next end_date chunk_days with
                    | LoopEnds rest =>
                        LoopEnds ({| window_start := cur;
                                     window_end := chunk_end;
                                     window_samples := samples |} :: rest)
                    | other => other
                    end
                end
            end
        end
    end
  else LoopEnds [].

(** ** Reference definitions for the further properties *)

(** The days covered by a list of request windows, in order. *)
Definition window_days (ws : list request_window) : list Z :=
  flat_map (fun w => np_arange w.(window_start) (w.(window_end) + 1)) ws.
(** * Properties *)

(** ** Comparisons, [min], [max] and [clamp] *)

Lemma Qltb_lt (a b : Q) : Qltb a b = true <-> a < b.
Proof.
  unfold Qltb. rewrite negb_true_iff.
  split; intro H.
  - apply Qnot_le_lt. intro Hle. apply Qle_bool_iff in Hle. congruence.
  - destruct (Qle_bool b a) eqn:E; [|reflexivity].
    apply Qle_bool_iff in E. lra.
Qed.

Lemma Qltb_ge (a b : Q) : Qltb a b = false <-> b <= a.
Proof.
  unfold Qltb. rewrite negb_false_iff. apply Qle_bool_iff.
Qed.

Lemma Qltb_spec (a b : Q) : reflect (a < b) (Qltb a b).
Proof.
  destruct (Qltb a b) eqn:E; constructor.
  - now apply Qltb_lt.
  - apply Qltb_ge in E. lra.
Qed.

Lemma Qle_bool_spec (a b : Q) : reflect (a <= b) (Qle_bool a b).
Proof.
  destruct (Qle_bool a b) eqn:E; constructor.
  - now apply Qle_bool_iff.
  - intro H. apply Qle_bool_iff in H. congruence.
Qed.

Lemma Qeq_bool_spec (a b : Q) : reflect (a == b) (Qeq_bool a b).
Proof.
  destruct (Qeq_bool a b) eqn:E; constructor.
  - now apply Qeq_bool_iff.
  - intro H. apply Qeq_bool_iff in H. congruence.
Qed.

(** Case analysis on the comparisons of a goal, leaving linear facts. *)
Ltac qcases :=
  repeat match goal with
    | |- context [Qltb ?a ?b] => destruct (Qltb_spec a b)
    | |- context [Qle_bool ?a ?b] => destruct (Qle_bool_spec a b)
    | |- context [Qeq_bool ?a ?b] => destruct (Qeq_bool_spec a b)
    end.

Section NumericFacts.

Implicit Types a b c v w lo hi : Q.

Lemma py_min_spec a b :
  (b < a /\ py_min a b = b) \/ (a <= b /\ py_min a b = a).
Proof. unfold py_min. qcases; [left | right]; split; auto; lra. Qed.

Lemma py_max_spec a b :
  (a < b /\ py_max a b = b) \/ (b <= a /\ py_max a b = a).
Proof. unfold py_max. qcases; [left | right]; split; auto; lra. Qed.

Lemma py_abs_spec a :
  (a < 0 /\ py_abs a = - a) \/ (0 <= a /\ py_abs a = a).
Proof. unfold py_abs. qcases; [left | right]; split; auto; lra. Qed.

Lemma py_min_Qmin a b : py_min a b == Qmin a b.
Proof.
  destruct (py_min_spec a b) as [[H ->] | [H ->]].
  - symmetry. apply Q.min_r. lra.
  - symmetry. apply Q.min_l. lra.
Qed.

Lemma py_min_le_l a b : py_min a b <= a.
Proof. destruct (py_min_spec a b) as [[H ->] | [H ->]]; lra. Qed.

Lemma py_min_le_r a b : py_min a b <= b.
Proof. destruct (py_min_spec a b) as [[H ->] | [H ->]]; lra. Qed.

Lemma py_min_glb a b c : c <= a -> c <= b -> c <= py_min a b.
Proof. destruct (py_min_spec a b) as [[H ->] | [H ->]]; lra. Qed.

Lemma py_max_ge_l a b : a <= py_max a b.
Proof. destruct (py_max_spec a b) as [[H ->] | [H ->]]; lra. Qed.

Lemma py_max_ge_r a b : b <= py_max a b.
Proof. destruct (py_max_spec a b) as [[H ->] | [H ->]]; lra. Qed.

Lemma py_max_l a b : b <= a -> py_max a b = a.
Proof.
  intro H. destruct (py_max_spec a b) as [[H' E] | [H' E]]; [lra | exact E].
Qed.

Lemma clamp_cases v lo hi :
  lo <= hi ->
  (v <= lo /\ clamp v lo hi == lo) \/
  (lo <= v /\ v <= hi /\ clamp v lo hi == v) \/
  (hi <= v /\ clamp v lo hi == hi).
Proof.
  intro Hlh. unfold clamp.
  destruct (py_min_spec hi v) as [[H1 E1] | [H1 E1]]; rewrite E1;
    [destruct (py_max_spec lo v) as [[H2 E2] | [H2 E2]]
    |destruct (py_max_spec lo hi) as [[H2 E2] | [H2 E2]]];
    rewrite E2;
    first [ left; split; lra
          | right; left; repeat split; lra
          | right; right; split; lra ].
Qed.

Lemma clamp_range v lo hi : lo <= hi -> lo <= clamp v lo hi <= hi.
Proof.
  intro H.
  destruct (clamp_cases v lo hi H) as [[? E] | [[? [? E]] | [? E]]]; lra.
Qed.

Lemma clamp_id v lo hi : lo <= v -> v <= hi -> clamp v lo hi == v.
Proof.
  intros H1 H2.
  destruct (clamp_cases v lo hi ltac:(lra)) as [[? E] | [[? [? E]] | [? E]]];
    lra.
Qed.

Lemma clamp_mono v w lo hi :
  lo <= hi -> v <= w -> clamp v lo hi <= clamp w lo hi.
Proof.
  intros H Hvw.
  destruct (clamp_cases v lo hi H) as [[? E] | [[? [? E]] | [? E]]];
    destruct (clamp_cases w lo hi H) as [[? E'] | [[? [? E']] | [? E']]]; lra.
Qed.

Lemma clamp_unit v : 0 <= clamp v 0 1 <= 1.
Proof. apply clamp_range. lra. Qed.

(** Sign and size of a quotient by a positive denominator. *)
Lemma Qdiv_pos_cases a w :
  0 < w ->
  (0 <= a -> 0 <= a / w) /\ (a <= 0 -> a / w <= 0) /\
  (a <= w -> a / w <= 1) /\ (w <= a -> 1 <= a / w).
Proof.
  intro Hw.
  assert (Hi : 0 < / w) by now apply Qinv_lt_0_compat.
  assert (E : w * / w == 1) by (apply Qmult_inv_r; lra).
  unfold Qdiv. repeat split; intro H; nra.
Qed.

Lemma Qdiv_mono a b w : 0 < w -> a <= b -> a / w <= b / w.
Proof.
  intros Hw H.
  assert (Hi : 0 < / w) by now apply Qinv_lt_0_compat.
  unfold Qdiv. nra.
Qed.

End NumericFacts.

(** ** In-place list update *)

Section ListFacts.

Context {A : Type}.

Lemma list_set_Some (l : list A) (i : nat) (v : A) :
  (i < length l)%nat ->
  exists l', list_set l i v = Some l' /\
             length l' = length l /\
             nth_error l' i = Some v /\
             (forall j, j <> i -> nth_error l' j = nth_error l j).
Proof.
  revert i. induction l as [|h t IH]; intros i Hi; simpl in Hi; [lia|].
  destruct i as [|j]; simpl.
  - exists (v :: t). repeat split; auto.
    intros [|j] Hj; [congruence | reflexivity].
  - destruct (IH j ltac:(lia)) as (t' & E & Hlen & Hget & Hoth).
    rewrite E. simpl. exists (h :: t'). repeat split; simpl; auto.
    intros [|k] Hk; simpl; auto.
Qed.

Lemma list_set_inv (l l' : list A) (i : nat) (v : A) :
  list_set l i v = Some l' ->
  (i < length l)%nat /\
  length l' = length l /\
  nth_error l' i = Some v /\
  (forall j, j <> i -> nth_error l' j = nth_error l j).
Proof.
  intro E.
  assert (Hi : (i < length l)%nat).
  { revert i l' E. induction l as [|h t IH]; intros i l' E; simpl in E.
    - discriminate.
    - destruct i as [|j]; simpl; [lia|].
      destruct (list_set t j v) as [t'|] eqn:Et; simpl in E; [|discriminate].
      specialize (IH _ _ Et). lia. }
  split; [exact Hi|].
  destruct (list_set_Some l i v Hi) as (l0 & E0 & H).
  rewrite E in E0. injection E0 as <-. exact H.
Qed.

Lemma nth_error_repeat_None (n i : nat) :
  (i < n)%nat -> nth_error (repeat (@None A) n) i = Some None.
Proof.
  intro H. rewrite nth_error_repeat by exact H. reflexivity.
Qed.

End ListFacts.

(** ** The sell ladder *)

Section LadderFacts.

Variables (s : Q) (ladder : string).

Lemma sell_weight_range (ratio : pyfloat) :
  0 <= sell_weight ratio s ladder <= 1.
Proof.
  unfold sell_weight. destruct ratio as [r| | |]; try lra.
  destruct (Qle_bool r s); [lra|].
  destruct (Qle_bool 100 r); [lra|].
  destruct (Qle_bool (100 - s) 0); [lra|].
  set (x := clamp ((r - s) / (100 - s)) 0 1).
  destruct (ladder =? "g0")%string; [apply clamp_unit|].
  destruct (ladder =? "g2")%string; [|apply clamp_unit].
  pose proof (clamp_unit (1 - x)) as Hb. cbv zeta. nra.
Qed.

(** Inside the sell range the normalised abscissa is the plain quotient. *)
Lemma sell_abscissa (r : Q) :
  s <= r -> r <= 100 -> s < 100 ->
  let x := clamp ((r - s) / (100 - s)) 0 1 in
  x == (r - s) / (100 - s) /\ 0 <= x <= 1.
Proof.
  intros H1 H2 H3 x.
  destruct (Qdiv_pos_cases (r - s) (100 - s) ltac:(lra)) as (Ha & _ & Hb & _).
  assert (E : x == (r - s) / (100 - s)).
  { apply clamp_id; [apply Ha | apply Hb]; lra. }
  split; [exact E|]. rewrite E. split; [apply Ha | apply Hb]; lra.
Qed.

(** On the whole sell regime, and for a sell start below 100, the code's
    ladder weight is the specification's [L(x)]. *)
Lemma sell_weight_spec_ladder (r : Q) :
  s < 100 -> s <= r ->
  sell_weight (Fin r) s ladder
  == spec_ladder ladder (clamp ((r - s) / (100 - s)) 0 1).
Proof.
  intros Hs Hr. unfold sell_weight, spec_ladder.
  set (x := clamp ((r - s) / (100 - s)) 0 1).
  destruct (Qdiv_pos_cases (r - s) (100 - s) ltac:(lra))
    as (Ha & Hb & Hc & Hd).
  pose proof (clamp_cases ((r - s) / (100 - s)) 0 1 ltac:(lra)) as Hx.
  fold x in Hx.
  destruct (Qle_bool_spec r s) as [Hle|Hgt].
  { assert (E : x == 0).
    { destruct Hx as [[? E] | [[? [? E]] | [? E]]];
        specialize (Hb ltac:(lra)); lra. }
    destruct (ladder =? "g0")%string; [|destruct (ladder =? "g2")%string];
      nra. }
  destruct (Qle_bool_spec 100 r) as [Hbig|Hsmall].
  { assert (E : x == 1).
    { destruct Hx as [[? E] | [[? [? E]] | [? E]]];
        specialize (Hd ltac:(lra)); lra. }
    destruct (ladder =? "g0")%string; [|destruct (ladder =? "g2")%string];
      nra. }
  destruct (Qle_bool_spec (100 - s) 0) as [Hw|_]; [lra|].
  pose proof (clamp_unit ((r - s) / (100 - s))) as Hu. fold x in Hu.
  cbv zeta. fold x.
  destruct (ladder =? "g0")%string.
  - apply clamp_id; nra.
  - destruct (ladder =? "g2")%string.
    + assert (E : clamp (1 - x) 0 1 == 1 - x) by (apply clamp_id; lra).
      nra.
    + apply clamp_id; lra.
Qed.

End LadderFacts.

(** C5: for a sell start in [0, 100) and each ladder, the ladder weight is
    1.0 at position = sell_start and 0.0 at position = 100, and at the
    midpoint of the sell range (x = 0.5) it is 0.75 for the soft ladder g0,
    0.5 for the linear ladder g1 and 0.25 for the aggressive ladder g2. *)
Theorem sell_weight_ladder_values (s : Q) (ladder : string) :
  0 <= s -> s < 100 ->
  sell_weight (Fin s) s ladder = 1 /\
  sell_weight (Fin 100) s ladder = 0 /\
  let mid := s + (1 # 2) * (100 - s) in
  clamp ((mid - s) / (100 - s)) 0 1 == 1 # 2 /\
  sell_weight (Fin mid) s "g0" == 3 # 4 /\
  sell_weight (Fin mid) s "g1" == 1 # 2 /\
  sell_weight (Fin mid) s "g2" == 1 # 4.
Proof.
  intros H0 H100. split; [|split].
  - unfold sell_weight. destruct (Qle_bool_spec s s); [reflexivity | lra].
  - unfold sell_weight. destruct (Qle_bool_spec 100 s); [lra|].
    destruct (Qle_bool_spec 100 100); [reflexivity | lra].
  - intro mid.
    assert (Hq : (mid - s) / (100 - s) == 1 # 2).
    { unfold mid. field. lra. }
    assert (Hmid : s <= mid /\ mid <= 100).
    { unfold mid. split; lra. }
    assert (Hx : clamp ((mid - s) / (100 - s)) 0 1 == 1 # 2).
    { pose proof (clamp_id ((mid - s) / (100 - s)) 0 1) as Hc. lra. }
    split; [exact Hx|].
    repeat split.
    + rewrite (sell_weight_spec_ladder s "g0" mid) by lra.
      unfold spec_ladder; simpl. nra.
    + rewrite (sell_weight_spec_ladder s "g1" mid) by lra.
      unfold spec_ladder; simpl. lra.
    + rewrite (sell_weight_spec_ladder s "g2" mid) by lra.
      unfold spec_ladder; simpl. nra.
Qed.

Lemma sell_weight_ladder_values_witness :
  sell_weight (Fin 46) 46 "g1" = 1 /\
  sell_weight (Fin 100) 46 "g1" = 0 /\
  let mid := 46 + (1 # 2) * (100 - 46) in
  clamp ((mid - 46) / (100 - 46)) 0 1 == 1 # 2 /\
  sell_weight (Fin mid) 46 "g0" == 3 # 4 /\
  sell_weight (Fin mid) 46 "g1" == 1 # 2 /\
  sell_weight (Fin mid) 46 "g2" == 1 # 4.
Proof.
  apply (sell_weight_ladder_values 46 "g1").
  - unfold Qle; simpl; lia.
  - unfold Qlt; simpl; lia.
Defined.

(** C10: every ladder name other than "g0" and "g2", recognised or not,
    takes the branch of the linear ladder: the weight is that of "g1", and
    strictly inside the sell range it is 1 - x. *)
Theorem sell_weight_other_ladder_linear
  (ratio : pyfloat) (s : Q) (ladder : string) :
  ladder <> "g0"%string -> ladder <> "g2"%string ->
  sell_weight ratio s ladder = sell_weight ratio s "g1" /\
  (forall r, ratio = Fin r -> s < r -> r < 100 ->
     sell_weight ratio s ladder == 1 - (r - s) / (100 - s)).
Proof.
  intros Hg0 Hg2.
  apply String.eqb_neq in Hg0. apply String.eqb_neq in Hg2.
  assert (E : sell_weight ratio s ladder = sell_weight ratio s "g1").
  { unfold sell_weight. rewrite Hg0, Hg2. reflexivity. }
  split; [exact E|].
  intros r -> Hlo Hhi.
  rewrite (sell_weight_spec_ladder s ladder r) by lra.
  unfold spec_ladder. rewrite Hg0, Hg2.
  destruct (sell_abscissa s r ltac:(lra) ltac:(lra) ltac:(lra)) as [Hx _].
  lra.
Qed.

Lemma sell_weight_other_ladder_linear_witness :
  sell_weight (Fin 73) 46 "ladder-x" = sell_weight (Fin 73) 46 "g1" /\
  sell_weight (Fin 73) 46 "ladder-x" == 1 - (73 - 46) / (100 - 46).
Proof.
  assert (Hg0 : "ladder-x"%string <> "g0"%string) by discriminate.
  assert (Hg2 : "ladder-x"%string <> "g2"%string) by discriminate.
  destruct (sell_weight_other_ladder_linear (Fin 73) 46 "ladder-x" Hg0 Hg2)
    as [E H].
  split; [exact E|].
  apply (H 73 eq_refl); unfold Qlt; simpl; lia.
Defined.

(** ** The daily transition *)

Section TransitionFacts.

Variable params : StrategyParams.

Lemma target_weight_range (prev : Q) (ratio : pyfloat) :
  0 <= prev <= 1 -> 0 <= target_weight prev ratio params <= 1.
Proof.
  intro Hp. unfold target_weight. destruct ratio as [r| | |]; try exact Hp.
  destruct (Qle_bool (sell_start params) r).
  - pose proof (sell_weight_range (sell_start params) (ladder params) (Fin r)).
    destruct (py_min_spec prev
                (sell_weight (Fin r) (sell_start params) (ladder params)))
      as [[? ->] | [? ->]]; lra.
  - destruct (reentry_mode params =? "instant")%string; [lra|].
    destruct (reentry_mode params =? "wait")%string.
    + destruct (Qle_bool r (buy_threshold params)); lra.
    + apply clamp_unit.
Qed.

Lemma step_weight_range (prev : Q) (ratio : pyfloat) :
  0 <= prev <= 1 -> 0 <= weight (step_weight prev ratio params) <= 1.
Proof.
  intro Hp. pose proof (target_weight_range prev ratio Hp) as Ht.
  unfold step_weight.
  destruct (Qle_bool _ eps12); [exact Hp|].
  destruct (Qltb 0 _); exact Ht.
Qed.

(** The eased fraction of the gradual mode. *)
Lemma gradual_fraction (r : Q) :
  let f := clamp ((sell_start params - r)
                  / py_max (sell_start params) eps9) 0 1 in
  0 <= f * f <= 1.
Proof.
  intro f. pose proof (clamp_unit ((sell_start params - r)
                  / py_max (sell_start params) eps9)) as H.
  fold f in H. nra.
Qed.

Lemma target_weight_gradual (prev r : Q) :
  0 <= prev <= 1 ->
  reentry_mode params <> "instant"%string ->
  reentry_mode params <> "wait"%string ->
  r < sell_start params ->
  let f := clamp ((sell_start params - r)
                  / py_max (sell_start params) eps9) 0 1 in
  target_weight prev (Fin r) params == prev + (1 - prev) * (f * f).
Proof.
  intros Hp Hi Hw Hr f.
  apply String.eqb_neq in Hi. apply String.eqb_neq in Hw.
  unfold target_weight. rewrite Hi, Hw.
  destruct (Qle_bool_spec (sell_start params) r) as [H|_]; [lra|].
  cbv zeta. fold f.
  pose proof (gradual_fraction r) as Hf. cbv zeta in Hf. fold f in Hf.
  apply clamp_id; nra.
Qed.

End TransitionFacts.

(** C4: sell-only hysteresis.  For every previous allocation, every
    configuration and every finite ratio at or above sell_start, the
    transition returns min(prev, L) for the ladder weight L, which is never
    above prev and is prev itself whenever the ladder weight is not below it;
    for a sell start below 100 the ladder weight is the specification's L(x)
    at x = clamp((position - sell_start)/(100 - sell_start), 0, 1). *)
Theorem sell_only_hysteresis (prev : Q) (params : StrategyParams) (r : Q) :
  sell_start params <= r ->
  let L := sell_weight (Fin r) (sell_start params) (ladder params) in
  target_weight prev (Fin r) params = py_min prev L /\
  target_weight prev (Fin r) params == Qmin prev L /\
  target_weight prev (Fin r) params <= prev /\
  (prev <= L -> target_weight prev (Fin r) params = prev) /\
  (sell_start params < 100 ->
   L == spec_ladder (ladder params)
          (clamp ((r - sell_start params) / (100 - sell_start params)) 0 1)).
Proof.
  intros Hr L.
  assert (E : target_weight prev (Fin r) params = py_min prev L).
  { unfold target_weight.
    destruct (Qle_bool_spec (sell_start params) r) as [_|H]; [reflexivity|].
    contradiction. }
  rewrite E. split; [reflexivity|]. split; [apply py_min_Qmin|].
  split; [apply py_min_le_l|]. split.
  - intro Hle. destruct (py_min_spec prev L) as [[H _] | [_ H]]; [lra | exact H].
  - intro Hs. apply sell_weight_spec_ladder; assumption.
Qed.

Lemma sell_only_hysteresis_witness :
  target_weight (4 # 10) (Fin 70) default_params = 4 # 10.
Proof.
  assert (Hr : sell_start default_params <= 70) by (unfold Qle; simpl; lia).
  destruct (sell_only_hysteresis (4 # 10) default_params 70 Hr)
    as (_ & _ & _ & Hstay & _).
  apply Hstay. unfold Qle; vm_compute; discriminate.
Defined.

(** C6 as stated fails for a sell start between 0 and 1e-9: with
    sell_start = 5e-10, current = 0 and position = 0 the stated formula has
    f = 1 and gives 1, while the code divides by max(sell_start, 1e-9) and
    returns 1/4. *)
Lemma gradual_reentry_small_sell_start :
  let params := {| ladder := "g1"; sell_start := 1 # 2000000000;
                   buy_threshold := 14; reentry_mode := "gradual";
                   start_weight := 1; start_date := "2018-01-01" |} in
  let current := 0 in
  let position := 0 in
  let f := clamp ((sell_start params - position) / sell_start params) 0 1 in
  (0 <= current <= 1 /\ position < sell_start params) /\
  current + (1 - current) * (f * f) == 1 /\
  target_weight current (Fin position) params == 1 # 4 /\
  ~ target_weight current (Fin position) params
    == current + (1 - current) * (f * f).
Proof.
  cbv zeta. repeat split; try (vm_compute; congruence).
Qed.

(** C6, amended: in the gradual mode, for a previous allocation in [0,1] and
    a finite position below sell_start, the transition returns
    current + (1 - current) * f^2 with
    f = clamp((sell_start - position)/max(sell_start, 1e-9), 0, 1); the
    result is at least current, at most 1, and non-increasing in the
    position; the denominator is sell_start itself when sell_start >= 1e-9. *)
Theorem gradual_reentry (current : Q) (params : StrategyParams) (position : Q) :
  0 <= current <= 1 ->
  reentry_mode params <> "instant"%string ->
  reentry_mode params <> "wait"%string ->
  position < sell_start params ->
  let denom := py_max (sell_start params) eps9 in
  let f := clamp ((sell_start params - position) / denom) 0 1 in
  target_weight current (Fin position) params
  == current + (1 - current) * (f * f) /\
  current <= target_weight current (Fin position) params /\
  target_weight current (Fin position) params <= 1 /\
  (forall position',
      position <= position' -> position' < sell_start params ->
      target_weight current (Fin position') params
      <= target_weight current (Fin position) params) /\
  (eps9 <= sell_start params -> denom = sell_start params).
Proof.
  intros Hc Hi Hw Hr denom f.
  pose proof (target_weight_gradual params current position Hc Hi Hw Hr) as E.
  cbv zeta in E. fold denom in E. fold f in E.
  pose proof (clamp_unit ((sell_start params - position) / denom)) as Hf.
  fold f in Hf.
  assert (Hff : 0 <= f * f <= 1) by nra.
  assert (Hg : 0 <= (1 - current) * (f * f) <= 1 - current) by nra.
  split; [exact E|]. split; [lra|]. split; [lra|]. split.
  - intros position' Hle Hr'.
    pose proof (target_weight_gradual params current position' Hc Hi Hw Hr')
      as E'.
    cbv zeta in E'. fold denom in E'.
    set (f' := clamp ((sell_start params - position') / denom) 0 1) in *.
    pose proof (clamp_unit ((sell_start params - position') / denom)) as Hf'.
    fold f' in Hf'.
    assert (Hd : 0 < denom).
    { pose proof (py_max_ge_r (sell_start params) eps9) as H.
      fold denom in H. assert (0 < eps9) by reflexivity. lra. }
    assert (Hmono : f' <= f).
    { apply clamp_mono; [lra|]. apply Qdiv_mono; [exact Hd | lra]. }
    assert (Hsq : f' * f' <= f * f) by nra.
    assert (Hprod : (1 - current) * (f' * f') <= (1 - current) * (f * f))
      by nra.
    lra.
  - intro Hs. apply py_max_l. exact Hs.
Qed.

Lemma gradual_reentry_witness :
  let params := {| ladder := "g1"; sell_start := 46;
                   buy_threshold := 14; reentry_mode := "gradual";
                   start_weight := 1; start_date := "2018-01-01" |} in
  let f := clamp ((46 - 23) / py_max 46 eps9) 0 1 in
  target_weight (1 # 2) (Fin 23) params == (1 # 2) + (1 - (1 # 2)) * (f * f) /\
  (1 # 2) <= target_weight (1 # 2) (Fin 23) params /\
  target_weight (1 # 2) (Fin 23) params <= 1.
Proof.
  intros params f.
  assert (Hc : 0 <= 1 # 2 <= 1) by (split; unfold Qle; simpl; lia).
  assert (Hi : reentry_mode params <> "instant"%string) by discriminate.
  assert (Hw : reentry_mode params <> "wait"%string) by discriminate.
  assert (Hr : 23 < sell_start params) by (unfold Qlt; simpl; lia).
  destruct (gradual_reentry (1 # 2) params 23 Hc Hi Hw Hr)
    as (E & Hlo & Hhi & _).
  repeat split; assumption.
Defined.

(** ** The weight series *)

Section SeriesFacts.

Variables (ratios : list pyfloat) (dates : list string)
          (params : StrategyParams).

Lemma series_body_inv (i : nat) (st st' : series_state) :
  series_body ratios dates params i st = Some st' ->
  0 <= st_weight st <= 1 ->
  (i < length (st_weights st))%nat /\
  length (st_weights st') = length (st_weights st) /\
  0 <= st_weight st' <= 1 /\
  nth_error (st_weights st') i = Some (Some (st_weight st')) /\
  (forall j, j <> i ->
     nth_error (st_weights st') j = nth_error (st_weights st) j).
Proof.
  unfold series_body. intros E Hw.
  destruct (nth_error ratios i) as [ratio|]; simpl in E; [|discriminate].
  set (step := step_weight (st_weight st) ratio params) in *.
  destruct (if Qltb eps12 (py_abs (weight step - st_weight st))
            then _ else _) as [lt|]; simpl in E; [|discriminate].
  destruct (list_set (st_weights st) i (Some (weight step))) as [ws|] eqn:Es;
    simpl in E; [|discriminate].
  injection E as <-. simpl.
  destruct (list_set_inv _ _ _ _ Es) as (Hi & Hlen & Hget & Hoth).
  repeat split; auto; apply step_weight_range; exact Hw.
Qed.

Lemma series_body_total (i : nat) (st : series_state) :
  (i < length ratios)%nat -> (i < length dates)%nat ->
  (i < length (st_weights st))%nat ->
  exists st', series_body ratios dates params i st = Some st'.
Proof.
  intros Hr Hd Hw. unfold series_body.
  destruct (nth_error ratios i) as [ratio|] eqn:Er;
    [|apply nth_error_None in Er; lia].
  destruct (nth_error dates i) as [d|] eqn:Ed;
    [|apply nth_error_None in Ed; lia].
  simpl.
  set (step := step_weight (st_weight st) ratio params).
  destruct (list_set_Some (st_weights st) i (Some (weight step)) Hw)
    as (ws & Es & _).
  destruct (Qltb eps12 (py_abs (weight step - st_weight st)));
    simpl; rewrite Es; simpl; eexists; reflexivity.
Qed.

Lemma series_loop_inv (n : nat) :
  forall (i : nat) (st st' : series_state),
    series_loop ratios dates params n i st = Some st' ->
    0 <= st_weight st <= 1 ->
    length (st_weights st') = length (st_weights st) /\
    0 <= st_weight st' <= 1 /\
    (forall j, (i <= j < i + n)%nat ->
       exists w, nth_error (st_weights st') j = Some (Some w) /\
                 0 <= w <= 1) /\
    (forall j, (j < i \/ i + n <= j)%nat ->
       nth_error (st_weights st') j = nth_error (st_weights st) j).
Proof.
  induction n as [|n IH]; intros i st st' E Hw; simpl in E.
  - injection E as <-.
    split; [reflexivity|]. split; [exact Hw|]. split.
    + intros j Hj. lia.
    + reflexivity.
  - destruct (series_body ratios dates params i st) as [st1|] eqn:Eb;
      simpl in E; [|discriminate].
    destruct (series_body_inv i st st1 Eb Hw)
      as (Hi & Hlen1 & Hw1 & Hget1 & Hoth1).
    destruct (IH (S i) st1 st' E Hw1) as (Hlen & Hw' & Hin & Hout).
    repeat split; try tauto; try congruence.
    + intros j Hj.
      destruct (Nat.eq_dec j i) as [->|Hne].
      * exists (st_weight st1). rewrite Hout by lia. split; assumption.
      * apply Hin. lia.
    + intros j Hj. rewrite Hout by lia. apply Hoth1. lia.
Qed.

Lemma series_loop_total (n : nat) :
  forall (i : nat) (st : series_state),
    (i + n <= length ratios)%nat -> (i + n <= length dates)%nat ->
    (i + n <= length (st_weights st))%nat ->
    0 <= st_weight st <= 1 ->
    exists st', series_loop ratios dates params n i st = Some st'.
Proof.
  induction n as [|n IH]; intros i st Hr Hd Hl Hw; simpl.
  - eexists; reflexivity.
  - destruct (series_body_total i st) as [st1 Eb]; try lia.
    rewrite Eb. simpl.
    destruct (series_body_inv i st st1 Eb Hw) as (_ & Hlen1 & Hw1 & _).
    apply IH; try lia. exact Hw1.
Qed.

End SeriesFacts.

(** What a returned weight series looks like, and when one is returned. *)
Lemma compute_weight_series_entries
  (ratios : list pyfloat) (dates : list string) (params : StrategyParams)
  (start_idx : nat) (ws : list (option Q)) (lt : option Trade) :
  0 <= start_weight params <= 1 ->
  compute_weight_series ratios dates params start_idx = Some (ws, lt) ->
  length ws = length ratios /\
  (forall i, (i < start_idx)%nat -> (i < length ratios)%nat ->
     nth_error ws i = Some None) /\
  (forall i, (start_idx <= i < length ratios)%nat ->
     exists w, nth_error ws i = Some (Some w) /\ 0 <= w <= 1).
Proof.
  intros Hsw E. unfold compute_weight_series in E.
  set (init := {| st_weights := repeat None (length ratios);
                  st_weight := start_weight params;
                  st_last_trade := None |}) in E.
  destruct (series_loop ratios dates params (length ratios - start_idx)
              start_idx init) as [st|] eqn:El; simpl in E; [|discriminate].
  injection E as <- <-.
  destruct (series_loop_inv ratios dates params _ _ _ _ El Hsw)
    as (Hlen & _ & Hin & Hout).
  simpl in Hlen, Hout. rewrite repeat_length in Hlen.
  split; [exact Hlen|]. split.
  - intros i Hi Hn. rewrite Hout by lia.
    apply nth_error_repeat_None. exact Hn.
  - intros i Hi. apply Hin. lia.
Qed.

Lemma compute_weight_series_total
  (ratios : list pyfloat) (dates : list string) (params : StrategyParams)
  (start_idx : nat) :
  0 <= start_weight params <= 1 ->
  (length ratios <= length dates)%nat ->
  exists ws lt,
    compute_weight_series ratios dates params start_idx = Some (ws, lt).
Proof.
  intros Hsw Hd. unfold compute_weight_series.
  set (init := {| st_weights := repeat None (length ratios);
                  st_weight := start_weight params;
                  st_last_trade := None |}).
  assert (Hex : exists st,
             series_loop ratios dates params (length ratios - start_idx)
               start_idx init = Some st).
  { destruct (Nat.le_gt_cases start_idx (length ratios)) as [Hle|Hgt].
    - apply series_loop_total; simpl; rewrite ?repeat_length;
        try lia; exact Hsw.
    - (* the loop does not run *)
      replace (length ratios - start_idx)%nat with 0%nat by lia.
      exists init. reflexivity. }
  destruct Hex as [st El]. rewrite El. simpl.
  eexists; eexists; reflexivity.
Qed.

Lemma compute_weight_series_unit
  (ratios : list pyfloat) (dates : list string) (params : StrategyParams)
  (start_idx : nat) (ws : list (option Q)) (lt : option Trade) :
  0 <= start_weight params <= 1 ->
  compute_weight_series ratios dates params start_idx = Some (ws, lt) ->
  forall j w, nth_error ws j = Some (Some w) -> 0 <= w <= 1.
Proof.
  intros Hsw E j w Hj.
  destruct (compute_weight_series_entries _ _ _ _ _ _ Hsw E)
    as (Hlen & Hbefore & Hfrom).
  assert (Hjl : (j < length ratios)%nat).
  { rewrite <- Hlen. apply nth_error_Some. congruence. }
  destruct (Nat.lt_ge_cases j start_idx) as [Hlt|Hge].
  - rewrite (Hbefore j Hlt Hjl) in Hj. discriminate.
  - destruct (Hfrom j ltac:(lia)) as (w' & Hw' & Hr).
    rewrite Hw' in Hj. injection Hj as <-. exact Hr.
Qed.

(** C7: allocation range.  For a start weight in [0,1], every weight series
    that [compute_weight_series] returns has one entry per ratio, undefined
    before the start index and a fraction in [0,1] from the start index on;
    a series is returned whenever there is a date for every ratio; and the
    one-step transition maps [0,1] into [0,1] for every ratio, finite or
    not. *)
Theorem weight_series_range
  (ratios : list pyfloat) (dates : list string) (params : StrategyParams)
  (start_idx : nat) :
  0 <= start_weight params <= 1 ->
  (forall ws lt,
      compute_weight_series ratios dates params start_idx = Some (ws, lt) ->
      length ws = length ratios /\
      (forall i, (i < start_idx)%nat -> (i < length ratios)%nat ->
         nth_error ws i = Some None) /\
      (forall i, (start_idx <= i < length ratios)%nat ->
         exists w, nth_error ws i = Some (Some w) /\ 0 <= w <= 1)) /\
  ((length ratios <= length dates)%nat ->
   exists ws lt,
     compute_weight_series ratios dates params start_idx = Some (ws, lt)) /\
  (forall prev ratio,
      0 <= prev <= 1 -> 0 <= target_weight prev ratio params <= 1).
Proof.
  intro Hsw. split; [|split].
  - intros ws lt E. apply (compute_weight_series_entries _ _ _ _ _ _ Hsw E).
  - intro Hd. apply compute_weight_series_total; assumption.
  - intros prev ratio. apply target_weight_range.
Qed.

Lemma weight_series_range_witness :
  exists ws lt w,
    compute_weight_series [Fin 10; Fin 70; NaN; Fin 90; Fin 20]
      ["d0"; "d1"; "d2"; "d3"; "d4"]%string default_params 1 = Some (ws, lt) /\
    nth_error ws 0 = Some None /\
    nth_error ws 3 = Some (Some w) /\ 0 <= w <= 1.
Proof.
  assert (Hsw : 0 <= start_weight default_params <= 1)
    by (split; unfold Qle; simpl; lia).
  destruct (weight_series_range [Fin 10; Fin 70; NaN; Fin 90; Fin 20]
              ["d0"; "d1"; "d2"; "d3"; "d4"]%string default_params 1 Hsw)
    as (Hret & Htot & _).
  destruct (Htot ltac:(simpl; lia)) as (ws & lt & E).
  destruct (Hret ws lt E) as (_ & Hbefore & Hfrom).
  destruct (Hfrom 3%nat ltac:(simpl; lia)) as (w & Hw & Hrange).
  exists ws, lt, w. split; [exact E|]. split; [|split; assumption].
  apply Hbefore; simpl; lia.
Defined.

(** ** Maximum drawdown *)

Section DrawdownFacts.

Lemma Qdiv_same (a b : Q) : ~ b == 0 -> a == b -> a / b - 1 == 0.
Proof. intros Hb E. rewrite E. field. exact Hb. Qed.

Lemma Qdiv_below_negative_peak (q p : Q) : q <= p -> p < 0 -> 0 <= q / p - 1.
Proof.
  intros Hq Hp.
  assert (Hi : / p < 0).
  { assert (H : 0 < / (- p)) by (apply Qinv_lt_0_compat; lra).
    assert (E : / (- p) == - / p) by (field; lra). lra. }
  assert (E : p * / p == 1) by (apply Qmult_inv_r; lra).
  unfold Qdiv. nra.
Qed.

Lemma code_peak_spec (pk pks q : Q) :
  pk == pks -> (if Qltb pk q then q else pk) == Qmax pks q.
Proof.
  intro E.
  destruct (Q.max_spec pks q) as [[H ->] | [H ->]];
    destruct (Qltb_spec pk q); lra.
Qed.

Lemma drawdown_step_le (st : option Q * Q) (v : option pyfloat) :
  snd (drawdown_step st v) <= snd st.
Proof.
  destruct st as [peak m]. unfold drawdown_step.
  destruct v as [[q| | |]|]; simpl; try lra.
  match goal with |- context [Qltb ?d m] => destruct (Qltb_spec d m) end;
    lra.
Qed.

Lemma run_le (values : list (option pyfloat)) :
  forall st, max_drawdown_from values st <= snd st.
Proof.
  unfold max_drawdown_from. induction values as [|v t IH]; intro st; simpl; [lra|].
  specialize (IH (drawdown_step st v)).
  pose proof (drawdown_step_le st v). lra.
Qed.

(** One step of the loop against the specification's drawdown of the same
    point, for a running peak that is not zero. *)
Lemma drawdown_step_spec (pk pks m q : Q) :
  pk == pks -> m <= 0 -> ~ Qmax pks q == 0 ->
  let d := q / Qmax pks q - 1 in
  exists pk' m',
    drawdown_step (Some pk, m) (Some (Fin q)) = (Some pk', m') /\
    pk' == Qmax pks q /\ m' <= 0 /\ m' <= d /\ m' <= m /\
    (m' = m \/ m' == d).
Proof.
  intros E Hm Hnz d.
  set (pk' := if Qltb pk q then q else pk).
  assert (Epk : pk' == Qmax pks q) by (apply code_peak_spec; exact E).
  assert (Hq : q <= pk').
  { rewrite Epk. apply Q.le_max_r. }
  assert (Ed : q / pk' - 1 == d).
  { unfold d. rewrite Epk. reflexivity. }
  exists pk'. unfold drawdown_step. fold pk'.
  destruct (Qltb_spec 0 pk') as [Hpos|Hneg].
  - destruct (Qltb_spec (q / pk' - 1) m) as [Hlt|Hge];
      eexists; (split; [reflexivity|]);
      repeat split; try lra; auto; right; lra.
  - assert (Hd : 0 <= d).
    { rewrite <- Ed. apply Qdiv_below_negative_peak; [exact Hq|].
      destruct (Qlt_le_dec pk' 0); [assumption|].
      exfalso. apply Hnz. lra. }
    destruct (Qltb_spec 0 m) as [Hlt|Hge]; [lra|].
    eexists; split; [reflexivity|].
    repeat split; try lra; auto.
Qed.

Lemma run_spec (values : list (option pyfloat)) :
  forall pk pks m,
    pk == pks -> m <= 0 ->
    Forall (fun p => ~ p == 0)
      (running_peaks_from pks (finite_values values)) ->
    (forall d, In d (drawdowns_from pks (finite_values values)) ->
               max_drawdown_from values (Some pk, m) <= d) /\
    (max_drawdown_from values (Some pk, m) == m \/
     exists d, In d (drawdowns_from pks (finite_values values)) /\
               max_drawdown_from values (Some pk, m) == d).
Proof.
  induction values as [|v t IH]; intros pk pks m E Hm Hnz.
  - unfold max_drawdown_from; simpl. split; [intros d []|left; reflexivity].
  - destruct v as [[q| | |]|]; try (apply IH; assumption).
    simpl in Hnz. inversion Hnz as [|? ? Hnz0 Hnzt]; subst.
    destruct (drawdown_step_spec pk pks m q E Hm Hnz0)
      as (pk' & m' & Es & Epk & Hm0 & Hmd & Hmm & Hatt).
    specialize (IH pk' (Qmax pks q) m' Epk Hm0 Hnzt).
    destruct IH as [IHlow IHatt].
    assert (Er : max_drawdown_from (Some (Fin q) :: t) (Some pk, m)
                 = max_drawdown_from t (Some pk', m')).
    { unfold max_drawdown_from. cbn [fold_left]. rewrite Es. reflexivity. }
    rewrite Er.
    pose proof (run_le t (Some pk', m')) as Hle. simpl in Hle.
    unfold drawdowns_from. simpl. fold (drawdowns_from (Qmax pks q)).
    split.
    + intros d [<- | Hin]; [lra | apply IHlow; exact Hin].
    + destruct IHatt as [Heq | (d & Hin & Heq)].
      * destruct Hatt as [-> | Hd]; [left; exact Heq|].
        right. eexists. split; [left; reflexivity|]. lra.
      * right. exists d. split; [right; exact Hin | exact Heq].
Qed.

(** From the initial state: the first finite value becomes the peak. *)
Lemma max_drawdown_spec_drawdowns (values : list (option pyfloat)) :
  Forall (fun p => ~ p == 0) (running_peaks (finite_values values)) ->
  (forall d, In d (spec_drawdowns (finite_values values)) ->
             max_drawdown values <= d) /\
  (finite_values values <> [] ->
   exists d, In d (spec_drawdowns (finite_values values)) /\
             max_drawdown values == d).
Proof.
  unfold max_drawdown.
  induction values as [|v t IH]; intro Hnz.
  - split; [intros d [] | intro H; contradiction].
  - destruct v as [[q| | |]|]; try (apply IH; exact Hnz).
    simpl in Hnz. inversion Hnz as [|? ? Hq Hnzt]; subst. clear IH.
    assert (Es : drawdown_step (None, 0) (Some (Fin q)) = (Some q, 0)).
    { unfold drawdown_step.
      pose proof (Qdiv_same q q Hq ltac:(reflexivity)) as Hz.
      destruct (Qltb_spec 0 q).
      - destruct (Qltb_spec (q / q - 1) 0); [lra | reflexivity].
      - destruct (Qltb_spec 0 0); [lra | reflexivity]. }
    assert (Er : max_drawdown_from (Some (Fin q) :: t) (None, 0) = max_drawdown_from t (Some q, 0)).
    { unfold max_drawdown_from. cbn [fold_left]. rewrite Es. reflexivity. }
    rewrite Er.
    destruct (run_spec t q q 0 ltac:(reflexivity) ltac:(lra) Hnzt)
      as [Hlow Hatt].
    pose proof (run_le t (Some q, 0)) as Hle. simpl in Hle.
    pose proof (Qdiv_same q q Hq ltac:(reflexivity)) as Hz.
    unfold spec_drawdowns. simpl. fold (drawdowns_from q (finite_values t)).
    split.
    + intros d [<- | Hin]; [lra | apply Hlow; exact Hin].
    + intros _. destruct Hatt as [Heq | (d & Hin & Heq)].
      * eexists. split; [left; reflexivity|]. lra.
      * exists d. split; [right; exact Hin | exact Heq].
Qed.

(** A curve that only rises leaves the worst drawdown at its initial 0. *)
Lemma run_rising (values : list (option pyfloat)) :
  forall pk,
    Sorted Qle (finite_values values) ->
    HdRel Qle pk (finite_values values) ->
    max_drawdown_from values (Some pk, 0) = 0.
Proof.
  induction values as [|v t IH]; intros pk Hs Hhd; [reflexivity|].
  destruct v as [[q| | |]|]; try (apply IH; assumption).
  simpl in Hs, Hhd.
  apply HdRel_inv in Hhd. apply Sorted_inv in Hs. destruct Hs as [Hs Hq].
  set (pk' := if Qltb pk q then q else pk).
  assert (Epk : pk' == q).
  { unfold pk'. destruct (Qltb_spec pk q); lra. }
  assert (Es : drawdown_step (Some pk, 0) (Some (Fin q)) = (Some pk', 0)).
  { unfold drawdown_step. fold pk'.
    destruct (Qltb_spec 0 pk') as [Hpos|Hneg].
    - assert (Hz : q / pk' - 1 == 0).
      { apply Qdiv_same; [lra | symmetry; exact Epk]. }
      destruct (Qltb_spec (q / pk' - 1) 0); [lra | reflexivity].
    - destruct (Qltb_spec 0 0); [lra | reflexivity]. }
  unfold max_drawdown_from. cbn [fold_left]. rewrite Es. apply IH; [exact Hs|].
  destruct Hq as [|b l Hb]; constructor. lra.
Qed.

Lemma max_drawdown_rising (values : list (option pyfloat)) :
  Sorted Qle (finite_values values) -> max_drawdown values = 0.
Proof.
  unfold max_drawdown.
  induction values as [|v t IH]; intro Hs; [reflexivity|].
  destruct v as [[q| | |]|]; try (apply IH; exact Hs).
  simpl in Hs. apply Sorted_inv in Hs. destruct Hs as [Hs Hq].
  assert (Es : exists pk, pk == q /\
                 drawdown_step (None, 0) (Some (Fin q)) = (Some pk, 0)).
  { exists q. split; [reflexivity|]. unfold drawdown_step.
    destruct (Qltb_spec 0 q) as [Hpos|Hneg].
    - assert (Hz : q / q - 1 == 0).
      { apply Qdiv_same; [lra | reflexivity]. }
      destruct (Qltb_spec (q / q - 1) 0); [lra | reflexivity].
    - destruct (Qltb_spec 0 0); [lra | reflexivity]. }
  destruct Es as (pk & Epk & Es).
  unfold max_drawdown_from. cbn [fold_left]. rewrite Es. apply run_rising; [exact Hs|].
  destruct Hq as [|b l Hb]; constructor. lra.
Qed.

Lemma max_drawdown_le_0 (values : list (option pyfloat)) :
  max_drawdown values <= 0.
Proof. apply (run_le values (None, 0)). Qed.

End DrawdownFacts.

(** C9: maximum drawdown.  The reported value is never above 0; over the
    finite entries of the sequence, with running peaks that are not 0 (any
    curve that starts positive), it is a lower bound of every
    equity/running_peak - 1 and is one of them; it is 0 for a curve that only
    rises; and for [1.0, 1.5, 1.2, 1.8, 0.9] it is 0.9/1.8 - 1 = -0.5. *)
Theorem max_drawdown_most_negative (values : list (option pyfloat)) :
  max_drawdown values <= 0 /\
  (Forall (fun p => ~ p == 0) (running_peaks (finite_values values)) ->
   (forall d, In d (spec_drawdowns (finite_values values)) ->
              max_drawdown values <= d) /\
   (finite_values values <> [] ->
    exists d, In d (spec_drawdowns (finite_values values)) /\
              max_drawdown values == d)) /\
  (Sorted Qle (finite_values values) -> max_drawdown values = 0) /\
  max_drawdown (equity_of [1; 15 # 10; 12 # 10; 18 # 10; 9 # 10])
  == (9 # 10) / (18 # 10) - 1 /\
  (9 # 10) / (18 # 10) - 1 == - (1 # 2).
Proof.
  split; [apply max_drawdown_le_0|].
  split; [apply max_drawdown_spec_drawdowns|].
  split; [apply max_drawdown_rising|].
  split; vm_compute; reflexivity.
Qed.

Lemma max_drawdown_most_negative_witness :
  let values := equity_of [1; 2; 1] in
  (forall d, In d (spec_drawdowns (finite_values values)) ->
             max_drawdown values <= d) /\
  (exists d, In d (spec_drawdowns (finite_values values)) /\
             max_drawdown values == d) /\
  max_drawdown (equity_of [1; 11 # 10; 12 # 10; 13 # 10]) = 0.
Proof.
  intro values.
  destruct (max_drawdown_most_negative values) as (_ & Hspec & _).
  assert (Hnz : Forall (fun p => ~ p == 0)
                  (running_peaks (finite_values values))).
  { repeat constructor; vm_compute; discriminate. }
  destruct (Hspec Hnz) as [Hlow Hatt].
  split; [exact Hlow|]. split.
  - apply Hatt. discriminate.
  - destruct (max_drawdown_most_negative
                (equity_of [1; 11 # 10; 12 # 10; 13 # 10]))
      as (_ & _ & Hrise & _).
    apply Hrise. repeat constructor; vm_compute; discriminate.
Defined.

(** ** The equity curves *)

Section EquityFacts.

Variables (prices : list pyfloat) (weights : list (option Q)).

Hypothesis weights_unit :
  forall j w, nth_error weights j = Some (Some w) -> 0 <= w <= 1.

Lemma Qdiv_lt_0 (a b : Q) : 0 < a -> 0 < b -> 0 < a / b.
Proof.
  intros Ha Hb.
  assert (Hi : 0 < / b) by now apply Qinv_lt_0_compat.
  unfold Qdiv. nra.
Qed.

Lemma portfolio_return_pos (w r : Q) :
  0 <= w <= 1 -> 0 < r -> 0 < w * r + (1 - w) * 1.
Proof.
  intros Hw Hr. destruct (Qlt_le_dec w (1 # 2)); nra.
Qed.

Lemma or_one_pos (h : Q) : 0 < h -> or_one (Some h) = h.
Proof.
  intro H. unfold or_one. destruct (Qeq_bool_spec h 0); [lra | reflexivity].
Qed.

(** The iteration of index [i] when the day pair is tradable. *)
Lemma equity_loop_step (n i : nat) (hodl strat : list (option Q))
  (p0 p1 w h s : Q) :
  nth_error prices i = Some (Fin p0) -> 0 < p0 ->
  nth_error prices (S i) = Some (Fin p1) ->
  nth_error weights i = Some (Some w) ->
  nth_error hodl i = Some (Some h) -> 0 < h ->
  nth_error strat i = Some (Some s) -> 0 < s ->
  equity_loop prices weights (S n) i hodl strat =
  (hodl' <- list_set hodl (S i) (Some (h * (p1 / p0))) ;;
   strat' <- list_set strat (S i)
               (Some (s * (w * (p1 / p0) + (1 - w) * 1))) ;;
   equity_loop prices weights n (S i) hodl' strat').
Proof.
  intros E0 Hp0 E1 Ew Eh Hh Es Hs. cbn [equity_loop].
  rewrite E0, E1, Ew. cbn [bind].
  destruct (Qle_bool_spec p0 0) as [H|_]; [lra|].
  rewrite Eh, Es. cbn [bind].
  rewrite (or_one_pos h Hh), (or_one_pos s Hs). reflexivity.
Qed.

(** The iteration of index [i] when the loop breaks there. *)
Lemma equity_loop_break (n i : nat) (hodl strat hodl' strat' : list (option Q)) :
  equity_loop prices weights (S n) i hodl strat = Some (hodl', strat') ->
  ~ tradable prices weights i ->
  hodl' = hodl /\ strat' = strat.
Proof.
  intros E Hnt. cbn [equity_loop] in E.
  destruct (nth_error prices i) as [p0|] eqn:E0; cbn [bind] in E;
    [|discriminate].
  destruct (nth_error prices (S i)) as [p1|] eqn:E1; cbn [bind] in E;
    [|discriminate].
  destruct (nth_error weights i) as [wi|] eqn:Ew; cbn [bind] in E;
    [|discriminate].
  destruct p0 as [p0| | |], p1 as [p1| | |], wi as [w|];
    try (injection E as <- <-; split; reflexivity).
  destruct (Qle_bool_spec p0 0) as [H|H];
    [injection E as <- <-; split; reflexivity|].
  exfalso. apply Hnt. exists p0, p1, w. repeat split; auto. lra.
Qed.

Lemma tradable_dec (k : nat) :
  tradable prices weights k \/ ~ tradable prices weights k.
Proof.
  unfold tradable.
  destruct (nth_error prices k) as [[p0| | |]|] eqn:E0;
    try (right; intros (a & b & c & H & _); discriminate).
  destruct (nth_error prices (S k)) as [[p1| | |]|] eqn:E1;
    try (right; intros (a & b & c & _ & _ & H & _); discriminate).
  destruct (nth_error weights k) as [[w|]|] eqn:Ew;
    try (right; intros (a & b & c & _ & _ & _ & H); discriminate).
  destruct (Qlt_le_dec 0 p0) as [Hp|Hp].
  - left. exists p0, p1, w. repeat split; auto.
  - right. intros (a & b & c & H & Ha & _). injection H as <-. lra.
Qed.

Lemma equity_loop_inv (n : nat) :
  forall (i : nat) (hodl strat hodl' strat' : list (option Q)),
    equity_loop prices weights n i hodl strat = Some (hodl', strat') ->
    equity_ready prices hodl strat i ->
    exists k, (i <= k <= i + n)%nat /\
      length hodl' = length hodl /\ length strat' = length strat /\
      (forall j, (j <= i \/ k < j)%nat ->
         nth_error hodl' j = nth_error hodl j /\
         nth_error strat' j = nth_error strat j) /\
      (forall t, (i <= t < k)%nat ->
         compounds prices weights hodl' strat' t) /\
      ((k < i + n)%nat -> ~ tradable prices weights k).
Proof.
  induction n as [|n IH]; intros i hodl strat hodl' strat' E Hready.
  - simpl in E. injection E as <- <-. exists i.
    split; [lia|]. split; [reflexivity|]. split; [reflexivity|].
    split; [intros; split; reflexivity|]. split; intros; lia.
  - destruct (tradable_dec i) as [Ht|Hnt].
    + destruct Ht as (p0 & p1 & w & E0 & Hp0 & E1 & Ew).
      destruct Hready as (h & s & Eh & Es & Hpos).
      destruct (Hpos p0 E0 Hp0) as [Hh Hs].
      rewrite (equity_loop_step n i hodl strat p0 p1 w h s) in E by assumption.
      destruct (list_set hodl (S i) _) as [hodl1|] eqn:Eh1; cbn [bind] in E;
        [|discriminate].
      destruct (list_set strat (S i) _) as [strat1|] eqn:Es1; cbn [bind] in E;
        [|discriminate].
      destruct (list_set_inv _ _ _ _ Eh1) as (_ & Hlh & Hgh & Hoh).
      destruct (list_set_inv _ _ _ _ Es1) as (_ & Hls & Hgs & Hos).
      assert (Hready1 : equity_ready prices hodl1 strat1 (S i)).
      { exists (h * (p1 / p0)), (s * (w * (p1 / p0) + (1 - w) * 1)).
        split; [exact Hgh|]. split; [exact Hgs|].
        intros p Ep Hp. rewrite E1 in Ep. injection Ep as <-.
        pose proof (Qdiv_lt_0 p1 p0 Hp Hp0) as Hr.
        pose proof (portfolio_return_pos w (p1 / p0)
                      (weights_unit i w Ew) Hr) as Hport.
        split; nra. }
      destruct (IH (S i) hodl1 strat1 hodl' strat' E Hready1)
        as (k & Hk & Hlh' & Hls' & Hsame & Hcomp & Hstop).
      exists k. split; [lia|]. split; [congruence|]. split; [congruence|].
      split; [|split].
      * intros j Hj.
        destruct (Hsame j ltac:(lia)) as [-> ->].
        split; [apply Hoh | apply Hos]; lia.
      * intros t Ht.
        destruct (Nat.eq_dec t i) as [->|Hne]; [|apply Hcomp; lia].
        destruct (Hsame i ltac:(lia)) as [Hhi Hsi].
        destruct (Hsame (S i) ltac:(lia)) as [HhS HsS].
        exists p0, p1, w, h, s, (h * (p1 / p0)),
          (s * (w * (p1 / p0) + (1 - w) * 1)).
        rewrite Hhi, Hsi, HhS, HsS, (Hoh i), (Hos i) by lia.
        repeat split; auto; reflexivity.
      * intro Hlt. apply Hstop. lia.
    + destruct (equity_loop_break n i hodl strat hodl' strat' E Hnt)
        as [-> ->].
      exists i. split; [lia|]. split; [reflexivity|]. split; [reflexivity|].
      split; [intros; split; reflexivity|].
      split; [intros; lia | intros _; exact Hnt].
Qed.

(** The loop raises only on a missing list entry. *)
Lemma equity_loop_total (n : nat) :
  forall (i : nat) (hodl strat : list (option Q)),
    (i + n < length prices)%nat -> (i + n <= length weights)%nat ->
    (i + n < length hodl)%nat -> (i + n < length strat)%nat ->
    exists r, equity_loop prices weights n i hodl strat = Some r.
Proof.
  induction n as [|n IH]; intros i hodl strat Hp Hw Hh Hs.
  - eexists; reflexivity.
  - cbn [equity_loop].
    destruct (nth_error prices i) as [p0|] eqn:E0;
      [|apply nth_error_None in E0; lia].
    destruct (nth_error prices (S i)) as [p1|] eqn:E1;
      [|apply nth_error_None in E1; lia].
    destruct (nth_error weights i) as [wi|] eqn:Ew;
      [|apply nth_error_None in Ew; lia].
    cbn [bind].
    destruct p0 as [p0| | |], p1 as [p1| | |], wi as [w|];
      try (eexists; reflexivity).
    destruct (Qle_bool p0 0); [eexists; reflexivity|].
    destruct (nth_error hodl i) as [h|] eqn:Eh;
      [|apply nth_error_None in Eh; lia].
    destruct (nth_error strat i) as [s|] eqn:Es;
      [|apply nth_error_None in Es; lia].
    cbn [bind].
    destruct (list_set_Some hodl (S i) (Some (or_one h * (p1 / p0)))
                ltac:(lia)) as (hodl1 & Eh1 & Hlh & _).
    destruct (list_set_Some strat (S i)
                (Some (or_one s * (w * (p1 / p0) + (1 - w) * 1)))
                ltac:(lia)) as (strat1 & Es1 & Hls & _).
    rewrite Eh1. cbn [bind]. rewrite Es1. cbn [bind].
    apply IH; lia.
Qed.

End EquityFacts.

(** ** The backtest *)

Section BacktestFacts.

Variables (dates : list string) (prices ratios : list pyfloat)
          (params : StrategyParams) (start_idx : nat).

Hypothesis start_weight_unit : 0 <= start_weight params <= 1.

Lemma last_or_one_total (equity : list (option Q)) :
  (0 < length equity)%nat -> exists v, last_or_one equity = Some v.
Proof.
  intro H. unfold last_or_one, last_item.
  destruct (nth_error equity (length equity - 1)) as [v|] eqn:E;
    [|apply nth_error_None in E; lia].
  simpl. eexists; reflexivity.
Qed.

(** The shape of a returned result: the curves start at 1.0, every day
    pair up to the stopping index [k] is compounded, and the entries after
    [k] are left unset. *)
Lemma run_backtest_shape (res : BacktestResult) :
  run_backtest dates prices ratios params start_idx = Some res ->
  let n := length (skipn start_idx dates) in
  let prices_slice := skipn start_idx prices in
  exists ws lt k,
    compute_weight_series ratios dates params start_idx = Some (ws, lt) /\
    weights res = skipn start_idx ws /\
    (0 < n)%nat /\ (k <= n - 1)%nat /\
    length (hodl_equity res) = n /\ length (strategy_equity res) = n /\
    nth_error (hodl_equity res) 0 = Some (Some 1) /\
    nth_error (strategy_equity res) 0 = Some (Some 1) /\
    (forall j, (k < j)%nat -> (j < n)%nat ->
       nth_error (hodl_equity res) j = Some None /\
       nth_error (strategy_equity res) j = Some None) /\
    (forall t, (t < k)%nat ->
       compounds prices_slice (weights res)
         (hodl_equity res) (strategy_equity res) t) /\
    ((k < n - 1)%nat -> ~ tradable prices_slice (weights res) k).
Proof.
  intros E n prices_slice. unfold run_backtest in E.
  destruct (compute_weight_series ratios dates params start_idx)
    as [[ws lt]|] eqn:Ec; cbn [bind] in E; [|discriminate].
  fold n in E. fold prices_slice in E.
  destruct (list_set (repeat None n) 0 (Some 1)) as [eq0|] eqn:E0;
    cbn [bind] in E; [|discriminate].
  destruct (equity_loop prices_slice (skipn start_idx ws) (n - 1) 0 eq0 eq0)
    as [[hodl strat]|] eqn:El; cbn [bind] in E; [|discriminate].
  destruct (last_or_one hodl) as [lh|]; cbn [bind] in E; [|discriminate].
  destruct (last_or_one strat) as [ls|]; cbn [bind] in E; [|discriminate].
  injection E as <-. cbn [weights hodl_equity strategy_equity].
  destruct (list_set_inv _ _ _ _ E0) as (Hn & Hlen0 & Hget0 & Hoth0).
  rewrite repeat_length in Hn, Hlen0.
  assert (Hunit : forall j w,
             nth_error (skipn start_idx ws) j = Some (Some w) -> 0 <= w <= 1).
  { intros j w Hj. rewrite nth_error_skipn in Hj.
    apply (compute_weight_series_unit _ _ _ _ _ _ start_weight_unit Ec _ _ Hj). }
  assert (Hready : equity_ready prices_slice eq0 eq0 0).
  { exists 1, 1. repeat split; auto; reflexivity. }
  destruct (equity_loop_inv prices_slice (skipn start_idx ws) Hunit
              _ _ _ _ _ _ El Hready)
    as (k & Hk & Hlh & Hls & Hsame & Hcomp & Hstop).
  exists ws, lt, k.
  split; [reflexivity|]. split; [reflexivity|]. split; [exact Hn|].
  split; [lia|]. split; [congruence|]. split; [congruence|].
  destruct (Hsame 0%nat ltac:(lia)) as [Hh0 Hs0].
  split; [congruence|]. split; [congruence|]. split; [|split].
  - intros j Hkj Hjn.
    destruct (Hsame j ltac:(lia)) as [-> ->].
    rewrite (Hoth0 j) by lia.
    split; apply nth_error_repeat_None; exact Hjn.
  - intros t Ht. apply Hcomp. lia.
  - intro Hlt. apply Hstop. lia.
Qed.

(** A result is returned when the three columns have one entry per day and
    the start index is a day of the series. *)
Lemma run_backtest_total :
  length prices = length dates -> length ratios = length dates ->
  (start_idx < length dates)%nat ->
  exists res, run_backtest dates prices ratios params start_idx = Some res.
Proof.
  intros Hp Hr Hs. unfold run_backtest.
  destruct (compute_weight_series_total ratios dates params start_idx
              start_weight_unit ltac:(lia)) as (ws & lt & Ec).
  rewrite Ec. cbn [bind].
  destruct (compute_weight_series_entries _ _ _ _ _ _ start_weight_unit Ec)
    as (Hlen & _).
  set (n := length (skipn start_idx dates)).
  assert (Hn : n = (length dates - start_idx)%nat) by apply length_skipn.
  destruct (list_set_Some (repeat (@None Q) n) 0 (Some 1))
    as (eq0 & E0 & Hlen0 & _); [rewrite repeat_length; lia|].
  rewrite repeat_length in Hlen0.
  rewrite E0. cbn [bind].
  destruct (equity_loop_total (skipn start_idx prices) (skipn start_idx ws)
              (n - 1) 0 eq0 eq0) as ([hodl strat] & El);
    rewrite ?length_skipn; try lia.
  rewrite El. cbn [bind].
  assert (Hready : equity_ready (skipn start_idx prices) eq0 eq0 0).
  { destruct (list_set_inv _ _ _ _ E0) as (_ & _ & Hget0 & _).
    exists 1, 1. repeat split; auto; reflexivity. }
  assert (Hunit : forall j w,
             nth_error (skipn start_idx ws) j = Some (Some w) -> 0 <= w <= 1).
  { intros j w Hj. rewrite nth_error_skipn in Hj.
    apply (compute_weight_series_unit _ _ _ _ _ _ start_weight_unit Ec _ _ Hj). }
  destruct (equity_loop_inv _ _ Hunit _ _ _ _ _ _ El Hready)
    as (_ & _ & Hlh & Hls & _).
  destruct (last_or_one_total hodl ltac:(lia)) as [lh ->].
  destruct (last_or_one_total strat ltac:(lia)) as [ls ->].
  cbn [bind]. eexists; reflexivity.
Qed.

(** With finite positive prices from the start index on, no day pair stops
    the loop. *)
Lemma good_data_tradable (ws : list (option Q)) (lt : option Trade) (k : nat) :
  compute_weight_series ratios dates params start_idx = Some (ws, lt) ->
  length prices = length dates -> length ratios = length dates ->
  (forall i p, (start_idx <= i)%nat -> nth_error prices i = Some p ->
               exists q, p = Fin q /\ 0 < q) ->
  (start_idx + S k < length dates)%nat ->
  tradable (skipn start_idx prices) (skipn start_idx ws) k.
Proof.
  intros Ec Hp Hr Hgood Hk.
  destruct (compute_weight_series_entries _ _ _ _ _ _ start_weight_unit Ec)
    as (Hlen & _ & Hfrom).
  unfold tradable. rewrite !nth_error_skipn.
  destruct (nth_error prices (start_idx + k)) as [p0|] eqn:E0;
    [|apply nth_error_None in E0; lia].
  destruct (nth_error prices (start_idx + S k)) as [p1|] eqn:E1;
    [|apply nth_error_None in E1; lia].
  destruct (Hgood (start_idx + k)%nat p0 ltac:(lia) E0) as (q0 & -> & Hq0).
  destruct (Hgood (start_idx + S k)%nat p1 ltac:(lia) E1) as (q1 & -> & Hq1).
  destruct (Hfrom (start_idx + k)%nat ltac:(lia)) as (w & Hw & _).
  exists q0, q1, w. repeat split; auto.
Qed.

End BacktestFacts.

(** C8: backtest compounding.  Both equity curves of a returned result start
    at 1.0, and every entry that is set comes from compounding the day pair
    before it: the hold curve by asset_return = price[t+1]/price[t], the
    strategy curve by w*asset_return + (1-w)*1 for the held allocation w.
    With one price and ratio per date, finite positive prices and a start
    index inside the series, a result is returned and every day pair is
    compounded.  For prices [100, 200, 100] under full hold the curves are
    [1.0, 2.0, 1.0], the returns 0.0 and the maximum drawdowns -0.5. *)
Theorem backtest_compounding
  (dates : list string) (prices ratios : list pyfloat)
  (params : StrategyParams) (start_idx : nat) :
  0 <= start_weight params <= 1 ->
  (forall res,
      run_backtest dates prices ratios params start_idx = Some res ->
      nth_error (hodl_equity res) 0 = Some (Some 1) /\
      nth_error (strategy_equity res) 0 = Some (Some 1) /\
      (forall t,
          (exists v, nth_error (hodl_equity res) (S t) = Some (Some v)) \/
          (exists v, nth_error (strategy_equity res) (S t) = Some (Some v)) ->
          compounds (skipn start_idx prices) (weights res)
            (hodl_equity res) (strategy_equity res) t)) /\
  (length prices = length dates -> length ratios = length dates ->
   (start_idx < length dates)%nat ->
   (forall i p, (start_idx <= i)%nat -> nth_error prices i = Some p ->
                exists q, p = Fin q /\ 0 < q) ->
   exists res,
     run_backtest dates prices ratios params start_idx = Some res /\
     length (hodl_equity res) = (length dates - start_idx)%nat /\
     length (strategy_equity res) = (length dates - start_idx)%nat /\
     (forall t, (S t < length dates - start_idx)%nat ->
        compounds (skipn start_idx prices) (weights res)
          (hodl_equity res) (strategy_equity res) t)) /\
  (exists res,
      run_backtest ["d0"; "d1"; "d2"]%string [Fin 100; Fin 200; Fin 100]
        [Fin 0; Fin 0; Fin 0] default_params 0 = Some res /\
      weights res = [Some 1; Some 1; Some 1] /\
      same_curve (hodl_equity res) [Some 1; Some 2; Some 1] /\
      same_curve (strategy_equity res) [Some 1; Some 2; Some 1] /\
      hodl_return res == 0 /\ strategy_return res == 0 /\
      hodl_max_drawdown res == - (1 # 2) /\
      strategy_max_drawdown res == - (1 # 2)).
Proof.
  intro Hsw. split; [|split].
  - intros res E.
    destruct (run_backtest_shape dates prices ratios params start_idx Hsw res E)
      as (ws & lt & k & Ec & Ew & Hn & Hk & Hlh & Hls & Hh0 & Hs0
          & Hunset & Hcomp & _).
    split; [exact Hh0|]. split; [exact Hs0|].
    intros t Hset. apply Hcomp.
    destruct (Nat.lt_ge_cases t k) as [Hlt|Hge]; [exact Hlt|].
    exfalso.
    destruct (Nat.lt_ge_cases (S t) (length (skipn start_idx dates)))
      as [Hin|Hout].
    + destruct (Hunset (S t) ltac:(lia) Hin) as [Hh Hs].
      destruct Hset as [[v Hv] | [v Hv]]; congruence.
    + destruct Hset as [[v Hv] | [v Hv]].
      * assert (H : nth_error (hodl_equity res) (S t) = None)
          by (apply nth_error_None; lia).
        congruence.
      * assert (H : nth_error (strategy_equity res) (S t) = None)
          by (apply nth_error_None; lia).
        congruence.
  - intros Hp Hr Hs Hgood.
    destruct (run_backtest_total dates prices ratios params start_idx
                Hsw Hp Hr Hs) as [res E].
    exists res. split; [exact E|].
    destruct (run_backtest_shape dates prices ratios params start_idx Hsw res E)
      as (ws & lt & k & Ec & Ew & Hn & Hk & Hlh & Hls & _ & _
          & _ & Hcomp & Hstop).
    rewrite length_skipn in *.
    split; [exact Hlh|]. split; [exact Hls|].
    intros t Ht. apply Hcomp.
    destruct (Nat.lt_ge_cases t k) as [Hlt|Hge]; [exact Hlt|].
    exfalso. apply Hstop; [lia|].
    rewrite Ew.
    apply (good_data_tradable dates prices ratios params start_idx Hsw
             ws lt k Ec Hp Hr Hgood).
    lia.
  - eexists. split; [vm_compute; reflexivity|].
    cbn [weights hodl_equity strategy_equity hodl_return strategy_return
         hodl_max_drawdown strategy_max_drawdown].
    split; [reflexivity|].
    split; [repeat constructor; vm_compute; reflexivity|].
    split; [repeat constructor; vm_compute; reflexivity|].
    repeat split; vm_compute; reflexivity.
Qed.

Lemma backtest_compounding_witness :
  exists res,
    run_backtest ["d0"; "d1"; "d2"; "d3"]%string
      [Fin 100; Fin 200; Fin 100; Fin 150]
      [Fin 0; Fin 70; Fin 90; Fin 20] default_params 1 = Some res /\
    nth_error (hodl_equity res) 0 = Some (Some 1) /\
    nth_error (strategy_equity res) 0 = Some (Some 1) /\
    compounds (skipn 1 [Fin 100; Fin 200; Fin 100; Fin 150]) (weights res)
      (hodl_equity res) (strategy_equity res) 1.
Proof.
  assert (Hsw : 0 <= start_weight default_params <= 1)
    by (split; unfold Qle; simpl; lia).
  destruct (backtest_compounding ["d0"; "d1"; "d2"; "d3"]%string
              [Fin 100; Fin 200; Fin 100; Fin 150]
              [Fin 0; Fin 70; Fin 90; Fin 20] default_params 1 Hsw)
    as (Hret & Hgood & _).
  destruct Hgood as (res & E & _ & _ & Hcomp).
  - reflexivity.
  - reflexivity.
  - simpl; lia.
  - intros i p Hi Hp.
    destruct i as [|[|[|[|i]]]]; simpl in Hp; try lia;
      try (destruct i; discriminate);
      injection Hp as <-; eexists; (split; [reflexivity|]);
      unfold Qlt; simpl; lia.
  - destruct (Hret res E) as (Hh0 & Hs0 & _).
    exists res. split; [exact E|]. split; [exact Hh0|]. split; [exact Hs0|].
    apply Hcomp. simpl; lia.
Defined.

(** ** The channel stages *)

Section ChannelFacts.

Lemma In_np_arange (start stop a : Z) :
  In a (np_arange start stop) <-> (start <= a < stop)%Z.
Proof.
  unfold np_arange. rewrite in_map_iff. split.
  - intros (k & <- & Hk). apply in_seq in Hk. lia.
  - intro H. exists (Z.to_nat (a - start)). split; [lia|].
    apply in_seq. lia.
Qed.

Lemma last_item_last {A : Type} (l : list A) (x : A) :
  l <> [] -> last_item l = Some (last l x).
Proof.
  unfold last_item. induction l as [|a t IH]; intro H; [contradiction|].
  destruct t as [|b t']; [reflexivity|].
  specialize (IH ltac:(discriminate)).
  cbn [length] in *. replace (S (S (length t')) - 1)%nat
    with (S (S (length t' ) - 1)) by lia.
  cbn [nth_error]. rewrite IH. reflexivity.
Qed.

Lemma last_item_map {A B : Type} (f : A -> B) (l : list A) :
  last_item (map f l) = option_map f (last_item l).
Proof.
  unfold last_item. rewrite length_map. apply nth_error_map.
Qed.

(** In a sorted date column the latest date is the last row. *)
Lemma max_date_sorted (dates : list Z) :
  Sorted Z.le dates -> max_date dates = last_item dates.
Proof.
  destruct dates as [|d t]; [reflexivity|].
  intro Hs. rewrite (last_item_last (d :: t) d) by discriminate.
  unfold max_date. f_equal.
  generalize d at 3. intro x.
  revert d Hs. induction t as [|a t IH]; intros d Hs; [reflexivity|].
  apply Sorted_inv in Hs. destruct Hs as [Hs Hhd].
  apply HdRel_inv in Hhd.
  cbn [fold_left]. rewrite Z.max_r by exact Hhd.
  rewrite (IH a Hs). reflexivity.
Qed.

(** The extended range of a sorted, non-empty date column. *)
Lemma all_days_extended_sorted (self : ChannelCalculator) (dates : list Z) :
  Sorted Z.le dates -> dates <> [] ->
  exists last_date,
    last_item dates = Some last_date /\
    all_days_extended self dates =
    Some (map (age_days self) dates
          ++ np_arange (age_days self last_date + 1)
               (age_days self target_date + 2)).
Proof.
  intros Hs Hne.
  destruct dates as [|d t]; [contradiction|].
  set (dates := d :: t) in *.
  exists (last dates d).
  assert (El : last_item dates = Some (last dates d))
    by (apply last_item_last; exact Hne).
  split; [exact El|].
  unfold all_days_extended.
  rewrite (max_date_sorted dates Hs), El. cbn [bind].
  rewrite last_item_map, El. cbn [option_map bind].
  do 3 f_equal. unfold age_days. lia.
Qed.

(** One day of the ratio indicator. *)
Lemma ratio_at_cases (price current_peak current_trough : Q) :
  let gap := current_peak - current_trough in
  (gap <= 0 -> ratio_at price current_peak current_trough = Fin 0) /\
  (0 < gap ->
   exists r, ratio_at price current_peak current_trough = Fin r /\
             r == clamp ((price - current_trough) / gap * 100) 0 100).
Proof.
  intro gap. unfold ratio_at. fold gap. split; intro Hg.
  - destruct (Qltb_spec 0 gap) as [H|_]; [lra|].
    unfold np_clip.
    destruct (Qltb_spec 0 0) as [H|_]; [lra|].
    destruct (Qltb_spec 100 0) as [H|_]; [lra | reflexivity].
  - destruct (Qltb_spec 0 gap) as [_|H]; [|lra].
    unfold np_clip. eexists. split; [reflexivity|].
    set (v := (price - current_trough) / gap * 100).
    destruct (clamp_cases v 0 100 ltac:(lra)) as [[? E] | [[? [? E]] | [? E]]];
      destruct (Qltb_spec v 0); destruct (Qltb_spec 100 v); lra.
Qed.

Lemma ratio_rows_spec (price : list Q) :
  forall current_peak current_trough,
    length current_peak = length price ->
    length current_trough = length price ->
    exists ratio,
      ratio_rows price current_peak current_trough = Some ratio /\
      length ratio = length price /\
      forall i p k t,
        nth_error price i = Some p ->
        nth_error current_peak i = Some k ->
        nth_error current_trough i = Some t ->
        nth_error ratio i = Some (ratio_at p k t).
Proof.
  induction price as [|p ps IH]; intros [|k ks] [|t ts] Hk Ht;
    try discriminate.
  - exists []. repeat split; auto. intros [|i]; discriminate.
  - destruct (IH ks ts ltac:(simpl in Hk; lia) ltac:(simpl in Ht; lia))
      as (rest & E & Hlen & Hnth).
    exists (ratio_at p k t :: rest). cbn [ratio_rows]. rewrite E.
    split; [reflexivity|]. split; [simpl; lia|].
    intros [|i] p' k' t' Hp' Hk' Ht'; simpl in *.
    + congruence.
    + apply Hnth; assumption.
Qed.

(** The regression through a single extremum is the flat line through
    it. *)
Lemma LinearRegression_fit_single (x v : Q) :
  exists reg,
    LinearRegression_fit [x] [v] = Some reg /\
    coef reg == 0 /\ intercept reg == v.
Proof.
  unfold LinearRegression_fit. cbn [length Nat.eqb negb].
  assert (Em : forall a, Qmean [a] == a).
  { intro a. unfold Qmean, Qsum. cbn. field. }
  assert (Ez : Qsum (map (fun x0 => x0 * x0)
                       (map (fun x0 => x0 - Qmean [x]) [x])) == 0).
  { cbn [map Qsum fold_right]. rewrite (Em x). ring. }
  apply Qeq_bool_iff in Ez. rewrite Ez.
  eexists. split; [reflexivity|]. cbn [coef intercept].
  split; [reflexivity|]. rewrite (Em v). ring.
Qed.

Lemma iloc_single {A : Type} (column : list A) (i : nat) (vs : list A) :
  iloc column [i] = Some vs ->
  exists v, nth_error column i = Some v /\ vs = [v].
Proof.
  cbn [iloc]. destruct (nth_error column i) as [v|]; [|discriminate].
  cbn [bind]. intro E. injection E as <-. exists v. split; reflexivity.
Qed.

(** Indices inside the column are all read. *)
Lemma iloc_total {A : Type} (column : list A) (indices : list nat) :
  Forall (fun i => (i < length column)%nat) indices ->
  exists vs, iloc column indices = Some vs /\ length vs = length indices.
Proof.
  induction indices as [|i t IH]; intro H.
  - exists []. split; reflexivity.
  - inversion H as [|? ? Hi Ht]; subst.
    destruct (nth_error column i) as [v|] eqn:E;
      [|apply nth_error_None in E; lia].
    destruct (IH Ht) as (vs & Ev & Hl).
    exists (v :: vs). cbn [iloc]. rewrite E, Ev. cbn [bind length].
    split; [reflexivity | congruence].
Qed.

(** The regression accepts every non-empty sample set with one value per
    sample. *)
Lemma LinearRegression_fit_total (X y : list Q) :
  X <> [] -> length X = length y ->
  exists reg, LinearRegression_fit X y = Some reg.
Proof.
  intros Hne Hl. unfold LinearRegression_fit.
  destruct (length X =? 0)%nat eqn:E0.
  - apply Nat.eqb_eq in E0. destruct X; [contradiction | discriminate].
  - destruct (length X =? length y)%nat eqn:E1.
    + cbn [negb]. eexists. reflexivity.
    + apply Nat.eqb_neq in E1. contradiction.
Qed.

Lemma nth_error_seq_lt (n : nat) :
  forall s k, (k < n)%nat -> nth_error (seq s n) k = Some (s + k)%nat.
Proof.
  induction n as [|n IH]; intros s k Hk; [lia|].
  destruct k as [|k]; cbn [seq nth_error].
  - f_equal. lia.
  - rewrite IH by lia. f_equal. lia.
Qed.

Lemma nth_error_np_arange (a b : Z) (k : nat) :
  (Z.of_nat k < b - a)%Z ->
  nth_error (np_arange a b) k = Some (a + Z.of_nat k)%Z.
Proof.
  intro H. unfold np_arange.
  rewrite nth_error_map, nth_error_seq_lt by lia. reflexivity.
Qed.

End ChannelFacts.

(** C1 as stated fails: on a day whose peak bound is not above its trough
    bound the code leaves the zero the array was initialised with, so the
    position is the finite number 0.0.  Here price 1, peak bound 1, trough
    bound 2. *)
Lemma degenerate_gap_is_zero_filled :
  1 - 2 <= 0 /\
  ratio_indicator [1] [1; 1] [2; 2] = Some [Fin 0] /\
  ~ (forall ratio r,
        ratio_indicator [1] [1; 1] [2; 2] = Some ratio ->
        nth_error ratio 0 = Some r -> isfinite r = false).
Proof.
  split; [unfold Qle; simpl; lia|]. split; [reflexivity|].
  intro H. specialize (H [Fin 0] (Fin 0) eq_refl eq_refl). discriminate.
Qed.

(** C1, amended: when the projected lines cover the observed range, the
    ratio stage returns one position per observed day without error; on every
    day whose gap peak_bound - trough_bound is <= 0 the position is the
    number 0.0, and on every other day it is
    clamp((price - trough_bound) / gap * 100, 0, 100). *)
Theorem degenerate_gap_position
  (price peak_price_line trough_price_line : list Q) :
  (length price <= length peak_price_line)%nat ->
  (length price <= length trough_price_line)%nat ->
  exists ratio,
    ratio_indicator price peak_price_line trough_price_line = Some ratio /\
    length ratio = length price /\
    forall i p k t,
      nth_error price i = Some p ->
      nth_error peak_price_line i = Some k ->
      nth_error trough_price_line i = Some t ->
      (k - t <= 0 -> nth_error ratio i = Some (Fin 0)) /\
      (0 < k - t ->
       exists r, nth_error ratio i = Some (Fin r) /\
                 r == clamp ((p - t) / (k - t) * 100) 0 100).
Proof.
  intros Hk Ht. unfold ratio_indicator.
  destruct (ratio_rows_spec price
              (firstn (length price) peak_price_line)
              (firstn (length price) trough_price_line))
    as (ratio & E & Hlen & Hnth).
  - rewrite length_firstn. lia.
  - rewrite length_firstn. lia.
  - exists ratio. split; [exact E|]. split; [exact Hlen|].
    intros i p k t Hp Hki Hti.
    assert (Hi : (i < length price)%nat).
    { apply nth_error_Some. congruence. }
    assert (Hlt : (i <? length price)%nat = true) by (apply Nat.ltb_lt; exact Hi).
    rewrite (Hnth i p k t Hp).
    + destruct (ratio_at_cases p k t) as [Hzero Hpos].
      split; intro Hg.
      * rewrite (Hzero Hg). reflexivity.
      * destruct (Hpos Hg) as (r & -> & Hr). exists r. split; auto.
    + rewrite nth_error_firstn, Hlt. exact Hki.
    + rewrite nth_error_firstn, Hlt. exact Hti.
Qed.

Lemma degenerate_gap_position_witness :
  exists ratio,
    ratio_indicator [1; 5; 3] [1; 10; 4; 7] [2; 0; 2; 8] = Some ratio /\
    nth_error ratio 0 = Some (Fin 0) /\
    exists r, nth_error ratio 1 = Some (Fin r) /\
              r == clamp ((5 - 0) / (10 - 0) * 100) 0 100.
Proof.
  destruct (degenerate_gap_position [1; 5; 3] [1; 10; 4; 7] [2; 0; 2; 8])
    as (ratio & E & _ & H); [simpl; lia | simpl; lia |].
  exists ratio. split; [exact E|]. split.
  - apply (H 0%nat 1 1 2 eq_refl eq_refl eq_refl).
    unfold Qle; simpl; lia.
  - apply (H 1%nat 5 10 0 eq_refl eq_refl eq_refl).
    unfold Qlt; simpl; lia.
Defined.

(** C2 as stated fails for exactly one peak: the regression accepts a single
    sample and fits the flat line through it.  Here three days with one
    detected peak (index 1) and two detected troughs (indices 0 and 2). *)
Lemma single_peak_is_fitted :
  (length [1%nat] < 2)%nat /\
  fit_channel_lines [10; 20; 30]%Z [0; 1; 0] [1%nat] [0%nat; 2%nat] <> None /\
  exists peak_reg trough_reg,
    fit_channel_lines [10; 20; 30]%Z [0; 1; 0] [1%nat] [0%nat; 2%nat]
    = Some (peak_reg, trough_reg) /\
    coef peak_reg == 0 /\ intercept peak_reg == 1.
Proof.
  split; [simpl; lia|]. split; [vm_compute; discriminate|].
  eexists; eexists. split; [vm_compute; reflexivity|].
  split; reflexivity.
Qed.

(** C2, amended: when the detector finds no peak or no trough the channel
    computation raises an error instead of returning lines.  When it finds
    at least one peak and at least one trough, all of them days of the
    frame, no error is signalled and two lines are returned, also when
    there is exactly one peak (or trough): the line returned for such an
    extremum set is flat, with slope 0 and the extremum's log deviation as
    intercept. *)
Theorem no_extremum_is_rejected
  (days : list Z) (log10_R : list Q) (peaks_indices troughs_indices : list nat) :
  (peaks_indices = [] \/ troughs_indices = [] ->
   fit_channel_lines days log10_R peaks_indices troughs_indices = None) /\
  (peaks_indices <> [] -> troughs_indices <> [] ->
   length log10_R = length days ->
   Forall (fun i => (i < length days)%nat) peaks_indices ->
   Forall (fun i => (i < length days)%nat) troughs_indices ->
   exists peak_reg trough_reg,
     fit_channel_lines days log10_R peaks_indices troughs_indices
     = Some (peak_reg, trough_reg)) /\
  (forall peak_reg trough_reg,
      fit_channel_lines days log10_R peaks_indices troughs_indices
      = Some (peak_reg, trough_reg) ->
      (forall i, peaks_indices = [i] ->
         coef peak_reg == 0 /\
         exists v, nth_error log10_R i = Some v /\ intercept peak_reg == v) /\
      (forall i, troughs_indices = [i] ->
         coef trough_reg == 0 /\
         exists v, nth_error log10_R i = Some v /\ intercept trough_reg == v)).
Proof.
  split; [|split].
  - intros [-> | ->]; unfold fit_channel_lines.
    + cbn [iloc bind].
      destruct (iloc (map inject_Z days) troughs_indices); cbn [bind];
        [|reflexivity].
      destruct (iloc log10_R troughs_indices); reflexivity.
    + destruct (iloc (map inject_Z days) peaks_indices); cbn [bind];
        [|reflexivity].
      destruct (iloc log10_R peaks_indices); cbn [iloc bind]; [|reflexivity].
      destruct (LinearRegression_fit l l0); reflexivity.
  - intros Hp Ht Hlen Hpi Hti. unfold fit_channel_lines.
    assert (Hd : length (map inject_Z days) = length days)
      by apply length_map.
    destruct (iloc_total (map inject_Z days) peaks_indices) as (pd & Epd & Lpd);
      [rewrite Hd; exact Hpi|].
    destruct (iloc_total log10_R peaks_indices) as (pv & Epv & Lpv);
      [rewrite Hlen; exact Hpi|].
    destruct (iloc_total (map inject_Z days) troughs_indices)
      as (td & Etd & Ltd); [rewrite Hd; exact Hti|].
    destruct (iloc_total log10_R troughs_indices) as (tv & Etv & Ltv);
      [rewrite Hlen; exact Hti|].
    rewrite Epd, Epv, Etd, Etv. cbn [bind].
    destruct (LinearRegression_fit_total pd pv) as (pr & Epr).
    { intros ->. destruct peaks_indices; [contradiction | discriminate]. }
    { congruence. }
    destruct (LinearRegression_fit_total td tv) as (tr & Etr).
    { intros ->. destruct troughs_indices; [contradiction | discriminate]. }
    { congruence. }
    rewrite Epr, Etr. cbn [bind]. exists pr, tr. reflexivity.
  - intros peak_reg trough_reg E. unfold fit_channel_lines in E.
    destruct (iloc (map inject_Z days) peaks_indices) as [pd|] eqn:Epd;
      cbn [bind] in E; [|discriminate].
    destruct (iloc log10_R peaks_indices) as [pv|] eqn:Epv;
      cbn [bind] in E; [|discriminate].
    destruct (iloc (map inject_Z days) troughs_indices) as [td|] eqn:Etd;
      cbn [bind] in E; [|discriminate].
    destruct (iloc log10_R troughs_indices) as [tv|] eqn:Etv;
      cbn [bind] in E; [|discriminate].
    destruct (LinearRegression_fit pd pv) as [pr|] eqn:Epr;
      cbn [bind] in E; [|discriminate].
    destruct (LinearRegression_fit td tv) as [tr|] eqn:Etr;
      cbn [bind] in E; [|discriminate].
    injection E as <- <-.
    split; intros i ->.
    + destruct (iloc_single _ _ _ Epd) as (x & _ & ->).
      destruct (iloc_single _ _ _ Epv) as (v & Hv & ->).
      destruct (LinearRegression_fit_single x v) as (reg & Er & Hc & Hi).
      rewrite Er in Epr. injection Epr as <-.
      split; [exact Hc|]. exists v. split; assumption.
    + destruct (iloc_single _ _ _ Etd) as (x & _ & ->).
      destruct (iloc_single _ _ _ Etv) as (v & Hv & ->).
      destruct (LinearRegression_fit_single x v) as (reg & Er & Hc & Hi).
      rewrite Er in Etr. injection Etr as <-.
      split; [exact Hc|]. exists v. split; assumption.
Qed.

Lemma no_extremum_is_rejected_witness :
  fit_channel_lines [10; 20; 30]%Z [0; 1; 0] [] [0%nat; 2%nat] = None /\
  exists peak_reg trough_reg,
    fit_channel_lines [10; 20; 30]%Z [0; 1; 0] [2%nat] [0%nat; 1%nat]
    = Some (peak_reg, trough_reg) /\
    coef peak_reg == 0 /\ intercept peak_reg == 0.
Proof.
  split.
  - destruct (no_extremum_is_rejected [10; 20; 30]%Z [0; 1; 0] []
                [0%nat; 2%nat]) as [H _].
    apply H. left. reflexivity.
  - destruct (no_extremum_is_rejected [10; 20; 30]%Z [0; 1; 0] [2%nat]
                [0%nat; 1%nat]) as (_ & Hfit & Hflat).
    destruct Hfit as (peak_reg & trough_reg & E).
    + discriminate.
    + discriminate.
    + reflexivity.
    + repeat constructor.
    + repeat constructor.
    + exists peak_reg, trough_reg. split; [exact E|].
      destruct (Hflat peak_reg trough_reg E) as [Hpeak _].
      destruct (Hpeak 2%nat eq_refl) as (Hc & v & Hv & Hi).
      split; [exact Hc|].
      cbn in Hv. injection Hv as <-. exact Hi.
Defined.

(** C3 as stated fails at both ends: with the default genesis date
    2009-01-03 and a history of 2013-01-01 and 2013-01-02, the extended range
    starts at age 1460, so day 1 is not covered, and it ends one day after
    the horizon, at the age of 2031-01-01. *)
Lemma extended_range_ends :
  let self := default_calculator in
  let dates := [days_from_civil 2013 1 1; days_from_civil 2013 1 2] in
  exists ext,
    all_days_extended self dates = Some ext /\
    hd_error ext = Some 1460%Z /\
    ~ In 1%Z ext /\
    In (age_days self target_date + 1)%Z ext /\
    age_days self (days_from_civil 2031 1 1)
    = (age_days self target_date + 1)%Z /\
    option_map (existsb (Z.eqb (days_from_civil 2031 1 1)))
      (all_dates_extended self dates) = Some true.
Proof.
  intros self dates.
  assert (Hs : Sorted Z.le dates).
  { repeat constructor. vm_compute. discriminate. }
  destruct (all_days_extended_sorted self dates Hs ltac:(discriminate))
    as (last_date & El & E).
  vm_compute in El. injection El as <-.
  eexists. split; [exact E|]. split; [reflexivity|]. split; [|split].
  - intro H. apply in_app_iff in H. destruct H as [H|H].
    + vm_compute in H. destruct H as [H|[H|[]]]; discriminate.
    + apply In_np_arange in H. destruct H as [H _].
      vm_compute in H. apply H. reflexivity.
  - apply in_app_iff. right. apply In_np_arange.
    vm_compute. split; [intro Hc; discriminate Hc | reflexivity].
  - split; vm_compute; reflexivity.
Qed.

(** C3, amended: for every non-empty history, given as the sorted date
    column, the extended range consists of the ages of the observed days, in
    their order, followed by consecutive ages: the entry at position
    [length dates + k] is the age of the last observed day plus [k + 1].
    These consecutive ages cover every day after the last observation
    through the horizon 2030-12-31 inclusive (the list the code builds is
    given exactly; it ends at the age after that of the horizon).  The range
    starts at the age of the first observed day, and the horizon is a
    constant that does not depend on the history. *)
Theorem extended_range_reaches_horizon
  (self : ChannelCalculator) (dates : list Z) :
  Sorted Z.le dates -> dates <> [] ->
  exists ext first_date last_date,
    all_days_extended self dates = Some ext /\
    hd_error dates = Some first_date /\
    last_item dates = Some last_date /\
    ext = map (age_days self) dates
          ++ np_arange (age_days self last_date + 1)
               (age_days self target_date + 2) /\
    (forall i d, nth_error dates i = Some d ->
                 nth_error ext i = Some (age_days self d)) /\
    (forall k, (Z.of_nat k <= target_date - last_date)%Z ->
               nth_error ext (length dates + k)
               = Some (age_days self last_date + 1 + Z.of_nat k)%Z) /\
    length ext
    = (length dates + Z.to_nat (target_date - last_date + 1))%nat /\
    hd_error ext = Some (age_days self first_date) /\
    (forall d, In d dates -> In (age_days self d) ext) /\
    (forall a, (age_days self last_date < a <= age_days self target_date)%Z ->
               In a ext) /\
    target_date = days_from_civil 2030 12 31.
Proof.
  intros Hs Hne.
  destruct (all_days_extended_sorted self dates Hs Hne)
    as (last_date & El & E).
  destruct dates as [|d t]; [contradiction|].
  eexists. exists d, last_date.
  split; [exact E|]. split; [reflexivity|]. split; [exact El|].
  split; [reflexivity|].
  split; [|split; [|split; [|split; [|split; [|split]]]]].
  - intros i x Hx. rewrite nth_error_app1.
    + rewrite nth_error_map, Hx. reflexivity.
    + rewrite length_map. apply nth_error_Some. congruence.
  - intros k Hk. rewrite nth_error_app2 by (rewrite length_map; lia).
    rewrite length_map.
    replace (length (d :: t) + k - length (d :: t))%nat with k by lia.
    apply nth_error_np_arange. unfold age_days. lia.
  - rewrite length_app, length_map. f_equal.
    unfold np_arange. rewrite length_map, length_seq.
    unfold age_days. f_equal. lia.
  - reflexivity.
  - intros x Hx. apply in_app_iff. left. apply in_map. exact Hx.
  - intros a Ha. apply in_app_iff. right. apply In_np_arange. lia.
  - reflexivity.
Qed.

Lemma extended_range_reaches_horizon_witness :
  let self := default_calculator in
  let dates := [days_from_civil 2013 1 1; days_from_civil 2013 1 2] in
  exists ext,
    all_days_extended self dates = Some ext /\
    In (age_days self target_date) ext /\
    In (age_days self (days_from_civil 2020 6 15)) ext.
Proof.
  intros self dates.
  assert (Hs : Sorted Z.le dates).
  { repeat constructor. vm_compute. discriminate. }
  destruct (extended_range_reaches_horizon self dates Hs ltac:(discriminate))
    as (ext & first_date & last_date & E & _ & El & _ & _ & _ & _ & _ & _
        & Hcover & _).
  vm_compute in El. injection El as <-.
  exists ext. split; [exact E|].
  split; apply Hcover; vm_compute;
    (split; [reflexivity | intro Hc; discriminate Hc]).
Defined.

(** * Further properties of the code *)

(** ** [core/utils.py] *)

(** X1: [clamp] keeps its result between the bounds, is the identity between
    them and is idempotent; with the bounds given in the wrong order it
    returns the lower-bound argument whatever the value. *)
Theorem clamp_bounds (v lo hi : Q) :
  (lo <= hi ->
   lo <= clamp v lo hi <= hi /\
   (lo <= v <= hi -> clamp v lo hi == v) /\
   clamp (clamp v lo hi) lo hi == clamp v lo hi) /\
  (hi < lo -> clamp v lo hi = lo).
Proof.
  split.
  - intro H. pose proof (clamp_range v lo hi H) as Hr.
    split; [exact Hr|]. split.
    + intros [H1 H2]. apply clamp_id; assumption.
    + apply clamp_id; apply Hr.
  - intro H. unfold clamp.
    pose proof (py_min_le_l hi v) as Hm.
    apply py_max_l. lra.
Qed.

Lemma clamp_bounds_witness :
  clamp 15 0 10 == 10 /\ clamp 5 10 0 = 10.
Proof.
  destruct (clamp_bounds 15 0 10) as [H _].
  destruct (clamp_bounds 5 10 0) as [_ H'].
  split.
  - assert (Hb : 0 <= 10) by (unfold Qle; simpl; lia).
    destruct (H Hb) as ([_ Hhi] & _ & _).
    apply Qle_antisym; [exact Hhi|].
    unfold Qle; vm_compute; discriminate.
  - apply H'. unfold Qlt; simpl; lia.
Defined.

Section DrawdownSkips.

Lemma max_drawdown_from_finite (values : list (option pyfloat)) :
  forall st,
    max_drawdown_from values st
    = max_drawdown_from (equity_of (finite_values values)) st.
Proof.
  unfold max_drawdown_from.
  induction values as [|v t IH]; intro st; [reflexivity|].
  destruct v as [[q| | |]|]; cbn [fold_left finite_values equity_of map];
    destruct st; apply IH.
Qed.

(** The loop state on a curve without negative values: the drawdown never
    goes below -1. *)
Lemma max_drawdown_from_nonneg (qs : list Q) :
  forall peak m,
    Forall (fun q => 0 <= q) qs ->
    -(1) <= m ->
    -(1) <= max_drawdown_from (equity_of qs) (peak, m).
Proof.
  unfold max_drawdown_from.
  induction qs as [|q t IH]; intros peak m Hall Hm; [exact Hm|].
  inversion Hall as [|? ? Hq Ht]; subst.
  cbn [equity_of map fold_left drawdown_step].
  set (peak' := match peak with
                | Some p => if Qltb p q then q else p
                | None => q
                end).
  apply (IH (Some peak')); [exact Ht|].
  assert (Hdd : -(1) <= (if Qltb 0 peak' then q / peak' - 1 else 0)).
  { destruct (Qltb_spec 0 peak') as [Hpos|_]; [|lra].
    destruct (Qdiv_pos_cases q peak' Hpos) as (Hge & _).
    specialize (Hge Hq). lra. }
  destruct (Qltb _ m); assumption.
Qed.

End DrawdownSkips.

(** X2: [max_drawdown] skips the entries that are [None] or not finite: its
    value is that of the sequence of the finite entries alone. *)
Theorem max_drawdown_skips_undefined (values : list (option pyfloat)) :
  max_drawdown values = max_drawdown (equity_of (finite_values values)).
Proof. apply max_drawdown_from_finite. Qed.

(** X3: On a curve whose finite values are all at least 0 the maximum drawdown
    lies in [-1, 0]: the reported loss is never more than 100%. *)
Theorem max_drawdown_at_most_total_loss (values : list (option pyfloat)) :
  Forall (fun q => 0 <= q) (finite_values values) ->
  -(1) <= max_drawdown values /\ max_drawdown values <= 0.
Proof.
  intro H. split; [|apply max_drawdown_le_0].
  unfold max_drawdown. rewrite max_drawdown_from_finite.
  apply max_drawdown_from_nonneg; [exact H|]. unfold Qle; simpl; lia.
Qed.

Lemma max_drawdown_at_most_total_loss_witness :
  -(1) <= max_drawdown [Some (Fin 1); None; Some NaN; Some (Fin 0)] /\
  max_drawdown [Some (Fin 1); None; Some NaN; Some (Fin 0)] <= 0.
Proof.
  apply (max_drawdown_at_most_total_loss
           [Some (Fin 1); None; Some NaN; Some (Fin 0)]).
  repeat constructor; unfold Qle; simpl; lia.
Defined.

Section PriceForRatio.

Lemma py_sub_finite (a b : pyfloat) (w : Q) :
  py_sub a b = Fin w -> exists x y, a = Fin x /\ b = Fin y /\ w = x - y.
Proof.
  destruct a as [x| | |], b as [y| | |]; simpl; try discriminate.
  intro E. injection E as <-. exists x, y. repeat split.
Qed.

Lemma price_for_ratio_pct_finite (ratio_pct t p : Q) :
  t < p ->
  price_for_ratio_pct ratio_pct (Fin t) (Fin p)
  = Some (Fin (t + ratio_pct / 100 * (p - t))).
Proof.
  intro H. unfold price_for_ratio_pct. cbn [py_sub].
  destruct (Qle_bool_spec (p - t) 0) as [Hle|_]; [lra | reflexivity].
Qed.

Lemma Qdiv_100 (a : Q) : a / 100 == a * (1 # 100).
Proof. field. Qed.

End PriceForRatio.

(** X4: [price_for_ratio_pct] returns [None] exactly when the bounds are not two
    finite prices with the trough strictly below the peak; otherwise it
    returns a finite price, which is the trough at ratio 0, is not below
    the trough for a ratio that is not negative and not above it for a
    ratio that is not positive, and does not decrease when the ratio
    grows. *)
Theorem price_for_ratio_pct_cases (ratio_pct : Q) (trough_price peak_price : pyfloat) :
  (price_for_ratio_pct ratio_pct trough_price peak_price = None <->
   ~ exists t p, trough_price = Fin t /\ peak_price = Fin p /\ t < p) /\
  (forall t p,
      trough_price = Fin t -> peak_price = Fin p -> t < p ->
      exists x,
        price_for_ratio_pct ratio_pct trough_price peak_price = Some (Fin x) /\
        (ratio_pct == 0 -> x == t) /\
        (0 <= ratio_pct -> t <= x) /\
        (ratio_pct <= 0 -> x <= t) /\
        (forall ratio_pct' x',
            ratio_pct <= ratio_pct' ->
            price_for_ratio_pct ratio_pct' trough_price peak_price
            = Some (Fin x') ->
            x <= x')).
Proof.
  split.
  - split.
    + intros E (t & p & -> & -> & H).
      rewrite (price_for_ratio_pct_finite ratio_pct t p H) in E. discriminate.
    + intro Hn. unfold price_for_ratio_pct.
      destruct (py_sub peak_price trough_price) as [w| | |] eqn:Ew;
        try reflexivity.
      destruct (py_sub_finite _ _ _ Ew) as (p & t & -> & -> & ->).
      destruct (Qle_bool_spec (p - t) 0) as [_|Hgt]; [reflexivity|].
      exfalso. apply Hn. exists t, p. repeat split. lra.
  - intros t p -> -> H.
    exists (t + ratio_pct / 100 * (p - t)).
    split; [apply price_for_ratio_pct_finite; exact H|].
    pose proof (Qdiv_100 ratio_pct) as Hd.
    split; [|split; [|split]].
    + intro E. rewrite Hd, E. ring.
    + intro Hr. rewrite Hd. nra.
    + intro Hr. rewrite Hd. nra.
    + intros r' x' Hr E.
      rewrite (price_for_ratio_pct_finite r' t p H) in E.
      injection E as <-.
      pose proof (Qdiv_100 r') as Hd'.
      rewrite Hd, Hd'. nra.
Qed.

Lemma price_for_ratio_pct_cases_witness :
  exists x,
    price_for_ratio_pct 50 (Fin 10) (Fin 20) = Some (Fin x) /\ 10 <= x.
Proof.
  destruct (price_for_ratio_pct_cases 50 (Fin 10) (Fin 20)) as [_ H].
  destruct (H 10 20 eq_refl eq_refl) as (x & E & _ & Hx & _).
  - unfold Qlt; simpl; lia.
  - exists x. split; [exact E|]. apply Hx. unfold Qle; simpl; lia.
Defined.

Section MeanStdFacts.

Lemma Qnat_S (n : nat) : Qnat (S n) == Qnat n + 1.
Proof.
  unfold Qnat. rewrite Nat2Z.inj_succ. unfold Z.succ.
  rewrite inject_Z_plus. reflexivity.
Qed.

Lemma Qnat_nonneg (n : nat) : 0 <= Qnat n.
Proof.
  unfold Qnat. replace 0 with (inject_Z 0) by reflexivity.
  rewrite <- Zle_Qle. lia.
Qed.

(** The loop skips the values that are not finite. *)
Lemma mean_std_fold_finite (values : list pyfloat) :
  forall st,
    fold_left mean_std_step values st
    = fold_left mean_std_step (map Fin (finite_floats values)) st.
Proof.
  induction values as [|v t IH]; intro st; [reflexivity|].
  destruct v as [q| | |]; cbn [fold_left finite_floats map mean_std_step];
    apply IH.
Qed.

Lemma mean_std_fold_count (qs : list Q) :
  forall st,
    w_n (fold_left mean_std_step (map Fin qs) st) = (w_n st + length qs)%nat.
Proof.
  induction qs as [|q t IH]; intro st; cbn [map fold_left length]; [lia|].
  rewrite IH. cbn [mean_std_step w_n]. lia.
Qed.

(** A part [d / N] of a step [d], for [N >= 1], lies between 0 and [d]. *)
Lemma Qdiv_part (d N : Q) :
  1 <= N ->
  (0 <= d -> 0 <= d / N <= d) /\ (d <= 0 -> d <= d / N <= 0).
Proof.
  intro HN.
  assert (Hi : 0 < / N) by (apply Qinv_lt_0_compat; lra).
  assert (E : N * / N == 1) by (apply Qmult_inv_r; lra).
  assert (Hle : / N <= 1) by nra.
  unfold Qdiv. split; intro H; split; nra.
Qed.

(** One update moves the mean towards the new value and never past it. *)
Lemma mean_std_step_between (st : welford) (v lo hi : Q) :
  lo <= v <= hi ->
  (w_n st = 0%nat \/ lo <= w_mean st <= hi) ->
  lo <= w_mean (mean_std_step st (Fin v)) <= hi.
Proof.
  intros Hv Hst. cbn [mean_std_step w_mean].
  destruct Hst as [H0 | Hm].
  - rewrite H0.
    assert (E : w_mean st + (v - w_mean st) / Qnat 1 == v).
    { unfold Qnat. cbn. field. }
    rewrite E. exact Hv.
  - assert (HN : 1 <= Qnat (S (w_n st))).
    { rewrite Qnat_S. pose proof (Qnat_nonneg (w_n st)). lra. }
    destruct (Qdiv_part (v - w_mean st) (Qnat (S (w_n st))) HN) as [Hp Hn].
    destruct (Qlt_le_dec (v - w_mean st) 0) as [Hneg|Hpos].
    + specialize (Hn ltac:(lra)). lra.
    + specialize (Hp Hpos). lra.
Qed.

Lemma mean_std_fold_between (lo hi : Q) (qs : list Q) :
  forall st,
    Forall (fun q => lo <= q <= hi) qs ->
    (w_n st = 0%nat \/ lo <= w_mean st <= hi) ->
    let st' := fold_left mean_std_step (map Fin qs) st in
    w_n st' = 0%nat \/ lo <= w_mean st' <= hi.
Proof.
  induction qs as [|q t IH]; intros st Hall Hst; [exact Hst|].
  inversion Hall as [|? ? Hq Ht]; subst.
  cbn [map fold_left]. apply IH; [exact Ht|].
  right. apply mean_std_step_between; assumption.
Qed.

(** On values that are all equal the sum [M2] does not move. *)
Lemma mean_std_fold_constant (c : Q) (qs : list Q) :
  forall st,
    Forall (fun q => q == c) qs ->
    (w_n st = 0%nat \/ w_mean st == c) ->
    w_M2 (fold_left mean_std_step (map Fin qs) st) == w_M2 st.
Proof.
  induction qs as [|q t IH]; intros st Hall Hst; [reflexivity|].
  inversion Hall as [|? ? Hq Ht]; subst.
  cbn [map fold_left].
  assert (Hmean : w_mean (mean_std_step st (Fin q)) == c).
  { destruct (mean_std_step_between st q c c) as [H1 H2].
    - rewrite Hq. split; lra.
    - destruct Hst as [H0 | Hm]; [left; exact H0 | right; rewrite Hm; lra].
    - apply Qle_antisym; assumption. }
  rewrite IH; [|exact Ht | right; exact Hmean].
  cbn [mean_std_step w_M2 w_mean] in *.
  rewrite Hmean, Hq. ring.
Qed.

End MeanStdFacts.

(** X6: [mean_std] looks at the finite entries only: it returns their count and
    the same mean and deviation as on the list of the finite entries alone.
    The value under the final square root is never negative, and is 0 when
    there are fewer than two finite values; without any finite value the
    mean is 0.  The mean lies between any two bounds that enclose all finite
    values, and on values that are all equal it is that value, with
    deviation 0. *)
Theorem mean_std_summary (values : list pyfloat) :
  exists n mean var,
    mean_std_squared values = (n, mean, var) /\
    n = length (finite_floats values) /\
    mean_std_squared (map Fin (finite_floats values)) = (n, mean, var) /\
    0 <= var /\
    ((n <= 1)%nat -> var == 0) /\
    (n = 0%nat -> mean = 0) /\
    (forall lo hi,
        (0 < n)%nat ->
        Forall (fun q => lo <= q <= hi) (finite_floats values) ->
        lo <= mean <= hi) /\
    (forall c,
        (0 < n)%nat ->
        Forall (fun q => q == c) (finite_floats values) ->
        mean == c /\ var == 0).
Proof.
  unfold mean_std_squared, mean_std_loop.
  set (st0 := {| w_n := 0; w_mean := 0; w_M2 := 0 |}).
  rewrite (mean_std_fold_finite values st0).
  set (qs := finite_floats values).
  set (st := fold_left mean_std_step (map Fin qs) st0).
  assert (Hn : w_n st = length qs).
  { unfold st. rewrite mean_std_fold_count. reflexivity. }
  eexists; eexists; eexists. split; [reflexivity|].
  split; [exact Hn|]. split; [reflexivity|].
  split; [apply py_max_ge_r|].
  split; [|split; [|split]].
  - intro Hle. destruct (Nat.ltb_spec 1 (w_n st)) as [Hgt|_]; [lia|].
    reflexivity.
  - intro H0. rewrite Hn in H0. unfold st.
    destruct qs; [reflexivity | discriminate].
  - intros lo hi Hpos Hall.
    destruct (mean_std_fold_between lo hi qs st0 Hall (or_introl eq_refl))
      as [H0 | Hb]; [fold st in H0; lia | exact Hb].
  - intros c Hpos Hall.
    assert (Hall' : Forall (fun q => c <= q <= c) qs).
    { eapply Forall_impl; [|exact Hall]. cbv beta. intros q Hq.
      rewrite Hq. split; lra. }
    destruct (mean_std_fold_between c c qs st0 Hall' (or_introl eq_refl))
      as [H0 | Hb]; [fold st in H0; lia|].
    fold st in Hb. split; [apply Qle_antisym; apply Hb|].
    pose proof (mean_std_fold_constant c qs st0 Hall (or_introl eq_refl))
      as HM. fold st in HM. cbn [w_M2 st0] in HM.
    assert (Hv : (if (1 <? w_n st)%nat
                  then w_M2 st / (Qnat (w_n st) - 1) else 0) == 0).
    { destruct (1 <? w_n st)%nat; [|reflexivity]. rewrite HM.
      unfold Qdiv. ring. }
    destruct (py_max_spec
                (if (1 <? w_n st)%nat
                 then w_M2 st / (Qnat (w_n st) - 1) else 0) 0)
      as [[_ ->] | [_ ->]]; [reflexivity | exact Hv].
Qed.

Lemma mean_std_summary_witness :
  exists mean var,
    mean_std_squared [Fin 1; NaN; Fin 3] = (2%nat, mean, var) /\
    1 <= mean <= 3.
Proof.
  destruct (mean_std_summary [Fin 1; NaN; Fin 3])
    as (n & mean & var & E & Hn & _ & _ & _ & _ & Hb & _).
  cbn [finite_floats length] in Hn. subst n.
  exists mean, var. split; [exact E|].
  apply Hb; [lia|].
  repeat constructor; unfold Qle; simpl; lia.
Defined.

(** ** The ratio indicator of [compute_channel] *)

Section RatioRange.

Lemma ratio_at_range (price k t : Q) :
  exists r, ratio_at price k t = Fin r /\ 0 <= r <= 100.
Proof.
  destruct (Qlt_le_dec 0 (k - t)) as [Hg|Hg].
  - destruct (ratio_at_cases price k t) as [_ Hpos].
    destruct (Hpos Hg) as (r & E & Hr). exists r. split; [exact E|].
    rewrite Hr. apply clamp_range. lra.
  - destruct (ratio_at_cases price k t) as [Hzero _].
    exists 0. split; [apply Hzero; exact Hg | lra].
Qed.

Lemma ratio_rows_range (price : list Q) :
  forall current_peak current_trough ratio,
    ratio_rows price current_peak current_trough = Some ratio ->
    Forall (fun x => exists r, x = Fin r /\ 0 <= r <= 100) ratio.
Proof.
  induction price as [|p ps IH]; intros [|k ks] [|t ts] ratio E;
    cbn [ratio_rows] in E; try discriminate.
  - injection E as <-. constructor.
  - destruct (ratio_rows ps ks ts) as [rest|] eqn:Er; cbn [bind] in E;
      [|discriminate].
    injection E as <-. constructor; [apply ratio_at_range|].
    apply (IH ks ts). exact Er.
Qed.

End RatioRange.

(** X7: Every position that the ratio stage returns is a finite number in
    [0, 100].  On a day with the trough bound below the peak bound, a price at
    or below the trough bound has position 0, a price at or above the peak
    bound has position 100, and a higher price never has a lower position. *)
Theorem ratio_indicator_range
  (price peak_price_line trough_price_line : list Q) (ratio : list pyfloat) :
  (ratio_indicator price peak_price_line trough_price_line = Some ratio ->
   forall i x, nth_error ratio i = Some x ->
               exists r, x = Fin r /\ 0 <= r <= 100) /\
  (forall p k t, t < k ->
     (p <= t -> ratio_at p k t = Fin 0 \/
                exists r, ratio_at p k t = Fin r /\ r == 0) /\
     (k <= p -> exists r, ratio_at p k t = Fin r /\ r == 100) /\
     (forall p' r r', p <= p' ->
        ratio_at p k t = Fin r -> ratio_at p' k t = Fin r' -> r <= r')).
Proof.
  split.
  - intros E i x Hx. unfold ratio_indicator in E.
    pose proof (ratio_rows_range _ _ _ _ E) as Hall.
    rewrite Forall_forall in Hall. apply Hall.
    apply (nth_error_In _ _ Hx).
  - intros p k t Hg.
    assert (Hi : 0 < / (k - t)) by (apply Qinv_lt_0_compat; lra).
    assert (Einv : (k - t) * / (k - t) == 1) by (apply Qmult_inv_r; lra).
    destruct (ratio_at_cases p k t) as [_ Hpos].
    destruct (Hpos ltac:(lra)) as (r & Er & Hr).
    split; [|split].
    + intro Hle. right. exists r. split; [exact Er|].
      destruct (Qdiv_pos_cases (p - t) (k - t) ltac:(lra)) as (_ & Hb & _).
      specialize (Hb ltac:(lra)).
      destruct (clamp_cases ((p - t) / (k - t) * 100) 0 100 ltac:(lra))
        as [[? E] | [[? [? E]] | [? E]]]; lra.
    + intro Hge. exists r. split; [exact Er|].
      destruct (Qdiv_pos_cases (p - t) (k - t) ltac:(lra)) as (_ & _ & _ & Hd).
      specialize (Hd ltac:(lra)).
      destruct (clamp_cases ((p - t) / (k - t) * 100) 0 100 ltac:(lra))
        as [[? E] | [[? [? E]] | [? E]]]; lra.
    + intros p' r0 r' Hpp E0 E'.
      rewrite Er in E0. injection E0 as <-.
      destruct (ratio_at_cases p' k t) as [_ Hpos'].
      destruct (Hpos' ltac:(lra)) as (r1 & Er1 & Hr1).
      rewrite Er1 in E'. injection E' as <-.
      rewrite Hr, Hr1. apply clamp_mono; [lra|].
      pose proof (Qdiv_mono (p - t) (p' - t) (k - t) ltac:(lra) ltac:(lra)).
      lra.
Qed.

Lemma ratio_indicator_range_witness :
  exists r, ratio_at 25 20 10 = Fin r /\ r == 100.
Proof.
  destruct (ratio_indicator_range [] [] [] []) as [_ H].
  destruct (H 25 20 10) as (_ & Htop & _).
  - unfold Qlt; simpl; lia.
  - apply Htop. unfold Qle; simpl; lia.
Defined.

(** ** [core/strategy.py] *)

Section LadderMonotone.

Variables (s : Q) (ladder : string).

Lemma sell_weight_interior (r : Q) :
  s < r -> r < 100 ->
  let x := clamp ((r - s) / (100 - s)) 0 1 in
  sell_weight (Fin r) s ladder =
  (if (ladder =? "g0")%string then clamp (1 - x * x) 0 1
   else if (ladder =? "g2")%string
        then clamp (1 - x) 0 1 * clamp (1 - x) 0 1
        else clamp (1 - x) 0 1).
Proof.
  intros H1 H2 x. unfold sell_weight.
  destruct (Qle_bool_spec r s) as [H|_]; [lra|].
  destruct (Qle_bool_spec 100 r) as [H|_]; [lra|].
  destruct (Qle_bool_spec (100 - s) 0) as [H|_]; [lra|].
  reflexivity.
Qed.

Lemma sell_weight_mono (r1 r2 : Q) :
  r1 <= r2 ->
  sell_weight (Fin r2) s ladder <= sell_weight (Fin r1) s ladder.
Proof.
  intro Hle.
  pose proof (sell_weight_range s ladder (Fin r1)) as R1.
  pose proof (sell_weight_range s ladder (Fin r2)) as R2.
  destruct (Qlt_le_dec s r1) as [Hs1|Hs1].
  2:{ assert (E : sell_weight (Fin r1) s ladder = 1).
      { unfold sell_weight.
        destruct (Qle_bool_spec r1 s) as [_|H]; [reflexivity | lra]. }
      rewrite E. apply R2. }
  destruct (Qlt_le_dec r2 100) as [H2|H2].
  2:{ assert (E : sell_weight (Fin r2) s ladder = 0).
      { unfold sell_weight.
        destruct (Qle_bool_spec r2 s) as [H|_]; [lra|].
        destruct (Qle_bool_spec 100 r2) as [_|H]; [reflexivity | lra]. }
      rewrite E. apply R1. }
  rewrite (sell_weight_interior r1), (sell_weight_interior r2) by lra.
  cbv zeta.
  set (x1 := clamp ((r1 - s) / (100 - s)) 0 1).
  set (x2 := clamp ((r2 - s) / (100 - s)) 0 1).
  pose proof (clamp_unit ((r1 - s) / (100 - s))) as U1. fold x1 in U1.
  pose proof (clamp_unit ((r2 - s) / (100 - s))) as U2. fold x2 in U2.
  assert (Hx : x1 <= x2).
  { apply clamp_mono; [lra|]. apply Qdiv_mono; lra. }
  destruct (ladder =? "g0")%string.
  - apply clamp_mono; [lra | nra].
  - destruct (ladder =? "g2")%string.
    + pose proof (clamp_unit (1 - x1)) as B1.
      pose proof (clamp_unit (1 - x2)) as B2.
      assert (Hb : clamp (1 - x2) 0 1 <= clamp (1 - x1) 0 1)
        by (apply clamp_mono; lra).
      nra.
    + apply clamp_mono; lra.
Qed.

End LadderMonotone.

(** X8: The ladder weight never increases with the ratio: for finite ratios
    r1 <= r2 the weight at r2 is at most the weight at r1, whatever the sell
    start and the ladder.  A ratio that is not finite gets the weight 1.0. *)
Theorem sell_weight_monotone (s : Q) (ladder : string) :
  (forall r1 r2, r1 <= r2 ->
     sell_weight (Fin r2) s ladder <= sell_weight (Fin r1) s ladder) /\
  (forall ratio, isfinite ratio = false -> sell_weight ratio s ladder = 1).
Proof.
  split.
  - apply sell_weight_mono.
  - intros [r| | |] H; try reflexivity. discriminate.
Qed.

Lemma sell_weight_monotone_witness :
  sell_weight (Fin 90) 46 "g2" <= sell_weight (Fin 50) 46 "g2".
Proof.
  destruct (sell_weight_monotone 46 "g2") as [H _].
  apply H. unfold Qle; simpl; lia.
Defined.

(** X9: The hints of [get_ladder_hints] are percentages in [0, 100] that are
    ordered: the weight at ratio 90 is at most the weight at 70, which is at
    most the weight at 50. *)
Theorem ladder_hints_ordered (sell_start : Q) (ladder : string) :
  let hints := get_ladder_hints sell_start ladder in
  0 <= w90 hints /\ w90 hints <= w70 hints /\
  w70 hints <= w50 hints /\ w50 hints <= 100.
Proof.
  cbv zeta. unfold get_ladder_hints. cbn [w50 w70 w90].
  pose proof (sell_weight_range sell_start ladder (Fin 90)) as R90.
  pose proof (sell_weight_range sell_start ladder (Fin 50)) as R50.
  assert (H1 : sell_weight (Fin 90) sell_start ladder
               <= sell_weight (Fin 70) sell_start ladder).
  { apply sell_weight_mono. unfold Qle; simpl; lia. }
  assert (H2 : sell_weight (Fin 70) sell_start ladder
               <= sell_weight (Fin 50) sell_start ladder).
  { apply sell_weight_mono. unfold Qle; simpl; lia. }
  repeat split; lra.
Qed.

Section StepFacts.

Variable params : StrategyParams.

(** The three outcomes of [step_weight]. *)
Lemma step_weight_cases (prev : Q) (ratio : pyfloat) :
  let target := target_weight prev ratio params in
  (py_abs (target - prev) <= eps12 /\
   step_weight prev ratio params
   = {| weight := prev; action := "HOLD"; tag := "hold" |}) \/
  (eps12 < target - prev /\
   step_weight prev ratio params
   = {| weight := target; action := "BUY / REBALANCE UP"; tag := "buy" |}) \/
  (target - prev < - eps12 /\
   step_weight prev ratio params
   = {| weight := target; action := "SELL / REBALANCE DOWN";
        tag := "sell" |}).
Proof.
  intro target. unfold step_weight. fold target.
  assert (He : 0 < eps12) by reflexivity.
  destruct (Qle_bool_spec (py_abs (target - prev)) eps12) as [Hh|Hc].
  - left. split; [exact Hh | reflexivity].
  - right.
    destruct (py_abs_spec (target - prev)) as [[Hn E] | [Hp E]];
      rewrite E in Hc;
      destruct (Qltb_spec 0 (target - prev)) as [Hpos|Hneg].
    + lra.
    + right. split; [lra | reflexivity].
    + left. split; [lra | reflexivity].
    + lra.
Qed.

Lemma target_weight_not_finite (prev : Q) (ratio : pyfloat) :
  isfinite ratio = false -> target_weight prev ratio params = prev.
Proof. destruct ratio; [discriminate | reflexivity ..]. Qed.

Lemma target_weight_sell_regime (prev r : Q) :
  sell_start params <= r -> target_weight prev (Fin r) params <= prev.
Proof.
  intro H. unfold target_weight.
  destruct (Qle_bool_spec (sell_start params) r) as [_|Hn]; [|lra].
  apply py_min_le_l.
Qed.

(** A step in the sell regime or on an undefined ratio never raises the
    weight. *)
Lemma step_weight_no_rise (prev : Q) (ratio : pyfloat) :
  (isfinite ratio = false \/
   exists r, ratio = Fin r /\ sell_start params <= r) ->
  weight (step_weight prev ratio params) <= prev /\
  tag (step_weight prev ratio params) <> "buy"%string.
Proof.
  intro H.
  assert (Ht : target_weight prev ratio params <= prev).
  { destruct H as [H | (r & -> & H)].
    - rewrite (target_weight_not_finite prev ratio H). lra.
    - apply target_weight_sell_regime. exact H. }
  destruct (step_weight_cases prev ratio) as [[_ E] | [[Hc E] | [Hc E]]];
    rewrite E; cbn [weight tag].
  - split; [lra | discriminate].
  - assert (0 < eps12) by reflexivity. lra.
  - split; [lra | discriminate].
Qed.

Lemma step_weight_not_finite (prev : Q) (ratio : pyfloat) :
  isfinite ratio = false ->
  step_weight prev ratio params
  = {| weight := prev; action := "HOLD"; tag := "hold" |}.
Proof.
  intro H.
  destruct (step_weight_cases prev ratio) as [[_ E] | [[Hc E] | [Hc E]]];
    [exact E | exfalso | exfalso];
    rewrite (target_weight_not_finite prev ratio H) in Hc;
    assert (0 < eps12) by reflexivity; lra.
Qed.

End StepFacts.

(** X10: [step_weight] tags a step "hold", "buy" or "sell": "hold" keeps the
    previous weight exactly and is chosen when the target differs from it by
    at most 1e-12; "buy" and "sell" move to the target, which is then above,
    respectively below, the previous weight by more than 1e-12.  In the sell
    regime and on a ratio that is not finite the step is never a "buy". *)
Theorem step_weight_tags
  (prev : Q) (ratio : pyfloat) (params : StrategyParams) :
  let step := step_weight prev ratio params in
  let target := target_weight prev ratio params in
  ((tag step = "hold"%string /\ weight step = prev /\
    py_abs (target - prev) <= eps12) \/
   (tag step = "buy"%string /\ weight step = target /\
    prev + eps12 < weight step) \/
   (tag step = "sell"%string /\ weight step = target /\
    weight step < prev - eps12)) /\
  ((isfinite ratio = false \/
    exists r, ratio = Fin r /\ sell_start params <= r) ->
   weight step <= prev /\ tag step <> "buy"%string).
Proof.
  cbv zeta. split.
  - destruct (step_weight_cases params prev ratio)
      as [[Hc E] | [[Hc E] | [Hc E]]]; rewrite E; cbn [weight tag].
    + left. repeat split. exact Hc.
    + right; left. repeat split. lra.
    + right; right. repeat split. lra.
  - apply step_weight_no_rise.
Qed.

Lemma step_weight_tags_witness :
  weight (step_weight (1 # 2) (Fin 90) default_params) <= 1 # 2 /\
  tag (step_weight (1 # 2) (Fin 90) default_params) <> "buy"%string.
Proof.
  destruct (step_weight_tags (1 # 2) (Fin 90) default_params) as [_ H].
  apply H. right. exists 90. split; [reflexivity|].
  unfold Qle; simpl; lia.
Defined.

(** X11: Below the sell start the re-entry mode decides: "instant" returns to
    1.0; "wait" returns to 1.0 only at or below the buy threshold and
    otherwise keeps the previous weight. *)
Theorem reentry_instant_and_wait
  (prev r : Q) (params : StrategyParams) :
  r < sell_start params ->
  (reentry_mode params = "instant"%string ->
   target_weight prev (Fin r) params = 1) /\
  (reentry_mode params = "wait"%string ->
   (r <= buy_threshold params -> target_weight prev (Fin r) params = 1) /\
   (buy_threshold params < r ->
    target_weight prev (Fin r) params = prev)).
Proof.
  intro Hr. unfold target_weight.
  destruct (Qle_bool_spec (sell_start params) r) as [H|_]; [lra|].
  split.
  - intros ->. reflexivity.
  - intros ->. cbn [String.eqb Ascii.eqb Bool.eqb].
    split; intro Hb.
    + destruct (Qle_bool_spec r (buy_threshold params)) as [_|H];
        [reflexivity | lra].
    + destruct (Qle_bool_spec r (buy_threshold params)) as [H|_];
        [lra | reflexivity].
Qed.

Lemma reentry_instant_and_wait_witness :
  let params := {| ladder := "g1"; sell_start := 46; buy_threshold := 14;
                   reentry_mode := "wait"; start_weight := 1;
                   start_date := "2018-01-01" |} in
  target_weight (1 # 2) (Fin 30) params = 1 # 2 /\
  target_weight (1 # 2) (Fin 10) params = 1.
Proof.
  intro params.
  assert (H30 : 30 < sell_start params) by (unfold Qlt; simpl; lia).
  assert (H10 : 10 < sell_start params) by (unfold Qlt; simpl; lia).
  destruct (reentry_instant_and_wait (1 # 2) 30 params H30) as [_ Hw30].
  destruct (reentry_instant_and_wait (1 # 2) 10 params H10) as [_ Hw10].
  destruct (Hw30 eq_refl) as [_ Hkeep].
  destruct (Hw10 eq_refl) as [Hback _].
  split.
  - apply Hkeep. unfold Qlt; simpl; lia.
  - apply Hback. unfold Qle; simpl; lia.
Defined.

(** ** The weight series, day by day *)

Section SeriesTrace.

Variables (ratios : list pyfloat) (dates : list string)
          (params : StrategyParams).

(** One iteration of the loop: the new weight is the step's weight, it is
    stored at [i], and the last trade is replaced exactly when the step is
    not a hold. *)
Lemma series_body_trace (i : nat) (st st' : series_state) :
  series_body ratios dates params i st = Some st' ->
  exists ratio,
    nth_error ratios i = Some ratio /\
    let step := step_weight (st_weight st) ratio params in
    st_weight st' = weight step /\
    length (st_weights st') = length (st_weights st) /\
    nth_error (st_weights st') i = Some (Some (weight step)) /\
    (forall j, j <> i ->
       nth_error (st_weights st') j = nth_error (st_weights st) j) /\
    ((weight step = st_weight st /\ st_last_trade st' = st_last_trade st) \/
     (exists d,
         nth_error dates i = Some d /\
         (tag step = "buy"%string \/ tag step = "sell"%string) /\
         st_last_trade st' =
         Some {| trade_date := d; trade_action := action step;
                 trade_ratio := ratio; trade_weight := weight step;
                 trade_tag := tag step |})).
Proof.
  unfold series_body. intro E.
  destruct (nth_error ratios i) as [ratio|]; cbn [bind] in E; [|discriminate].
  exists ratio. split; [reflexivity|]. cbv zeta.
  set (step := step_weight (st_weight st) ratio params) in *.
  assert (He : 0 < eps12) by reflexivity.
  assert (Hchg :
    (Qltb eps12 (py_abs (weight step - st_weight st)) = false /\
     weight step = st_weight st) \/
    (Qltb eps12 (py_abs (weight step - st_weight st)) = true /\
     (tag step = "buy"%string \/ tag step = "sell"%string))).
  { unfold step.
    destruct (step_weight_cases params (st_weight st) ratio)
      as [[Hc Es] | [[Hc Es] | [Hc Es]]]; rewrite Es; cbn [weight tag].
    - left. split; [|reflexivity]. apply Qltb_ge.
      destruct (py_abs_spec (st_weight st - st_weight st)) as [[? ->]|[? ->]];
        lra.
    - right. split; [|left; reflexivity]. apply Qltb_lt.
      destruct (py_abs_spec
                  (target_weight (st_weight st) ratio params - st_weight st))
        as [[? ->]|[? ->]]; lra.
    - right. split; [|right; reflexivity]. apply Qltb_lt.
      destruct (py_abs_spec
                  (target_weight (st_weight st) ratio params - st_weight st))
        as [[? ->]|[? ->]]; lra. }
  destruct Hchg as [[Hb Hw] | [Hb Ht]]; rewrite Hb in E.
  - cbn [bind] in E.
    destruct (list_set (st_weights st) i (Some (weight step))) as [ws|] eqn:Es;
      cbn [bind] in E; [|discriminate].
    injection E as <-. cbn [st_weight st_weights st_last_trade].
    destruct (list_set_inv _ _ _ _ Es) as (_ & Hlen & Hget & Hoth).
    repeat split; auto.
  - destruct (nth_error dates i) as [d|]; cbn [bind] in E; [|discriminate].
    destruct (list_set (st_weights st) i (Some (weight step))) as [ws|] eqn:Es;
      cbn [bind] in E; [|discriminate].
    injection E as <-. cbn [st_weight st_weights st_last_trade].
    destruct (list_set_inv _ _ _ _ Es) as (_ & Hlen & Hget & Hoth).
    repeat split; auto.
    right. exists d. repeat split; auto.
Qed.

(** The loop over [n] days from index [i]: every day's entry is the step
    from the weight of the day before, and the last trade is the latest day
    whose step was not a hold. *)
Lemma series_loop_trace (n : nat) :
  forall (i : nat) (st st' : series_state),
    series_loop ratios dates params n i st = Some st' ->
    length (st_weights st') = length (st_weights st) /\
    (forall j, (j < i \/ i + n <= j)%nat ->
       nth_error (st_weights st') j = nth_error (st_weights st) j) /\
    (forall j, (i <= j < i + n)%nat ->
       exists ratio prev,
         nth_error ratios j = Some ratio /\
         (j = i -> prev = st_weight st) /\
         ((i < j)%nat ->
          nth_error (st_weights st') (j - 1) = Some (Some prev)) /\
         nth_error (st_weights st') j
         = Some (Some (weight (step_weight prev ratio params)))) /\
    ((0 < n)%nat ->
     nth_error (st_weights st') (i + n - 1) = Some (Some (st_weight st'))) /\
    ((st_last_trade st' = st_last_trade st /\
      st_weight st' = st_weight st /\
      forall j, (i <= j < i + n)%nat ->
        nth_error (st_weights st') j = Some (Some (st_weight st))) \/
     (exists j d ratio tr,
         (i <= j < i + n)%nat /\
         st_last_trade st' = Some tr /\
         nth_error dates j = Some d /\ trade_date tr = d /\
         nth_error ratios j = Some ratio /\ trade_ratio tr = ratio /\
         (trade_tag tr = "buy"%string \/ trade_tag tr = "sell"%string) /\
         st_weight st' = trade_weight tr /\
         forall k, (j <= k < i + n)%nat ->
           nth_error (st_weights st') k = Some (Some (trade_weight tr)))).
Proof.
  induction n as [|n IH]; intros i st st' E; cbn [series_loop] in E.
  - injection E as <-.
    split; [reflexivity|]. split; [reflexivity|].
    split; [intros j Hj; lia|]. split; [intro H; lia|].
    left. split; [reflexivity|]. split; [reflexivity|]. intros j Hj; lia.
  - destruct (series_body ratios dates params i st) as [st1|] eqn:Eb;
      cbn [bind] in E; [|discriminate].
    destruct (series_body_trace i st st1 Eb)
      as (ratio & Er & Hw1 & Hlen1 & Hget1 & Hoth1 & Htrade1).
    cbv zeta in Hw1, Hget1, Htrade1.
    destruct (IH (S i) st1 st' E)
      as (Hlen & Hframe & Hrec & Hlast & Htrade).
    assert (Hi : nth_error (st_weights st') i
                 = Some (Some (st_weight st1))).
    { rewrite Hframe by lia. rewrite Hget1, Hw1. reflexivity. }
    split; [congruence|]. split; [|split; [|split]].
    + intros j Hj. rewrite Hframe by lia. apply Hoth1. lia.
    + intros j Hj. destruct (Nat.eq_dec j i) as [->|Hne].
      * exists ratio, (st_weight st). split; [exact Er|].
        split; [reflexivity|]. split; [intro; lia|].
        rewrite Hi, Hw1. reflexivity.
      * destruct (Hrec j ltac:(lia)) as (rj & prev & Erj & Hfirst & Hprev & Hj').
        destruct (Nat.eq_dec j (S i)) as [->|Hne'].
        -- exists rj, (st_weight st1). split; [exact Erj|].
           split; [intro; lia|]. split.
           ++ intros _. replace (S i - 1)%nat with i by lia. exact Hi.
           ++ rewrite <- (Hfirst eq_refl). exact Hj'.
        -- exists rj, prev. split; [exact Erj|].
           split; [intro; lia|]. split; [|exact Hj'].
           intros _. apply Hprev. lia.
    + intros _. destruct n as [|n'].
      * cbn [series_loop] in E. injection E as <-.
        replace (i + 1 - 1)%nat with i by lia.
        rewrite Hget1, Hw1. reflexivity.
      * replace (i + S (S n') - 1)%nat with (S i + S n' - 1)%nat by lia.
        apply Hlast. lia.
    + destruct Htrade as [(Hlt & Hwt & Hall) | Hchg].
      * destruct Htrade1 as [[Hsame Hlt1] | (d & Ed & Htag & Hlt1)].
        -- left. split; [congruence|]. split; [congruence|].
           intros j Hj. destruct (Nat.eq_dec j i) as [->|Hne].
           ++ rewrite Hi. congruence.
           ++ rewrite (Hall j) by lia. congruence.
        -- right. eexists i, d, ratio, _.
           split; [lia|]. split; [rewrite Hlt; exact Hlt1|].
           cbn [trade_date trade_ratio trade_tag trade_weight].
           split; [exact Ed|]. split; [reflexivity|].
           split; [exact Er|]. split; [reflexivity|].
           split; [exact Htag|]. split; [congruence|].
           intros k Hk. destruct (Nat.eq_dec k i) as [->|Hne].
           ++ rewrite Hi, Hw1. reflexivity.
           ++ rewrite (Hall k) by lia. rewrite Hw1. reflexivity.
      * right. destruct Hchg as (j & d & rj & tr & Hj & Hlt & Ed & Etd & Erj
                                 & Etr & Htag & Hwt & Hall).
        exists j, d, rj, tr. split; [lia|].
        repeat split; auto. intros k Hk. apply Hall. lia.
Qed.

End SeriesTrace.

Section SeriesShape.

Variables (ratios : list pyfloat) (dates : list string)
          (params : StrategyParams) (start_idx : nat)
          (ws : list (option Q)) (lt : option Trade).

Hypothesis returned :
  compute_weight_series ratios dates params start_idx = Some (ws, lt).

(** What [compute_weight_series] returns, read off the loop. *)
Lemma compute_weight_series_trace :
  (forall j, (start_idx <= j < length ratios)%nat ->
     exists ratio prev,
       nth_error ratios j = Some ratio /\
       (j = start_idx -> prev = start_weight params) /\
       ((start_idx < j)%nat -> nth_error ws (j - 1) = Some (Some prev)) /\
       nth_error ws j = Some (Some (weight (step_weight prev ratio params)))) /\
  ((lt = None /\
    forall j, (start_idx <= j < length ratios)%nat ->
      nth_error ws j = Some (Some (start_weight params))) \/
   (exists j d ratio tr,
       (start_idx <= j < length ratios)%nat /\
       lt = Some tr /\
       nth_error dates j = Some d /\ trade_date tr = d /\
       nth_error ratios j = Some ratio /\ trade_ratio tr = ratio /\
       (trade_tag tr = "buy"%string \/ trade_tag tr = "sell"%string) /\
       forall k, (j <= k < length ratios)%nat ->
         nth_error ws k = Some (Some (trade_weight tr)))).
Proof.
  unfold compute_weight_series in returned.
  set (init := {| st_weights := repeat None (length ratios);
                  st_weight := start_weight params;
                  st_last_trade := None |}) in returned.
  destruct (series_loop ratios dates params (length ratios - start_idx)
              start_idx init) as [st|] eqn:El; cbn [bind] in returned;
    [|discriminate].
  injection returned as <- <-.
  destruct (series_loop_trace ratios dates params _ _ _ _ El)
    as (_ & _ & Hrec & _ & Htrade).
  cbn [st_weight st_last_trade] in Hrec, Htrade.
  split.
  - intros j Hj. apply Hrec. lia.
  - destruct Htrade as [(Hlt & _ & Hall) | Hchg].
    + left. split; [exact Hlt|]. intros j Hj. apply Hall. lia.
    + right. destruct Hchg as (j & d & rj & tr & Hj & Hlt & Ed & Etd & Erj
                               & Etr & Htag & _ & Hall).
      exists j, d, rj, tr. split; [lia|].
      repeat split; auto. intros k Hk. apply Hall. lia.
Qed.

End SeriesShape.

(** X12: Each day's weight is one step from the weight of the day before (from
    the start weight on the first day).  Hence on a day after the start
    index whose ratio is in the sell regime or is not finite the weight is
    at most that of the previous day, and on a day whose ratio is not finite
    it is that of the previous day unchanged. *)
Theorem weight_series_steps
  (ratios : list pyfloat) (dates : list string) (params : StrategyParams)
  (start_idx : nat) (ws : list (option Q)) (lt : option Trade) :
  compute_weight_series ratios dates params start_idx = Some (ws, lt) ->
  (forall ratio, nth_error ratios start_idx = Some ratio ->
     nth_error ws start_idx
     = Some (Some (weight (step_weight (start_weight params) ratio params)))) /\
  (forall j ratio,
      (start_idx <= j)%nat -> nth_error ratios (S j) = Some ratio ->
      exists w w',
        nth_error ws j = Some (Some w) /\
        nth_error ws (S j) = Some (Some w') /\
        w' = weight (step_weight w ratio params) /\
        ((isfinite ratio = false \/
          exists r, ratio = Fin r /\ sell_start params <= r) -> w' <= w) /\
        (isfinite ratio = false -> w' = w)).
Proof.
  intro E.
  destruct (compute_weight_series_trace _ _ _ _ _ _ E) as [Hrec _].
  split.
  - intros ratio Hr.
    assert (Hlen : (start_idx < length ratios)%nat).
    { apply nth_error_Some. congruence. }
    destruct (Hrec start_idx ltac:(lia)) as (r' & prev & Er & Hfirst & _ & Hw).
    rewrite Hr in Er. injection Er as <-.
    rewrite <- (Hfirst eq_refl). exact Hw.
  - intros j ratio Hj Hr.
    assert (Hlen : (S j < length ratios)%nat).
    { apply nth_error_Some. congruence. }
    destruct (Hrec (S j) ltac:(lia)) as (r' & prev & Er & _ & Hprev & Hw).
    rewrite Hr in Er. injection Er as <-.
    specialize (Hprev ltac:(lia)).
    replace (S j - 1)%nat with j in Hprev by lia.
    exists prev, (weight (step_weight prev ratio params)).
    split; [exact Hprev|]. split; [exact Hw|]. split; [reflexivity|].
    split.
    + intro Hreg. apply (step_weight_no_rise params prev ratio Hreg).
    + intro Hnf. rewrite (step_weight_not_finite params prev ratio Hnf).
      reflexivity.
Qed.

Lemma weight_series_steps_witness :
  exists ws lt w w',
    compute_weight_series [Fin 10; Fin 70; NaN; Fin 90; Fin 20]
      ["d0"; "d1"; "d2"; "d3"; "d4"]%string default_params 1 = Some (ws, lt) /\
    nth_error ws 1 = Some (Some w) /\ nth_error ws 2 = Some (Some w') /\
    w' = w.
Proof.
  destruct (compute_weight_series_total
              [Fin 10; Fin 70; NaN; Fin 90; Fin 20]
              ["d0"; "d1"; "d2"; "d3"; "d4"]%string default_params 1)
    as (ws & lt & E).
  - split; unfold Qle; simpl; lia.
  - simpl; lia.
  - destruct (weight_series_steps _ _ _ _ _ _ E) as [_ H].
    destruct (H 1%nat NaN ltac:(lia) eq_refl) as (w & w' & Hw & Hw' & _ & _ & Hnf).
    exists ws, lt, w, w'. repeat split; auto.
Defined.

(** X13: The last trade is the "no change occurred" marker [None] exactly when no
    step changed the weight, and then every weight from the start index on is
    the start weight.  Otherwise it records a day from the start index on,
    with that day's date and ratio, tagged "buy" or "sell" and never "hold",
    and every weight from that day on is the recorded weight. *)
Theorem last_trade_records_last_change
  (ratios : list pyfloat) (dates : list string) (params : StrategyParams)
  (start_idx : nat) (ws : list (option Q)) (lt : option Trade) :
  compute_weight_series ratios dates params start_idx = Some (ws, lt) ->
  (lt = None ->
   forall j, (start_idx <= j < length ratios)%nat ->
     nth_error ws j = Some (Some (start_weight params))) /\
  (forall tr, lt = Some tr ->
     exists j,
       (start_idx <= j < length ratios)%nat /\
       nth_error dates j = Some (trade_date tr) /\
       nth_error ratios j = Some (trade_ratio tr) /\
       (trade_tag tr = "buy"%string \/ trade_tag tr = "sell"%string) /\
       forall k, (j <= k < length ratios)%nat ->
         nth_error ws k = Some (Some (trade_weight tr))).
Proof.
  intro E.
  destruct (compute_weight_series_trace _ _ _ _ _ _ E) as [_ Htrade].
  split.
  - intros ->. destruct Htrade as [[_ Hall] | Hchg]; [exact Hall|].
    destruct Hchg as (j & d & rj & tr & _ & Hlt & _). discriminate.
  - intros tr ->. destruct Htrade as [[Hlt _] | Hchg]; [discriminate|].
    destruct Hchg as (j & d & rj & tr' & Hj & Hlt & Ed & Etd & Erj
                      & Etr & Htag & Hall).
    injection Hlt as <-. exists j. subst d rj. repeat split; auto; lia.
Qed.

Lemma last_trade_records_last_change_witness :
  exists ws tr j,
    compute_weight_series [Fin 10; Fin 70; NaN; Fin 90; Fin 20]
      ["d0"; "d1"; "d2"; "d3"; "d4"]%string default_params 1
    = Some (ws, Some tr) /\
    nth_error ["d0"; "d1"; "d2"; "d3"; "d4"]%string j = Some (trade_date tr) /\
    (trade_tag tr = "buy"%string \/ trade_tag tr = "sell"%string).
Proof.
  destruct (compute_weight_series [Fin 10; Fin 70; NaN; Fin 90; Fin 20]
              ["d0"; "d1"; "d2"; "d3"; "d4"]%string default_params 1)
    as [[ws [tr|]]|] eqn:E; try (vm_compute in E; discriminate E).
  destruct (last_trade_records_last_change _ _ _ _ _ _ E) as [_ H].
  destruct (H tr eq_refl) as (j & _ & Hd & _ & Htag & _).
  exists ws, tr, j. repeat split; auto.
Defined.

(** ** [core/backtest.py] *)

Section BacktestResultFacts.

Variables (dates : list string) (prices ratios : list pyfloat)
          (params : StrategyParams) (start_idx : nat).

(** The scalar fields of a returned result. *)
Lemma run_backtest_metrics (res : BacktestResult) :
  run_backtest dates prices ratios params start_idx = Some res ->
  Models.dates res = skipn start_idx dates /\
  exists last_hodl last_strat,
    last_or_one (hodl_equity res) = Some last_hodl /\
    last_or_one (strategy_equity res) = Some last_strat /\
    hodl_return res = last_hodl - 1 /\
    strategy_return res = last_strat - 1 /\
    hodl_max_drawdown res = max_drawdown (valid_values (hodl_equity res)) /\
    strategy_max_drawdown res
    = max_drawdown (valid_values (strategy_equity res)).
Proof.
  intro E. unfold run_backtest in E.
  destruct (compute_weight_series ratios dates params start_idx)
    as [[ws lt]|]; cbn [bind] in E; [|discriminate].
  destruct (list_set (repeat None (length (skipn start_idx dates))) 0 (Some 1))
    as [eq0|]; cbn [bind] in E; [|discriminate].
  destruct (equity_loop _ _ _ _ _ _) as [[hodl strat]|]; cbn [bind] in E;
    [|discriminate].
  destruct (last_or_one hodl) as [lh|] eqn:Elh; cbn [bind] in E;
    [|discriminate].
  destruct (last_or_one strat) as [ls|] eqn:Els; cbn [bind] in E;
    [|discriminate].
  injection E as <-. cbn. split; [reflexivity|].
  exists lh, ls. repeat split; assumption.
Qed.

Lemma run_backtest_empty :
  (length dates <= start_idx)%nat ->
  run_backtest dates prices ratios params start_idx = None.
Proof.
  intro H. unfold run_backtest.
  destruct (compute_weight_series ratios dates params start_idx)
    as [[ws lt]|]; cbn [bind]; [|reflexivity].
  rewrite skipn_all2 by exact H. reflexivity.
Qed.

Hypothesis start_weight_unit : 0 <= start_weight params <= 1.

(** The entries of both curves that are set are those up to one index [k],
    and each of them comes from the one before by compounding. *)
Lemma run_backtest_prefix (res : BacktestResult) :
  run_backtest dates prices ratios params start_idx = Some res ->
  let n := length (skipn start_idx dates) in
  exists k,
    (k < n)%nat /\
    length (hodl_equity res) = n /\ length (strategy_equity res) = n /\
    nth_error (hodl_equity res) 0 = Some (Some 1) /\
    nth_error (strategy_equity res) 0 = Some (Some 1) /\
    (forall j, (j <= k)%nat ->
       (exists h, nth_error (hodl_equity res) j = Some (Some h)) /\
       (exists s, nth_error (strategy_equity res) j = Some (Some s))) /\
    (forall j, (k < j)%nat -> (j < n)%nat ->
       nth_error (hodl_equity res) j = Some None /\
       nth_error (strategy_equity res) j = Some None) /\
    (forall t, (t < k)%nat ->
       compounds (skipn start_idx prices) (weights res)
         (hodl_equity res) (strategy_equity res) t).
Proof.
  intros E n.
  destruct (run_backtest_shape dates prices ratios params start_idx
              start_weight_unit res E)
    as (ws & lt & k & _ & _ & Hn & Hk & Hlh & Hls & Hh0 & Hs0
        & Hunset & Hcomp & _).
  exists k. fold n in Hn, Hk, Hlh, Hls, Hunset.
  split; [lia|]. split; [exact Hlh|]. split; [exact Hls|].
  split; [exact Hh0|]. split; [exact Hs0|]. split; [|split; assumption].
  intros j Hj. destruct j as [|j].
  - split; eexists; eassumption.
  - destruct (Hcomp j ltac:(lia))
      as (p0 & p1 & w & h & s & h1 & s1 & _ & _ & _ & _ & _ & Hh1 & _ & Hs1 & _).
    split; eexists; eassumption.
Qed.

End BacktestResultFacts.

(** X14: [run_backtest] raises when the start index is not a day of the series:
    the first entry of the empty equity list cannot be set. *)
Theorem run_backtest_rejects_empty_slice
  (dates : list string) (prices ratios : list pyfloat)
  (params : StrategyParams) (start_idx : nat) :
  (length dates <= start_idx)%nat ->
  run_backtest dates prices ratios params start_idx = None.
Proof. apply run_backtest_empty. Qed.

Lemma run_backtest_rejects_empty_slice_witness :
  run_backtest ["d0"; "d1"]%string [Fin 1; Fin 2] [Fin 0; Fin 0]
    default_params 2 = None.
Proof.
  apply (run_backtest_rejects_empty_slice ["d0"; "d1"]%string
           [Fin 1; Fin 2] [Fin 0; Fin 0] default_params 2).
  simpl; lia.
Defined.

(** X15: A simulation that stops leaves a common prefix: in a returned result,
    when an entry of either curve is set, that entry and every earlier one
    are set in both curves.  The reported return is the last entry minus 1
    when that entry is set, and 0 when it is not, whatever the curve reached
    before the stop. *)
Theorem halted_backtest_reports_zero_return
  (dates : list string) (prices ratios : list pyfloat)
  (params : StrategyParams) (start_idx : nat) (res : BacktestResult) :
  0 <= start_weight params <= 1 ->
  run_backtest dates prices ratios params start_idx = Some res ->
  let n := length (hodl_equity res) in
  length (strategy_equity res) = n /\
  (forall j j', (j <= j')%nat ->
     (exists v, nth_error (hodl_equity res) j' = Some (Some v)) \/
     (exists v, nth_error (strategy_equity res) j' = Some (Some v)) ->
     (exists h, nth_error (hodl_equity res) j = Some (Some h)) /\
     (exists s, nth_error (strategy_equity res) j = Some (Some s))) /\
  (nth_error (hodl_equity res) (n - 1) = Some None \/
   nth_error (strategy_equity res) (n - 1) = Some None ->
   hodl_return res == 0 /\ strategy_return res == 0) /\
  (forall h s,
      nth_error (hodl_equity res) (n - 1) = Some (Some h) ->
      nth_error (strategy_equity res) (n - 1) = Some (Some s) ->
      hodl_return res = h - 1 /\ strategy_return res = s - 1).
Proof.
  intros Hsw E n.
  destruct (run_backtest_prefix dates prices ratios params start_idx Hsw res E)
    as (k & Hk & Hlh & Hls & _ & _ & Hset & Hunset & _).
  destruct (run_backtest_metrics dates prices ratios params start_idx res E)
    as (_ & lh & ls & Elh & Els & -> & -> & _).
  unfold last_or_one, last_item in Elh, Els.
  rewrite Hls, <- Hlh in Els. fold n in Elh, Els.
  assert (Hn : n = length (skipn start_idx dates)) by exact Hlh.
  split; [unfold n; congruence|].
  split; [|split].
  - intros j j' Hj Hv.
    assert (Hj' : (j' <= k)%nat).
    { destruct (Nat.le_gt_cases j' k) as [H|H]; [exact H|].
      assert (Hlt : (j' < n)%nat).
      { destruct Hv as [[v Hv] | [v Hv]].
        - apply nth_error_Some. congruence.
        - rewrite Hn, <- Hls. apply nth_error_Some. congruence. }
      destruct (Hunset j' H ltac:(lia)) as [Hh Hs].
      destruct Hv as [[v Hv] | [v Hv]]; congruence. }
    apply Hset. lia.
  - intro Hlast.
    assert (Hk' : (k < n - 1)%nat).
    { destruct (Nat.lt_ge_cases k (n - 1)) as [H|H]; [exact H|].
      destruct (Hset (n - 1)%nat ltac:(lia)) as [[h Hh] [s Hs]].
      destruct Hlast; congruence. }
    destruct (Hunset (n - 1)%nat Hk' ltac:(lia)) as [Hh Hs].
    rewrite Hh in Elh. rewrite Hs in Els.
    cbn [bind] in Elh, Els. injection Elh as <-. injection Els as <-.
    split; ring.
  - intros h s Hh Hs. rewrite Hh in Elh. rewrite Hs in Els.
    cbn [bind] in Elh, Els. injection Elh as <-. injection Els as <-.
    split; reflexivity.
Qed.

Lemma halted_backtest_reports_zero_return_witness :
  exists res,
    run_backtest ["d0"; "d1"; "d2"; "d3"]%string
      [Fin 100; Fin 200; NaN; Fin 400] [Fin 0; Fin 0; Fin 0; Fin 0]
      default_params 0 = Some res /\
    nth_error (hodl_equity res) 1 = Some (Some 2.00) /\
    hodl_return res == 0.
Proof.
  destruct (run_backtest ["d0"; "d1"; "d2"; "d3"]%string
              [Fin 100; Fin 200; NaN; Fin 400] [Fin 0; Fin 0; Fin 0; Fin 0]
              default_params 0) as [res|] eqn:E;
    [|vm_compute in E; discriminate E].
  assert (Hsw : 0 <= start_weight default_params <= 1)
    by (split; unfold Qle; simpl; lia).
  destruct (halted_backtest_reports_zero_return _ _ _ _ _ res Hsw E)
    as (_ & _ & Hzero & _).
  exists res. split; [reflexivity|].
  vm_compute in E. injection E as <-.
  split; [reflexivity|]. apply Hzero. left. reflexivity.
Defined.

Section AllocationExtremes.

Variables (dates : list string) (prices ratios : list pyfloat)
          (params : StrategyParams) (start_idx : nat) (res : BacktestResult).

Hypothesis start_weight_unit : 0 <= start_weight params <= 1.

Hypothesis returned :
  run_backtest dates prices ratios params start_idx = Some res.

(** With the same factor every day, two curves that start equal stay
    equal. *)
Lemma strategy_curve_when (c : Q) (target : Q -> Q -> Prop) :
  (forall j w, nth_error (weights res) j = Some (Some w) -> w == c) ->
  target 1 1 ->
  (forall h s h1 s1 r,
      target h s -> h1 == h * r -> s1 == s * (c * r + (1 - c) * 1) ->
      target h1 s1) ->
  forall t h s,
    nth_error (hodl_equity res) t = Some (Some h) ->
    nth_error (strategy_equity res) t = Some (Some s) ->
    target h s.
Proof.
  intros Hw Hstart Hstep.
  destruct (run_backtest_prefix dates prices ratios params start_idx
              start_weight_unit res returned)
    as (k & Hk & Hlh & _ & Hh0 & Hs0 & _ & Hunset & Hcomp).
  induction t as [|t IH]; intros h s Eh Es.
  - rewrite Hh0 in Eh. rewrite Hs0 in Es.
    injection Eh as <-. injection Es as <-. exact Hstart.
  - assert (Ht : (t < k)%nat).
    { destruct (Nat.lt_ge_cases t k) as [H|H]; [exact H|].
      assert (Hlt : (S t < length (hodl_equity res))%nat)
        by (apply nth_error_Some; congruence).
      destruct (Hunset (S t) ltac:(lia) ltac:(lia)) as [Hn _]. congruence. }
    destruct (Hcomp t Ht)
      as (p0 & p1 & w & h0 & s0 & h1 & s1 & _ & _ & _ & Ew & Fh & Fh1 & Fs
          & Fs1 & Hh & Hs).
    rewrite Eh in Fh1. injection Fh1 as <-.
    rewrite Es in Fs1. injection Fs1 as <-.
    apply (Hstep h0 s0 h s (p1 / p0)).
    + apply IH; assumption.
    + exact Hh.
    + rewrite Hs. rewrite (Hw t w Ew). reflexivity.
Qed.

End AllocationExtremes.

(** X17: The two extremes of the allocation: when every allocation of the result
    is 1.0 the strategy curve is the hold curve, day by day; when every
    allocation is 0.0 the strategy curve stays at 1.0. *)
Theorem full_and_zero_allocation
  (dates : list string) (prices ratios : list pyfloat)
  (params : StrategyParams) (start_idx : nat) (res : BacktestResult) :
  0 <= start_weight params <= 1 ->
  run_backtest dates prices ratios params start_idx = Some res ->
  ((forall j w, nth_error (weights res) j = Some (Some w) -> w == 1) ->
   forall t h s,
     nth_error (hodl_equity res) t = Some (Some h) ->
     nth_error (strategy_equity res) t = Some (Some s) ->
     s == h) /\
  ((forall j w, nth_error (weights res) j = Some (Some w) -> w == 0) ->
   forall t s,
     nth_error (strategy_equity res) t = Some (Some s) -> s == 1).
Proof.
  intros Hsw E. split.
  - intros Hw t h s Eh Es.
    refine (strategy_curve_when dates prices ratios params start_idx res Hsw E
              1 (fun h s => s == h) Hw _ _ t h s Eh Es); [reflexivity|].
    intros h0 s0 h1 s1 r H0 Hh Hs. cbv beta in *. rewrite Hs, Hh, H0. ring.
  - intros Hw t s Es.
    destruct (run_backtest_prefix dates prices ratios params start_idx Hsw res E)
      as (k & Hk & Hlh & Hls & _ & _ & Hset & Hunset & _).
    assert (Ht : (t <= k)%nat).
    { destruct (Nat.le_gt_cases t k) as [H|H]; [exact H|].
      assert (Hlt : (t < length (strategy_equity res))%nat)
        by (apply nth_error_Some; congruence).
      destruct (Hunset t H ltac:(lia)) as [_ Hn]. congruence. }
    destruct (Hset t Ht) as [[h Eh] _].
    refine (strategy_curve_when dates prices ratios params start_idx res Hsw E
              0 (fun _ s => s == 1) Hw _ _ t h s Eh Es); [reflexivity|].
    intros h0 s0 h1 s1 r H0 Hh Hs. cbv beta in *. rewrite Hs, H0. ring.
Qed.

Lemma full_and_zero_allocation_witness :
  exists res h s,
    run_backtest ["d0"; "d1"; "d2"]%string [Fin 100; Fin 200; Fin 50]
      [Fin 0; Fin 0; Fin 0] default_params 0 = Some res /\
    nth_error (hodl_equity res) 2 = Some (Some h) /\
    nth_error (strategy_equity res) 2 = Some (Some s) /\
    s == h.
Proof.
  assert (Hsw : 0 <= start_weight default_params <= 1)
    by (split; unfold Qle; simpl; lia).
  destruct (run_backtest ["d0"; "d1"; "d2"]%string
              [Fin 100; Fin 200; Fin 50] [Fin 0; Fin 0; Fin 0]
              default_params 0) as [res|] eqn:E;
    [|vm_compute in E; discriminate E].
  destruct (full_and_zero_allocation _ _ _ _ _ res Hsw E) as [Hfull _].
  vm_compute in E. injection E as <-.
  eexists; eexists; eexists. split; [reflexivity|].
  split; [reflexivity|]. split; [reflexivity|].
  apply (Hfull) with (t := 2%nat); try reflexivity.
  intros [|[|[|j]]] w Hw; simpl in Hw; try (injection Hw as <-; reflexivity);
    destruct j; discriminate.
Defined.

(** ** The backtest page *)

Section StartIndex.

Lemma first_index_from_found (dates : list string) (start_date : string) :
  forall i k,
    first_index_from dates start_date i = Some k ->
    exists j d,
      k = (i + j)%nat /\ nth_error dates j = Some d /\
      (start_date <=? d)%string = true /\
      forall j' d', (j' < j)%nat -> nth_error dates j' = Some d' ->
                    (start_date <=? d')%string = false.
Proof.
  induction dates as [|d t IH]; intros i k E; cbn [first_index_from] in E;
    [discriminate|].
  destruct (start_date <=? d)%string eqn:Ed.
  - injection E as <-. exists 0%nat, d.
    split; [lia|]. split; [reflexivity|]. split; [exact Ed|].
    intros j' d' Hj. lia.
  - destruct (IH (S i) k E) as (j & d0 & Hk & Hn & Hd0 & Hbefore).
    exists (S j), d0. split; [lia|]. split; [exact Hn|]. split; [exact Hd0|].
    intros [|j'] d' Hj Hn'; simpl in Hn'.
    + injection Hn' as <-. exact Ed.
    + apply (Hbefore j' d'); [lia | exact Hn'].
Qed.

Lemma first_index_from_none (dates : list string) (start_date : string) :
  forall i,
    first_index_from dates start_date i = None <->
    forall d, In d dates -> (start_date <=? d)%string = false.
Proof.
  induction dates as [|d t IH]; intro i; cbn [first_index_from].
  - split; [intros _ d [] | reflexivity].
  - destruct (start_date <=? d)%string eqn:Ed.
    + split; [discriminate|]. intro H.
      rewrite (H d (or_introl eq_refl)) in Ed. discriminate.
    + rewrite (IH (S i)). split.
      * intros H d' [<-|Hin]; [exact Ed | apply H; exact Hin].
      * intros H d' Hin. apply H. right. exact Hin.
Qed.

Lemma start_index_lt (dates : list string) (start_date : string) :
  dates <> [] -> (start_index dates start_date < length dates)%nat.
Proof.
  intro Hne. unfold start_index.
  destruct (first_index_from dates start_date 0) as [k|] eqn:E.
  - destruct (first_index_from_found _ _ _ _ E) as (j & d & -> & Hn & _).
    simpl. apply nth_error_Some. congruence.
  - destruct dates; [contradiction | simpl; lia].
Qed.

End StartIndex.

(** X18: The page starts the backtest at the first day whose date is not before
    the start date: that day's date is at or after it and every earlier
    day's date is before it.  When no date reaches the start date, index 0
    is used, so a start date after the last day selects the whole
    history. *)
Theorem start_index_first_day (dates : list string) (start_date : string) :
  let i := start_index dates start_date in
  ((exists d, In d dates /\ (start_date <=? d)%string = true) ->
   exists d,
     nth_error dates i = Some d /\ (start_date <=? d)%string = true /\
     forall j d', (j < i)%nat -> nth_error dates j = Some d' ->
                  (start_date <=? d')%string = false) /\
  ((forall d, In d dates -> (start_date <=? d)%string = false) -> i = 0%nat).
Proof.
  cbv zeta. unfold start_index.
  destruct (first_index_from dates start_date 0) as [k|] eqn:E.
  - destruct (first_index_from_found _ _ _ _ E) as (j & d & -> & Hn & Hd & Hb).
    cbn [Nat.add]. split.
    + intros _. exists d. repeat split; assumption.
    + intro Hall. apply nth_error_In in Hn.
      rewrite (Hall d Hn) in Hd. discriminate.
  - split; [|reflexivity].
    intros (d & Hin & Hd).
    rewrite (first_index_from_none dates start_date 0) in E.
    rewrite (E d Hin) in Hd. discriminate.
Qed.

Lemma start_index_first_day_witness :
  start_index ["2017-12-30"; "2018-01-02"; "2018-01-03"]%string "2018-01-01"%string
  = 1%nat /\
  start_index ["2017-12-30"; "2018-01-02"; "2018-01-03"]%string "2019-06-01"%string
  = 0%nat.
Proof.
  split.
  - destruct (start_index_first_day
                ["2017-12-30"; "2018-01-02"; "2018-01-03"]%string "2018-01-01"%string)
      as [H _].
    destruct H as (d & Hn & Hd & Hb).
    + exists "2018-01-02"%string. split; [simpl; tauto | reflexivity].
    + reflexivity.
  - destruct (start_index_first_day
                ["2017-12-30"; "2018-01-02"; "2018-01-03"]%string "2019-06-01"%string)
      as [_ H].
    apply H. intros d [<-|[<-|[<-|[]]]]; reflexivity.
Defined.

(** X19: With one price and one ratio per date and a start weight in [0,1], the
    page's guard keeps the engine from raising: the page returns its "no
    backtest" marker exactly when the start day is the last day (or there is
    no day), and otherwise the engine's result, whose curves have one entry
    per day from the start day on, at least two, and start at 1.0. *)
Theorem page_backtest_never_raises
  (channel_data : ChannelData) (params : StrategyParams) :
  length (series_price channel_data) = length (series_date channel_data) ->
  length (series_ratio channel_data) = length (series_date channel_data) ->
  0 <= start_weight params <= 1 ->
  let dates := series_date channel_data in
  let start_idx := start_index dates (start_date params) in
  exists out,
    page_run_backtest channel_data params = Some out /\
    (out = NoBacktest <-> (length dates - 1 <= start_idx)%nat) /\
    (forall res, out = Backtest res ->
       (2 <= length (hodl_equity res))%nat /\
       length (hodl_equity res) = (length dates - start_idx)%nat /\
       length (strategy_equity res) = (length dates - start_idx)%nat /\
       nth_error (hodl_equity res) 0 = Some (Some 1) /\
       nth_error (strategy_equity res) 0 = Some (Some 1)).
Proof.
  intros Hp Hr Hsw dates start_idx. unfold page_run_backtest.
  fold dates. fold start_idx.
  destruct (Nat.leb_spec (length dates - 1) start_idx) as [Hle|Hgt].
  - exists NoBacktest. split; [reflexivity|]. split; [tauto|].
    intros res H. discriminate.
  - destruct (run_backtest_total dates (map Fin (series_price channel_data))
                (map Fin (series_ratio channel_data)) params start_idx Hsw)
      as [res E]; rewrite ?length_map; try assumption; try lia.
    rewrite E. cbn [bind]. exists (Backtest res).
    split; [reflexivity|]. split.
    + split; [discriminate | intro; lia].
    + intros res' H. injection H as <-.
      destruct (run_backtest_prefix _ _ _ _ _ Hsw res E)
        as (k & _ & Hlh & Hls & Hh0 & Hs0 & _).
      rewrite length_skipn in Hlh, Hls.
      repeat split; try assumption. lia.
Qed.

Lemma page_backtest_never_raises_witness :
  let cd := {| series_date := ["2018-01-01"; "2018-01-02"; "2018-01-03"]%string;
               series_price := [100; 200; 100];
               series_ratio := [0; 0; 0];
               extended_trough_line_price := [];
               extended_peak_line_price := [] |} in
  exists out, page_run_backtest cd default_params = Some out /\
              out <> NoBacktest.
Proof.
  intro cd.
  destruct (page_backtest_never_raises cd default_params)
    as (out & E & Hno & _).
  - reflexivity.
  - reflexivity.
  - split; unfold Qle; simpl; lia.
  - exists out. split; [exact E|].
    intro H. apply Hno in H. vm_compute in H. lia.
Defined.

(** ** The accessors of [ChannelData] *)

Section Accessors.

Lemma py_index_nonneg {A : Type} (l : list A) (i : nat) :
  py_index l (Z.of_nat i) = nth_error l i.
Proof.
  unfold py_index.
  destruct (Z.leb_spec 0 (Z.of_nat i)); [|lia].
  rewrite Nat2Z.id. reflexivity.
Qed.

Lemma py_index_minus_one {A : Type} (l : list A) :
  py_index l (-1) = last_item l.
Proof.
  unfold py_index, last_item. change (0 <=? -1)%Z with false. cbv iota.
  destruct l as [|x t]; [reflexivity|].
  destruct (Z.leb_spec (- Z.of_nat (length (x :: t))) (-1));
    [|cbn [length] in *; lia].
  f_equal. lia.
Qed.

(** The body shared by [last_trough] and [last_peak], on the length of the
    price series and one extended line. *)
Lemma bound_at_last_price (n : nat) (line : list Q) :
  let idx := (Z.of_nat n - 1)%Z in
  let out := if (idx <? Z.of_nat (length line))%Z
             then py_index line idx else Some 0 in
  ((0 < n <= length line)%nat -> out = nth_error line (n - 1)) /\
  ((length line < n)%nat -> out = Some 0) /\
  (n = 0%nat -> out = last_item line).
Proof.
  cbv zeta. split; [|split].
  - intro H.
    destruct (Z.ltb_spec (Z.of_nat n - 1) (Z.of_nat (length line))); [|lia].
    replace (Z.of_nat n - 1)%Z with (Z.of_nat (n - 1)) by lia.
    apply py_index_nonneg.
  - intro H.
    destruct (Z.ltb_spec (Z.of_nat n - 1) (Z.of_nat (length line))); [lia|].
    reflexivity.
  - intros ->.
    destruct (Z.ltb_spec (Z.of_nat 0 - 1) (Z.of_nat (length line))); [|lia].
    apply py_index_minus_one.
Qed.

End Accessors.

(** X20: [last_trough] and [last_peak] read the extended line at the position of
    the last price: with a non-empty price series no longer than the line
    they return the line's value at that position; with a line shorter than
    the price series they return 0.0.  With an empty price series the index
    is -1: they return the LAST value of the extended line (its far end),
    and raise when the line is empty too, whereas [last_close] returns 0.0
    for an empty price series and the last price otherwise. *)
Theorem last_bounds_follow_last_price (cd : ChannelData) :
  let n := length (series_price cd) in
  ((0 < n <= length (extended_trough_line_price cd))%nat ->
   last_trough cd = nth_error (extended_trough_line_price cd) (n - 1) /\
   exists v, last_trough cd = Some v) /\
  ((0 < n <= length (extended_peak_line_price cd))%nat ->
   last_peak cd = nth_error (extended_peak_line_price cd) (n - 1) /\
   exists v, last_peak cd = Some v) /\
  ((length (extended_trough_line_price cd) < n)%nat ->
   last_trough cd = Some 0) /\
  ((length (extended_peak_line_price cd) < n)%nat ->
   last_peak cd = Some 0) /\
  (n = 0%nat ->
   last_trough cd = last_item (extended_trough_line_price cd) /\
   last_peak cd = last_item (extended_peak_line_price cd) /\
   (extended_trough_line_price cd = [] -> last_trough cd = None) /\
   last_close cd = Some 0) /\
  ((0 < n)%nat -> last_close cd = last_item (series_price cd)).
Proof.
  cbv zeta.
  destruct (bound_at_last_price (length (series_price cd))
              (extended_trough_line_price cd)) as (Ht1 & Ht2 & Ht3).
  destruct (bound_at_last_price (length (series_price cd))
              (extended_peak_line_price cd)) as (Hp1 & Hp2 & Hp3).
  cbv zeta in *. fold (last_trough cd) in Ht1, Ht2, Ht3.
  fold (last_peak cd) in Hp1, Hp2, Hp3.
  repeat split.
  - apply Ht1; assumption.
  - rewrite (Ht1 H).
    destruct (nth_error (extended_trough_line_price cd)
                (length (series_price cd) - 1)) as [v|] eqn:E;
      [exists v; reflexivity|].
    apply nth_error_None in E. lia.
  - apply Hp1; assumption.
  - rewrite (Hp1 H).
    destruct (nth_error (extended_peak_line_price cd)
                (length (series_price cd) - 1)) as [v|] eqn:E;
      [exists v; reflexivity|].
    apply nth_error_None in E. lia.
  - exact Ht2.
  - exact Hp2.
  - apply Ht3; assumption.
  - apply Hp3; assumption.
  - intro Hl. rewrite (Ht3 H), Hl. reflexivity.
  - unfold last_close. destruct (series_price cd); [reflexivity|discriminate].
  - intro H. unfold last_close.
    destruct (series_price cd) as [|p t] eqn:E; [simpl in H; lia|].
    apply py_index_minus_one.
Qed.

Lemma last_bounds_follow_last_price_witness :
  let cd := {| series_date := []; series_price := []; series_ratio := [];
               extended_trough_line_price := [10; 20; 30];
               extended_peak_line_price := [] |} in
  last_trough cd = Some 30 /\ last_peak cd = None /\ last_close cd = Some 0.
Proof.
  intro cd.
  destruct (last_bounds_follow_last_price cd)
    as (_ & _ & _ & _ & H & _).
  destruct (H eq_refl) as (Ht & Hp & _ & Hc).
  rewrite Ht, Hp, Hc. repeat split; reflexivity.
Defined.

(** ** The extended dates of [compute_channel] *)

Section ExtendedDates.

Lemma map_np_arange_shift (c a b : Z) :
  map (fun d => (c + d)%Z) (np_arange a b) = np_arange (c + a) (c + b).
Proof.
  unfold np_arange. rewrite map_map.
  replace (c + b - (c + a))%Z with (b - a)%Z by lia.
  apply map_ext. intro k. lia.
Qed.

Lemma np_arange_split (a b c : Z) :
  (a <= b <= c)%Z -> np_arange a c = np_arange a b ++ np_arange b c.
Proof.
  intro H. unfold np_arange.
  replace (Z.to_nat (c - a)) with (Z.to_nat (b - a) + Z.to_nat (c - b))%nat
    by lia.
  rewrite seq_app, map_app. f_equal. cbn [Nat.add].
  assert (G : forall n s,
             map (fun k => (a + Z.of_nat k)%Z) (seq (Z.to_nat (b - a) + s) n)
             = map (fun k => (b + Z.of_nat k)%Z) (seq s n)).
  { induction n as [|n IHn]; intro s; cbn [seq map]; [reflexivity|].
    f_equal; [lia|]. rewrite <- Nat.add_succ_r. apply IHn. }
  specialize (G (Z.to_nat (c - b)) 0%nat). rewrite Nat.add_0_r in G. exact G.
Qed.

Lemma np_arange_empty (a b : Z) : (b <= a)%Z -> np_arange a b = [].
Proof.
  intro H. unfold np_arange. replace (Z.to_nat (b - a)) with 0%nat by lia.
  reflexivity.
Qed.

End ExtendedDates.

(** X21: The extended dates and the extended days stay aligned: both are built or
    both fail, and the day number of every extended date is the extended
    day at the same position; in particular the two have the same length.
    For a non-empty, sorted date column the extended dates are the observed
    dates followed by every calendar day from the day after the last one
    through the day AFTER the horizon date. *)
Theorem extended_dates_match_days
  (self : ChannelCalculator) (dates : list Z) :
  all_days_extended self dates
  = option_map (map (age_days self)) (all_dates_extended self dates) /\
  (Sorted Z.le dates -> dates <> [] ->
   exists last_date,
     last_item dates = Some last_date /\
     all_dates_extended self dates
     = Some (dates ++ np_arange (last_date + 1) (target_date + 2))).
Proof.
  split.
  - unfold all_days_extended, all_dates_extended.
    destruct (max_date dates) as [m|]; cbn [bind option_map]; [|reflexivity].
    destruct (last_item (map (age_days self) dates)) as [l|];
      cbn [bind option_map]; [|reflexivity].
    rewrite map_app, map_map. f_equal. f_equal.
    rewrite <- (map_id (np_arange _ _)) at 1.
    apply map_ext. intro d. unfold age_days. lia.
  - intros Hs Hne.
    destruct (last_item dates) as [last_date|] eqn:El.
    2:{ destruct dates as [|d t]; [contradiction|].
        rewrite (last_item_last (d :: t) d) in El by discriminate.
        discriminate. }
    exists last_date. split; [reflexivity|].
    unfold all_dates_extended.
    rewrite (max_date_sorted dates Hs), El. cbn [bind].
    rewrite last_item_map, El. cbn [option_map bind].
    f_equal. f_equal.
    rewrite <- (map_ext (fun d => (genesis self - 1 + d)%Z)) by (intro; lia).
    rewrite map_np_arange_shift. unfold age_days. f_equal; lia.
Qed.

Lemma extended_dates_match_days_witness :
  exists last_date,
    last_item [days_from_civil 2030 12 29; days_from_civil 2030 12 30]
    = Some last_date /\
    all_dates_extended default_calculator
      [days_from_civil 2030 12 29; days_from_civil 2030 12 30]
    = Some [days_from_civil 2030 12 29; days_from_civil 2030 12 30;
            days_from_civil 2030 12 31; days_from_civil 2031 1 1].
Proof.
  destruct (extended_dates_match_days default_calculator
              [days_from_civil 2030 12 29; days_from_civil 2030 12 30])
    as [_ H].
  destruct H as (last_date & El & E).
  - repeat constructor. vm_compute. discriminate.
  - discriminate.
  - exists last_date. split; [exact El|]. rewrite E.
    vm_compute in El. injection El as <-. reflexivity.
Defined.

(** ** The request windows of the price loader *)

Section RequestWindows.

Variables (end_date chunk_days : Z).

Lemma date_add_in_range (d n : Z) :
  (date_min <= d + n <= date_max)%Z -> date_add d n = Some (d + n)%Z.
Proof.
  intro H. unfold date_add.
  destruct (Z.leb_spec date_min (d + n)); [|lia].
  destruct (Z.leb_spec (d + n) date_max); [|lia]. reflexivity.
Qed.

Lemma date_range_width : (date_max - date_min < 999999999)%Z.
Proof. vm_compute. reflexivity. Qed.

Lemma timedelta_days_in_range (n : Z) :
  (Z.abs n <= 999999999)%Z -> timedelta_days n = Some n.
Proof.
  intro H. unfold timedelta_days.
  destruct (Z.leb_spec (Z.abs n) 999999999); [reflexivity | lia].
Qed.

(** One iteration of the loop for a positive chunk length and dates within
    the range of [date]. *)
Lemma request_windows_step (fuel : nat) (cur : Z) :
  (1 <= chunk_days)%Z -> (date_min <= cur <= end_date)%Z ->
  (end_date + chunk_days <= date_max)%Z ->
  let chunk_end := Z.min (cur + (chunk_days - 1)) end_date in
  request_windows (S fuel) cur end_date chunk_days
  = match request_windows fuel (chunk_end + 1) end_date chunk_days with
    | LoopEnds rest =>
        LoopEnds ({| window_start := cur; window_end := chunk_end;
                     window_samples :=
                       Z.min 2000 (Z.max 250 ((chunk_end - cur + 1) * 8)) |}
                  :: rest)
    | other => other
    end.
Proof.
  intros Hc Hcur Hmax. cbv zeta. cbn [request_windows].
  pose proof date_range_width as Hw.
  destruct (Z.leb_spec cur end_date); [|lia].
  rewrite timedelta_days_in_range by lia.
  rewrite date_add_in_range by lia.
  rewrite date_add_in_range by lia.
  reflexivity.
Qed.

Lemma request_windows_done (fuel : nat) (cur : Z) :
  (end_date < cur)%Z ->
  request_windows fuel cur end_date chunk_days = LoopEnds [].
Proof.
  intro H. destruct fuel; cbn [request_windows];
    destruct (Z.leb_spec cur end_date); try lia; reflexivity.
Qed.

Lemma request_windows_cover_from :
  (1 <= chunk_days)%Z -> (end_date + chunk_days <= date_max)%Z ->
  forall (fuel : nat) (cur : Z),
    (date_min <= cur)%Z ->
    (Z.to_nat (end_date - cur + 1) <= fuel)%nat ->
    exists ws,
      request_windows fuel cur end_date chunk_days = LoopEnds ws /\
      window_days ws = np_arange cur (end_date + 1) /\
      Forall (fun w =>
                (cur <= window_start w <= window_end w)%Z /\
                (window_end w <= end_date)%Z /\
                (window_end w - window_start w + 1 <= chunk_days)%Z /\
                (250 <= window_samples w <= 2000)%Z) ws /\
      (forall i w, nth_error ws i = Some w -> (S i < length ws)%nat ->
                   (window_end w - window_start w + 1 = chunk_days)%Z).
Proof.
  intros Hc Hmax. induction fuel as [|fuel IH]; intros cur Hmin Hfuel.
  - exists []. rewrite request_windows_done by lia.
    split; [reflexivity|]. split.
    + rewrite np_arange_empty by lia. reflexivity.
    + split; [constructor|]. intros [|i] w H; discriminate.
  - destruct (Z.le_gt_cases cur end_date) as [Hle|Hgt].
    2:{ exists []. rewrite request_windows_done by lia.
        split; [reflexivity|]. split.
        - rewrite np_arange_empty by lia. reflexivity.
        - split; [constructor|]. intros [|i] w H; discriminate. }
    rewrite request_windows_step by lia. cbv zeta.
    set (chunk_end := Z.min (cur + (chunk_days - 1)) end_date).
    assert (Hce : (cur <= chunk_end <= end_date)%Z) by (unfold chunk_end; lia).
    destruct (IH (chunk_end + 1)%Z ltac:(lia) ltac:(lia))
      as (rest & Er & Hdays & Hall & Hfull).
    rewrite Er. eexists. split; [reflexivity|].
    split; [|split].
    + unfold window_days in *. cbn [flat_map window_start window_end].
      rewrite Hdays. symmetry. apply np_arange_split. lia.
    + constructor.
      * cbn [window_start window_end window_samples].
        unfold chunk_end in *. lia.
      * eapply Forall_impl; [|exact Hall]. cbv beta. intros w Hw. lia.
    + intros [|i] w Hn Hi; cbn [nth_error length] in *.
      * injection Hn as <-. cbn [window_start window_end].
        destruct rest as [|r rest']; [simpl in Hi; lia|].
        destruct (Z.le_gt_cases (chunk_end + 1) end_date) as [Hmore|Hno].
        -- unfold chunk_end in *. lia.
        -- rewrite request_windows_done in Er by lia. discriminate.
      * apply (Hfull i w Hn). lia.
Qed.

Lemma request_windows_never_end :
  (chunk_days <= 0)%Z ->
  forall (fuel : nat) (cur : Z),
    (cur <= end_date)%Z ->
    forall ws, request_windows fuel cur end_date chunk_days <> LoopEnds ws.
Proof.
  intros Hc. induction fuel as [|fuel IH]; intros cur Hcur ws;
    cbn [request_windows]; destruct (Z.leb_spec cur end_date); try lia;
    [discriminate|].
  unfold timedelta_days, date_add.
  destruct (Z.abs (chunk_days - 1) <=? 999999999)%Z; [|discriminate].
  destruct ((date_min <=? cur + (chunk_days - 1))
            && (cur + (chunk_days - 1) <=? date_max))%Z; [|discriminate].
  set (chunk_end := Z.min (cur + (chunk_days - 1)) end_date).
  destruct ((date_min <=? chunk_end + 1) && (chunk_end + 1 <=? date_max))%Z;
    [|discriminate].
  specialize (IH (chunk_end + 1)%Z ltac:(unfold chunk_end; lia)).
  destruct (request_windows fuel (chunk_end + 1) end_date chunk_days) as [rest| |];
    [exfalso; apply (IH rest); reflexivity | discriminate | discriminate].
Qed.

Lemma request_windows_zero_runs :
  chunk_days = 0%Z ->
  forall (fuel : nat) (cur : Z),
    (date_min < cur <= date_max)%Z -> (cur <= end_date)%Z ->
    request_windows fuel cur end_date chunk_days = LoopRuns.
Proof.
  intros ->. induction fuel as [|fuel IH]; intros cur Hr Hcur;
    cbn [request_windows]; destruct (Z.leb_spec cur end_date); try lia;
    [reflexivity|].
  rewrite timedelta_days_in_range by (cbn; lia).
  rewrite date_add_in_range by lia.
  replace (Z.min (cur + (0 - 1)) end_date) with (cur - 1)%Z by lia.
  rewrite date_add_in_range by lia.
  replace (cur - 1 + 1)%Z with cur by lia.
  rewrite (IH cur Hr Hcur). reflexivity.
Qed.

End RequestWindows.

(** X22: For a chunk length of at least one day and dates within the range of
    [date], the loop of the loader ends, and its requests cover every day
    from the start date through the end date exactly once and in order:
    each window starts the day after the previous one ends.  No window is
    longer than the chunk length, every window but the last has exactly that
    length, and every sample count lies between 250 and 2000.  When the
    start date is after the end date no request is sent. *)
Theorem request_windows_cover (start_date end_date chunk_days : Z) (fuel : nat) :
  (1 <= chunk_days)%Z ->
  (date_min <= start_date)%Z -> (end_date + chunk_days <= date_max)%Z ->
  (Z.to_nat (end_date - start_date + 1) <= fuel)%nat ->
  exists ws,
    request_windows fuel start_date end_date chunk_days = LoopEnds ws /\
    window_days ws = np_arange start_date (end_date + 1) /\
    Forall (fun w =>
              (start_date <= window_start w <= window_end w)%Z /\
              (window_end w <= end_date)%Z /\
              (window_end w - window_start w + 1 <= chunk_days)%Z /\
              (250 <= window_samples w <= 2000)%Z) ws /\
    (forall i w, nth_error ws i = Some w -> (S i < length ws)%nat ->
                 (window_end w - window_start w + 1 = chunk_days)%Z) /\
    ((end_date < start_date)%Z -> ws = []).
Proof.
  intros Hc Hmin Hmax Hfuel.
  destruct (request_windows_cover_from end_date chunk_days Hc Hmax fuel
              start_date Hmin Hfuel) as (ws & E & Hd & Hall & Hfull).
  exists ws. repeat split; try assumption.
  intro Hlt. rewrite request_windows_done in E by exact Hlt.
  injection E as <-. reflexivity.
Qed.

Lemma request_windows_cover_witness :
  exists ws,
    request_windows 10 (days_from_civil 2024 1 1) (days_from_civil 2024 1 5) 2
    = LoopEnds ws /\
    length ws = 3%nat.
Proof.
  destruct (request_windows_cover (days_from_civil 2024 1 1)
              (days_from_civil 2024 1 5) 2 10)
    as (ws & E & _).
  - lia.
  - vm_compute. discriminate.
  - vm_compute. discriminate.
  - vm_compute. lia.
  - exists ws. split; [exact E|].
    vm_compute in E. injection E as <-. reflexivity.
Defined.

(** X23: With a chunk length of zero or less the loop never ends normally once it
    is entered: the current date does not advance, so whatever the number of
    iterations the loop is still running or its date arithmetic has raised.
    With a chunk length of exactly 0 and a start date within the range of
    [date] it runs forever, sending the same request again and again. *)
Theorem request_windows_need_positive_chunk
  (start_date end_date chunk_days : Z) (fuel : nat) :
  (chunk_days <= 0)%Z -> (start_date <= end_date)%Z ->
  (forall ws,
     request_windows fuel start_date end_date chunk_days <> LoopEnds ws) /\
  (chunk_days = 0%Z -> (date_min < start_date <= date_max)%Z ->
   request_windows fuel start_date end_date chunk_days = LoopRuns).
Proof.
  intros Hc Hle. split.
  - apply request_windows_never_end; assumption.
  - intros H0 Hr. apply request_windows_zero_runs; assumption.
Qed.

Lemma request_windows_need_positive_chunk_witness :
  request_windows 1000 (days_from_civil 2024 1 1) (days_from_civil 2024 1 5) 0
  = LoopRuns.
Proof.
  destruct (request_windows_need_positive_chunk (days_from_civil 2024 1 1)
              (days_from_civil 2024 1 5) 0 1000) as [_ H].
  - lia.
  - vm_compute. discriminate.
  - apply H; [reflexivity|]. vm_compute. split; [reflexivity | discriminate].
Defined.
